(** * MedWise AI: the donate/dispose decision table, the retry wrapper,
      the medicine-details cache and the distance ranking

    A shallow embedding of
      - [getDonateDisposeRecommendation] (server/routes/donateDispose.ts),
      - [getRecommendation], [calculateDistance] and the sort/filter chain of
        [getUserLocation] / [findDonationCenters] (the DonateDispose page),
      - [callWithRetry], [getMedicineDetails], [analyzeOCRText]
        (server/services/aiService.ts),
    with the properties of the specification stated over it. *)

From Stdlib Require Import ZArith QArith List String Ascii Bool Lia.
From Stdlib Require Import Qabs Qround Qpower Qfield Sorted Permutation.
From Stdlib Require Import DecimalString Floats.
From stdpp Require Import gmap strings.
Import ListNotations.

(* A decimal constant of type [float] denotes the nearest binary64 number,
   as a numeric literal does in JavaScript. *)
Set Warnings "-inexact-float".

Local Open Scope Z_scope.

(** ** JavaScript dates

    A [Date] is its time value: milliseconds since the epoch, or NaN for an
    invalid date ([None]).  [new Date(s)] on a string is [Date_parse]; what it
    accepts beyond the ISO forms is left to the engine, so the development is
    parametric in it.  [parseISODate] is the date-only ISO form
    [YYYY-MM-DD], which ECMAScript reads as midnight UTC of that day and which
    is what an [<input type="date">] produces. *)

Module JsDate.

Definition msPerDay : Z := 86400000.

(** [a < b] on dates compares the time values; a comparison with NaN is
    false. *)
Definition lt (a : option Z) (b : Z) : bool :=
  match a with
  | Some t => t <? b
  | None => false
  end.

(** [today.setHours(0, 0, 0, 0)] in a zone whose local time is UTC + [tza]
    milliseconds (a fixed offset: daylight-saving changes are not modelled). *)
Definition setHours0 (tza now : Z) : Z :=
  (now + tza) / msPerDay * msPerDay - tza.

(** The local calendar day (days since the epoch) of the instant [now]. *)
Definition localDay (tza now : Z) : Z := (now + tza) / msPerDay.

(** Days since the epoch of the civil date [y]-[m]-[d]. *)
Definition daysFromCivil (y m d : Z) : Z :=
  let y' := if m <=? 2 then y - 1 else y in
  let era := y' / 400 in
  let yoe := y' - era * 400 in
  let mp := if m <=? 2 then m + 9 else m - 3 in
  let doy := (153 * mp + 2) / 5 + d - 1 in
  let doe := yoe * 365 + yoe / 4 - yoe / 100 + doy in
  era * 146097 + doe - 719468.

Definition isLeap (y : Z) : bool :=
  ((y mod 4 =? 0) && negb (y mod 100 =? 0)) || (y mod 400 =? 0).

Definition daysInMonth (y m : Z) : Z :=
  if m =? 2 then (if isLeap y then 29 else 28)
  else if (m =? 4) || (m =? 6) || (m =? 9) || (m =? 11) then 30
  else 31.

Definition digit (c : ascii) : option Z :=
  let n := Z.of_N (N_of_ascii c) in
  if (48 <=? n) && (n <=? 57) then Some (n - 48) else None.

Fixpoint digits (acc : Z) (l : list ascii) : option Z :=
  match l with
  | [] => Some acc
  | c :: l' =>
      match digit c with
      | Some k => digits (10 * acc + k) l'
      | None => None
      end
  end.

(** The date-only form [YYYY-MM-DD]; everything else is NaN here. *)
Definition parseISODate (s : string) : option Z :=
  match list_ascii_of_string s with
  | [y1; y2; y3; y4; "-"%char; m1; m2; "-"%char; d1; d2] =>
      match digits 0 [y1; y2; y3; y4], digits 0 [m1; m2], digits 0 [d1; d2] with
      | Some y, Some m, Some d =>
          if (1 <=? m) && (m <=? 12) && (1 <=? d) && (d <=? daysInMonth y m)
          then Some (daysFromCivil y m d * msPerDay)
          else None
      | _, _, _ => None
      end
  | _ => None
  end.

End JsDate.

(** A JavaScript string (or a missing one) in a condition: [undefined] and
    the empty string are falsy. *)
Definition truthy (s : option string) : bool :=
  match s with
  | Some (String _ _) => true
  | _ => false
  end.

(** ** The page's classifier: [getRecommendation] *)

Module Client.

Inductive Condition := unopened | opened | partial.
Inductive MedicineType := prescription | otc | controlled | not_sure.

(** [Partial<MedicineInfo>]: every field may be absent. *)
Record MedicineInfo := {
  name : option string;
  manufacturer : option string;
  expiryDate : option string;
  batchNumber : option string;
  strength : option string;
  condition : option Condition;
  medicineType : option MedicineType
}.

Inductive Kind := keep | donate | dispose | consult.

Record Recommendation := {
  recommendation : Kind;
  reasoning : string;
  instructions : list string;
  resources : list string;
  warnings : list string
}.

Definition Condition_eqb (a b : Condition) : bool :=
  match a, b with
  | unopened, unopened | opened, opened | partial, partial => true
  | _, _ => false
  end.

Definition MedicineType_eqb (a b : MedicineType) : bool :=
  match a, b with
  | prescription, prescription | otc, otc
  | controlled, controlled | not_sure, not_sure => true
  | _, _ => false
  end.

(** [x === 'lit']: an absent field equals no literal. *)
Definition strictEq {A} (eqb : A -> A -> bool) (x : option A) (lit : A) : bool :=
  match x with
  | Some v => eqb v lit
  | None => false
  end.

Section WithEngine.

Variable Date_parse : string -> option Z.

(** [new Date(medicineInfo.expiryDate!)]: [new Date(undefined)] is invalid. *)
Definition newDate (s : option string) : option Z :=
  match s with
  | Some v => Date_parse v
  | None => None
  end.

(** [getRecommendation], as a function of the component state it closes over
    and of the clock.  [None] is the early [return]: no recommendation is
    set. *)
Definition getRecommendation (medicineInfo : MedicineInfo)
    (expiryNotAvailable : bool) (now : Z) : option Recommendation :=
  if negb (truthy (name medicineInfo))
     || (negb (truthy (expiryDate medicineInfo)) && negb expiryNotAvailable)
  then None
  else if expiryNotAvailable then
    Some {|
      recommendation := consult;
      reasoning := "Since the expiry date is not visible, we cannot confirm its safety. Consuming or donating medicine with an unknown expiry date poses significant health risks.";
      instructions := [
        "Please consult a pharmacist for professional identification if possible.";
        "If the medicine cannot be identified, follow safe disposal guidelines.";
        "Do not share or donate this medicine."
      ];
      resources := ["Pharmacist Consultation"; "Safe Disposal Guidelines"];
      warnings := ["Unknown expiry dates are a major safety concern."]
    |}%string
  else
    let today := now in
    let expiry := newDate (expiryDate medicineInfo) in
    let isExpired := JsDate.lt expiry today in
    if isExpired then
      Some {|
        recommendation := dispose;
        reasoning := "This medicine has passed its expiration date. Expired medicines can be less effective or even risky due to changes in chemical composition.";
        instructions := [
          "Do not consume or donate this medicine.";
          "Use a drug take-back program if available.";
          "If throwing in trash: Mix with unpalatable substance (dirt, kitty litter), seal in a bag, and scratch out personal info."
        ];
        resources := ["FDA Disposal Guidelines"; "Local Pharmacy Take-back"];
        warnings := ["Expired medicines should never be shared or donated."]
      |}%string
    else if strictEq MedicineType_eqb (medicineType medicineInfo) controlled then
      Some {|
        recommendation := dispose;
        reasoning := "This is a controlled substance. These require strict handling and cannot be donated due to legal and safety regulations.";
        instructions := [
          "Must be disposed of through authorized collectors or take-back programs.";
          "Check the DEA website for authorized disposal locations.";
          "Do not flush unless specifically instructed by the FDA 'flush list'."
        ];
        resources := ["DEA Diversion Control Division"; "Pharmacist Consultation"];
        warnings := ["Illegal to share or donate controlled substances."]
      |}%string
    else if strictEq MedicineType_eqb (medicineType medicineInfo) not_sure then
      Some {|
        recommendation := consult;
        reasoning := "Safety First: Since you are unsure about the medicine type, we cannot provide an automated recommendation.";
        instructions := [
          "Take the medicine to a local pharmacist for identification.";
          "Keep the medicine in its original packaging if possible.";
          "Do not consume or donate until professionally identified."
        ];
        resources := ["Local Pharmacist"; "Healthcare Provider"];
        warnings := ["Identifying unknown medicines yourself can be dangerous."]
      |}%string
    else if negb (strictEq Condition_eqb (condition medicineInfo) unopened) then
      Some {|
        recommendation := dispose;
        reasoning := "This medicine has been opened or partially used. For safety and hygiene reasons, opened medicines should not be donated.";
        instructions := [
          "Opened medicines can be contaminated or degraded.";
          "Dispose of following standard safe disposal procedures.";
          "Consider checking for a local pharmacy disposal kiosk."
        ];
        resources := ["Safe Disposal Guide"];
        warnings := ["Donating opened medicine is a safety risk to the recipient."]
      |}%string
    else
      Some {|
        recommendation := donate;
        reasoning := "Based on general guidelines, this medicine may be eligible for donation. It is unexpired, unopened, and appears suitable for helping others.";
        instructions := [
          "Keep the medicine in its original, sealed packaging.";
          "Store in a cool, dry place until you can donate.";
          "Contact the donation center first to confirm they accept this specific brand."
        ];
        resources := ["Medicine Donation Centers"; "Local Hospitals"];
        warnings := ["This is a general guideline; final acceptance is at the center's discretion."]
      |}%string.

End WithEngine.

End Client.

(** ** The server's classifier: [getDonateDisposeRecommendation] *)

Module Server.

(** A facility as [fetchNearbyPlaces] and [MOCK_CENTERS] build it; a number
    is the decimal it is written as. *)
Record Center := {
  cname : string;
  type : string;
  address : string;
  phone : string;
  coordinates : Q * Q;
  accepts : list string;
  distance : string;
  hours : string;
  rating : Q;
  verified : bool
}.

Record Guidelines := {
  safeDisposal : list string;
  hazardous : list string
}.

Definition DISPOSAL_GUIDELINES : Guidelines := {|
  safeDisposal := [
    "Mix medicines (do not crush) with an unpalatable substance such as dirt, kitty litter, or used coffee grounds.";
    "Place the mixture in a container such as a sealed plastic bag.";
    "Throw the container in your household trash.";
    "Scratch out all personal information on the prescription label of your empty pill bottle or empty medicine packaging to make it unreadable, then dispose of the container."
  ];
  hazardous := [
    "Check if your community has a permanent drug disposal box or take-back program.";
    "Ask your pharmacy if they have a disposal kiosk."
  ]
|}%string.

Definition MOCK_CENTERS : list Center := [
  {| cname := "City General Hospital";
     type := "Hospital";
     address := "123 Medical Center Dr";
     phone := "(555) 0123";
     coordinates := (407128 # 10000, - 740060 # 10000)%Q;
     accepts := ["Unopened"; "Unexpired"; "Sealed"];
     distance := "1.2 miles";
     hours := "Open 24/7";
     rating := (48 # 10)%Q;
     verified := true |};
  {| cname := "Community Care Pharmacy";
     type := "Pharmacy";
     address := "456 Oak St";
     phone := "(555) 0456";
     coordinates := (407138 # 10000, - 740070 # 10000)%Q;
     accepts := ["Unopened"; "Unexpired"];
     distance := "2.5 miles";
     hours := "08:00 - 22:00";
     rating := (45 # 10)%Q;
     verified := true |}
]%string.

(** The fields of [req.body.medicineInfo] the handler reads.  The body is
    untyped JSON: an absent field is [None], and [expiryNotAvailable] is the
    truthiness of that field. *)
Record MedicineInfo := {
  expiryDate : option string;
  condition : option string;
  medicineType : option string;
  expiryNotAvailable : bool
}.

Record Body := {
  medicineInfo : option MedicineInfo;
  location : option string
}.

(** What the donate branch adds to [resultData]. *)
Record DonationData := {
  nearbyCenters : list Center;
  geocodedCenter : option (Q * Q);
  source : string;
  message : string
}.

(** [resultData]: [guidelines], [warnings] and the donation fields are
    present in some branches only. *)
Record ResultData := {
  guidelines : option Guidelines;
  instructions : list string;
  warnings : option (list string);
  donation : option DonationData
}.

Record Data := {
  recommendation : string;
  reasoning : string;
  resultData : ResultData;
  echo : MedicineInfo;
  timestamp : Z
}.

Inductive Response :=
| Status400 (error message : string)
| Json200 (data : Data).

(** [s === 'lit'] on an untyped field. *)
Definition strictEq (s : option string) (lit : string) : bool :=
  match s with
  | Some v => String.eqb v lit
  | None => false
  end.

Section WithEngine.

Variable Date_parse : string -> option Z.

(** Offset of the server's local time from UTC, in milliseconds. *)
Variable LocalTZA : Z.

(** [fetchNearbyPlaces(location)]: the remote lookup.  It catches its own
    failures and always resolves to a pair. *)
Variable fetchNearbyPlaces : option string -> list Center * option (Q * Q).

(** The [// Check expiry] block. *)
Definition checkExpiry (expiryDate : option string) (now : Z) : bool :=
  match expiryDate with
  | Some s =>
      if truthy (Some s) then
        let expiry := Date_parse s in
        let today := JsDate.setHours0 LocalTZA now in
        JsDate.lt expiry today
      else false
  | None => false
  end.

(** [now] is the clock when the expiry is checked, [sentAt] the clock when
    the response is built. *)
Definition getDonateDisposeRecommendation (body : Body) (now sentAt : Z)
    : Response :=
  match medicineInfo body with
  | None =>
      Status400 "Missing medicine information"
                "Please provide medicine information for recommendation"
  | Some info =>
      let isExpired := checkExpiry (expiryDate info) now in
      let isUnsure := strictEq (medicineType info) "not-sure" in
      let isControlled := strictEq (medicineType info) "controlled" in
      let '(recommendation, reasoning, resultData) :=
        if expiryNotAvailable info then
          ("Consult",
           "Since the expiry date is not visible, we cannot confirm its safety. Consuming or donating medicine with an unknown expiry date poses significant health risks.",
           {| guidelines := None;
              instructions := [
                "Please consult a pharmacist for professional identification if possible.";
                "If the medicine cannot be identified, follow safe disposal guidelines.";
                "Do not share or donate this medicine."
              ];
              warnings := Some ["Unknown expiry dates are a major safety concern."];
              donation := None |})
        else if isExpired then
          ("Dispose",
           "This medicine has passed its expiration date. Expired medicines can be less effective or even risky due to changes in chemical composition.",
           {| guidelines := Some DISPOSAL_GUIDELINES;
              instructions := [
                "Do not consume or donate this medicine.";
                "Use a drug take-back program if available.";
                "If throwing in trash: Mix with unpalatable substance (dirt, kitty litter), seal in a bag, and scratch out personal info."
              ];
              warnings := None;
              donation := None |})
        else if isControlled then
          ("Dispose",
           "This is a controlled substance. These require strict handling and cannot be donated due to legal and safety regulations.",
           {| guidelines := Some DISPOSAL_GUIDELINES;
              instructions := [
                "Must be disposed of through authorized collectors or take-back programs.";
                "Check the DEA website for authorized disposal locations.";
                "Do not flush unless specifically instructed by the FDA 'flush list'."
              ];
              warnings := None;
              donation := None |})
        else if isUnsure then
          ("Consult",
           "Safety First: Since you are unsure about the medicine type, we cannot provide an automated recommendation.",
           {| guidelines := None;
              instructions := [
                "Take the medicine to a local pharmacist for identification.";
                "Keep the medicine in its original packaging if possible.";
                "Do not consume or donate until professionally identified."
              ];
              warnings := None;
              donation := None |})
        else if negb (strictEq (condition info) "unopened") then
          ("Dispose",
           "This medicine has been opened or partially used. For safety and hygiene reasons, opened medicines should not be donated.",
           {| guidelines := Some DISPOSAL_GUIDELINES;
              instructions := [
                "Opened medicines can be contaminated or degraded.";
                "Dispose of following standard safe disposal procedures.";
                "Consider checking for a local pharmacy disposal kiosk."
              ];
              warnings := None;
              donation := None |})
        else
          let '(centers, geocoded) := fetchNearbyPlaces (location body) in
          let usedMock := (length centers =? 0)%nat in
          let nearby := if usedMock then MOCK_CENTERS else centers in
          ("Donate",
           "Based on general guidelines, this medicine may be eligible for donation. It is unexpired, unopened, and appears suitable for helping others.",
           {| guidelines := None;
              instructions := [
                "Keep the medicine in its original, sealed packaging.";
                "Store in a cool, dry place until you can donate.";
                "Contact the donation center first to confirm they accept this specific brand."
              ];
              warnings := None;
              donation := Some {|
                nearbyCenters := nearby;
                geocodedCenter := geocoded;
                source := if usedMock then "Mock Data" else "OpenStreetMap";
                message :=
                  if usedMock
                  then "We couldn't find your location interactively, so here are some example centers. Please check your local maps."
                  else String.append "Here are some donation centers found near "
                         (String.append
                            (if truthy (location body)
                             then default "" (location body) else "you") ":")
              |} |})
      in
      Json200 {|
        recommendation := recommendation;
        reasoning := reasoning;
        resultData := resultData;
        echo := info;
        timestamp := sentAt
      |}
  end%string.

End WithEngine.

End Server.

(** ** The decision table of the specification

    The six rules in their evaluation order: the first rule whose condition
    holds is the matched rule. *)

Module DecisionTable.

Inductive Rule :=
| ExpiryUnknown
| Expired
| Controlled
| UnknownType
| NotUnopened
| Eligible.

Definition matched (expiryKnown expired controlled unknownType unopened : bool)
    : Rule :=
  if negb expiryKnown then ExpiryUnknown
  else if expired then Expired
  else if controlled then Controlled
  else if unknownType then UnknownType
  else if negb unopened then NotUnopened
  else Eligible.

Definition kindOf (r : Rule) : Client.Kind :=
  match r with
  | ExpiryUnknown | UnknownType => Client.consult
  | Expired | Controlled | NotUnopened => Client.dispose
  | Eligible => Client.donate
  end.

(** The label the server sends for a kind. *)
Definition label (k : Client.Kind) : string :=
  match k with
  | Client.keep => "Keep"
  | Client.donate => "Donate"
  | Client.dispose => "Dispose"
  | Client.consult => "Consult"
  end.

(** The reasoning text both classifiers attach to a rule. *)
Definition reasoningOf (r : Rule) : string :=
  match r with
  | ExpiryUnknown => "Since the expiry date is not visible, we cannot confirm its safety. Consuming or donating medicine with an unknown expiry date poses significant health risks."
  | Expired => "This medicine has passed its expiration date. Expired medicines can be less effective or even risky due to changes in chemical composition."
  | Controlled => "This is a controlled substance. These require strict handling and cannot be donated due to legal and safety regulations."
  | UnknownType => "Safety First: Since you are unsure about the medicine type, we cannot provide an automated recommendation."
  | NotUnopened => "This medicine has been opened or partially used. For safety and hygiene reasons, opened medicines should not be donated."
  | Eligible => "Based on general guidelines, this medicine may be eligible for donation. It is unexpired, unopened, and appears suitable for helping others."
  end.

(** The rule the page's classifier is in, read off its inputs. *)
Definition ofClient (Date_parse : string -> option Z)
    (info : Client.MedicineInfo) (expiryNotAvailable : bool) (now : Z) : Rule :=
  matched (negb expiryNotAvailable)
    (JsDate.lt (Client.newDate Date_parse (Client.expiryDate info)) now)
    (Client.strictEq Client.MedicineType_eqb (Client.medicineType info)
       Client.controlled)
    (Client.strictEq Client.MedicineType_eqb (Client.medicineType info)
       Client.not_sure)
    (Client.strictEq Client.Condition_eqb (Client.condition info)
       Client.unopened).

(** The rule the server's classifier is in, read off its inputs. *)
Definition ofServer (Date_parse : string -> option Z) (LocalTZA : Z)
    (info : Server.MedicineInfo) (now : Z) : Rule :=
  matched (negb (Server.expiryNotAvailable info))
    (Server.checkExpiry Date_parse LocalTZA (Server.expiryDate info) now)
    (Server.strictEq (Server.medicineType info) "controlled")
    (Server.strictEq (Server.medicineType info) "not-sure")
    (Server.strictEq (Server.condition info) "unopened").

End DecisionTable.

(** ** [callWithRetry] *)

Module Retry.

(** What a [catch] clause can receive: [undefined], or an object with the
    fields the rate-limit test reads. *)
Record ErrorDetail := { reason : option string }.

Record JsError := {
  status : option Z;
  message : option string;
  errorDetails : option (list ErrorDetail)
}.

Inductive Thrown :=
| Undefined
| Error (e : JsError).

(** A settled promise. *)
Inductive Outcome (T : Type) :=
| Resolved (v : T)
| Rejected (e : Thrown).

Arguments Resolved {T} v.
Arguments Rejected {T} e.

(** [hay.includes(needle)]. *)
Fixpoint includes (hay needle : string) : bool :=
  if String.prefix needle hay then true
  else match hay with
       | EmptyString => false
       | String _ hay' => includes hay' needle
       end.

Definition reasonIs (lit : string) (d : ErrorDetail) : bool :=
  match reason d with
  | Some r => String.eqb r lit
  | None => false
  end.

(** The truthiness of [isRateLimit]; every [?.] on a missing value yields
    [undefined], which is falsy. *)
Definition isRateLimit (error : Thrown) : bool :=
  match error with
  | Undefined => false
  | Error e =>
      match status e with Some s => s =? 429 | None => false end
      || match message e with Some m => includes m "429" | None => false end
      || match message e with
         | Some m => includes m "Too Many Requests"
         | None => false
         end
      || match errorDetails e with
         | Some ds => existsb (reasonIs "RATE_LIMIT_EXCEEDED") ds
         | None => false
         end
  end.

(** The rate-limit markers in words: status 429, a message containing [429]
    or [Too Many Requests], or a detail whose reason is
    [RATE_LIMIT_EXCEEDED]. *)
Definition rateLimitMarker (error : Thrown) : Prop :=
  exists e, error = Error e
    /\ (status e = Some 429
        \/ (exists m pre post, message e = Some m
               /\ m = String.append pre (String.append "429" post))
        \/ (exists m pre post, message e = Some m
               /\ m = String.append pre
                        (String.append "Too Many Requests" post))
        \/ (exists ds d, errorDetails e = Some ds /\ In d ds
               /\ reason d = Some "RATE_LIMIT_EXCEEDED"%string)).

(** What the wrapper does to the outside, in order. *)
Inductive Event :=
| Attempt
| Sleep (ms : Z).

Section WithWorld.

(** The world the wrapped operation acts on, and what waiting does to it. *)
Variable World : Type.
Variable setTimeout : Z -> World -> World.

Record Runtime := {
  world : World;
  trace : list Event
}.

Variable T : Type.

(** The [for] loop, with [n] bounding the iterations left. *)
Fixpoint retryLoop (fn : World -> Outcome T * World) (n : nat)
    (i retries delay : Z) (lastError : Thrown) (rt : Runtime)
    : Outcome T * Runtime :=
  match n with
  | O => (Rejected lastError, rt)
  | S n' =>
      if i <? retries then
        let '(r, w) := fn (world rt) in
        let rt1 := {| world := w; trace := trace rt ++ [Attempt] |} in
        match r with
        | Resolved v => (Resolved v, rt1)
        | Rejected error =>
            if isRateLimit error && (i <? retries - 1) then
              let rt2 := {| world := setTimeout delay w;
                            trace := trace rt1 ++ [Sleep delay] |} in
              retryLoop fn n' (i + 1) retries (delay * 2) error rt2
            else (Rejected error, rt1)
        end
      else (Rejected lastError, rt)
  end.

(** [delay] is a JavaScript number; doubling is exact below 2^53. *)
Definition callWithRetry (fn : World -> Outcome T * World)
    (retries initialDelay : Z) (rt : Runtime) : Outcome T * Runtime :=
  retryLoop fn (Z.to_nat retries) 0 retries initialDelay Undefined rt.

(** [rateLimited fn k delay w w' tr]: from world [w] the operation fails
    [k] times in a row with a rate-limit error, each failure followed by a
    wait that starts at [delay] and doubles; [w'] is the world after the last
    wait and [tr] what happened. *)
Inductive rateLimited (fn : World -> Outcome T * World)
    : nat -> Z -> World -> World -> list Event -> Prop :=
| rateLimited_none (delay : Z) (w : World) :
    rateLimited fn O delay w w []
| rateLimited_again (k : nat) (delay : Z) (w w1 w' : World) (e : Thrown)
    (tr : list Event) :
    fn w = (Rejected e, w1) ->
    isRateLimit e = true ->
    rateLimited fn k (delay * 2) (setTimeout delay w1) w' tr ->
    rateLimited fn (S k) delay w w' (Attempt :: Sleep delay :: tr).

End WithWorld.

Arguments world {World} r.
Arguments trace {World} r.
Arguments Build_Runtime {World} world trace.
Arguments retryLoop {World} setTimeout {T} fn n i retries delay lastError rt.
Arguments rateLimited {World} setTimeout {T} fn k delay w w' tr.
Arguments callWithRetry {World} setTimeout {T} fn retries initialDelay rt.

(** The delays slept, in order, and the number of calls of the operation. *)
Fixpoint sleeps (tr : list Event) : list Z :=
  match tr with
  | [] => []
  | Sleep ms :: tr' => ms :: sleeps tr'
  | Attempt :: tr' => sleeps tr'
  end.

Fixpoint attempts (tr : list Event) : nat :=
  match tr with
  | [] => O
  | Attempt :: tr' => S (attempts tr')
  | Sleep _ :: tr' => attempts tr'
  end.

Definition total (l : list Z) : Z := fold_right Z.add 0 l.

(** Exponential backoff in words: [k] delays, the first [delay], each next
    one twice the one before. *)
Fixpoint backoff (k : nat) (delay : Z) : list Z :=
  match k with
  | O => []
  | S k' => delay :: backoff k' (delay * 2)
  end.

(** A rate-limited start in words: [k] rounds of a call and the wait after
    it, the waits starting at [delay] and doubling. *)
Fixpoint rounds (k : nat) (delay : Z) : list Event :=
  match k with
  | O => []
  | S k' => Attempt :: Sleep delay :: rounds k' (delay * 2)
  end.

End Retry.

(** ** JavaScript strings and JSON values

    Strings are modelled as ASCII: [toLowerCase] maps [A]-[Z], [trim] removes
    tab, line feed, vertical tab, form feed, carriage return and space. *)

Module JsString.

Definition isWhiteSpace (c : ascii) : bool :=
  let n := N_of_ascii c in
  ((9 <=? n) && (n <=? 13))%N || (n =? 32)%N.

Definition lowerChar (c : ascii) : ascii :=
  let n := N_of_ascii c in
  if ((65 <=? n) && (n <=? 90))%N then ascii_of_N (n + 32) else c.

Fixpoint toLowerCase (s : string) : string :=
  match s with
  | EmptyString => EmptyString
  | String c r => String (lowerChar c) (toLowerCase r)
  end.

Fixpoint trimStart (s : string) : string :=
  match s with
  | EmptyString => EmptyString
  | String c r => if isWhiteSpace c then trimStart r else s
  end.

Fixpoint trimEnd (s : string) : string :=
  match s with
  | EmptyString => EmptyString
  | String c r =>
      match trimEnd r with
      | EmptyString => if isWhiteSpace c then EmptyString else String c EmptyString
      | r' => String c r'
      end
  end.

Definition trim (s : string) : string := trimEnd (trimStart s).

Definition lineFeed : ascii := "010"%char.
Definition backtick : ascii := "096"%char.
Definition doubleQuote : ascii := "034"%char.
Definition backslash : ascii := "092"%char.

(** Length of the match of [/```json\n?|\n?```/] at the head of [s], [0]
    when there is none.  The alternatives are tried in order and each
    optional line feed is greedy. *)
Definition fenceAt (s : string) : nat :=
  if String.prefix "```json" s then
    match String.get 7 s with
    | Some c => if Ascii.eqb c lineFeed then 8%nat else 7%nat
    | None => 7%nat
    end
  else if String.prefix (String lineFeed "```") s then 4%nat
  else if String.prefix "```" s then 3%nat
  else 0%nat.

(** [s.replace(/```json\n?|\n?```/g, '')]; [skip] characters of a match are
    still to be dropped. *)
Fixpoint replaceFences (skip : nat) (s : string) : string :=
  match s with
  | EmptyString => EmptyString
  | String c r =>
      match skip with
      | S k => replaceFences k r
      | O =>
          match fenceAt s with
          | O => String c (replaceFences O r)
          | S k => replaceFences k r
          end
      end
  end.

(** Two keys that differ only in letter case and in surrounding white
    space. *)
Inductive sameLetters : string -> string -> Prop :=
| sameLetters_nil : sameLetters EmptyString EmptyString
| sameLetters_cons (c1 c2 : ascii) (s1 s2 : string) :
    lowerChar c1 = lowerChar c2 ->
    sameLetters s1 s2 ->
    sameLetters (String c1 s1) (String c2 s2).

Fixpoint blank (s : string) : bool :=
  match s with
  | EmptyString => true
  | String c r => isWhiteSpace c && blank r
  end.

Definition sameKey (a b : string) : Prop :=
  exists l1 r1 l2 r2 core1 core2,
    a = String.append l1 (String.append core1 r1)
    /\ b = String.append l2 (String.append core2 r2)
    /\ blank l1 = true /\ blank r1 = true
    /\ blank l2 = true /\ blank r2 = true
    /\ sameLetters core1 core2.

End JsString.

Unset Elimination Schemes.

Inductive Json :=
| JNull
| JBool (b : bool)
| JNum (n : Q)
| JStr (s : string)
| JArr (items : list Json)
| JObj (fields : list (string * Json)).

Set Elimination Schemes.

(** A JSON reader for examples: literals, integers, strings without escapes,
    arrays and objects.  It agrees with [JSON.parse] on the texts it accepts
    and on texts that are no JSON at all; fractions, exponents and escapes
    are outside it. *)
Module JsonText.

Definition isWs (c : ascii) : bool :=
  let n := N_of_ascii c in
  ((n =? 32) || (n =? 9) || (n =? 10) || (n =? 13))%N.

Fixpoint skipWs (s : list ascii) : list ascii :=
  match s with
  | c :: r => if isWs c then skipWs r else s
  | [] => []
  end.

(** Digits at the head of [s]: their value, how many, and the rest. *)
Fixpoint natural (acc : Z) (k : nat) (s : list ascii) : Z * nat * list ascii :=
  match s with
  | c :: r =>
      match JsDate.digit c with
      | Some d => natural (10 * acc + d) (S k) r
      | None => (acc, k, s)
      end
  | [] => (acc, k, s)
  end.

Definition startsNumberTail (s : list ascii) : bool :=
  match s with
  | c :: _ => Ascii.eqb c "." || Ascii.eqb c "e" || Ascii.eqb c "E"
  | [] => false
  end.

Definition integer (neg : bool) (s : list ascii) : option (Json * list ascii) :=
  let '(v, k, r) := natural 0 0 s in
  let leadingZero :=
    match s with
    | c :: _ => Ascii.eqb c "0" && (1 <? k)%nat
    | [] => false
    end in
  if (k =? 0)%nat || leadingZero || startsNumberTail r then None
  else Some (JNum (inject_Z (if neg then - v else v)), r).

(** The characters up to the closing quote. *)
Fixpoint stringBody (s : list ascii) : option (string * list ascii) :=
  match s with
  | [] => None
  | c :: r =>
      if Ascii.eqb c JsString.doubleQuote then Some (EmptyString, r)
      else if Ascii.eqb c JsString.backslash || (N_of_ascii c <? 32)%N then None
      else match stringBody r with
           | Some (str, r') => Some (String c str, r')
           | None => None
           end
  end.

Fixpoint value (n : nat) (s : list ascii) {struct n}
    : option (Json * list ascii) :=
  match n with
  | O => None
  | S n' =>
      match skipWs s with
      | "n" :: "u" :: "l" :: "l" :: r => Some (JNull, r)
      | "t" :: "r" :: "u" :: "e" :: r => Some (JBool true, r)
      | "f" :: "a" :: "l" :: "s" :: "e" :: r => Some (JBool false, r)
      | "[" :: r =>
          match skipWs r with
          | "]" :: r' => Some (JArr [], r')
          | _ => elements n' r []
          end
      | "{" :: r =>
          match skipWs r with
          | "}" :: r' => Some (JObj [], r')
          | _ => members n' r []
          end
      | "-" :: r => integer true r
      | c :: r =>
          if Ascii.eqb c JsString.doubleQuote then
            match stringBody r with
            | Some (str, r') => Some (JStr str, r')
            | None => None
            end
          else integer false (c :: r)
      | [] => None
      end
  end%char
with elements (n : nat) (s : list ascii) (acc : list Json) {struct n}
    : option (Json * list ascii) :=
  match n with
  | O => None
  | S n' =>
      match value n' s with
      | Some (v, r) =>
          match skipWs r with
          | "," :: r' => elements n' r' (v :: acc)
          | "]" :: r' => Some (JArr (rev (v :: acc)), r')
          | _ => None
          end
      | None => None
      end
  end%char
with members (n : nat) (s : list ascii) (acc : list (string * Json))
    {struct n} : option (Json * list ascii) :=
  match n with
  | O => None
  | S n' =>
      match skipWs s with
      | c :: r =>
          if Ascii.eqb c JsString.doubleQuote then
            match stringBody r with
            | Some (key, r1) =>
                match skipWs r1 with
                | ":" :: r2 =>
                    match value n' r2 with
                    | Some (v, r3) =>
                        match skipWs r3 with
                        | "," :: r4 => members n' r4 ((key, v) :: acc)
                        | "}" :: r4 => Some (JObj (rev ((key, v) :: acc)), r4)
                        | _ => None
                        end
                    | None => None
                    end
                | _ => None
                end
            | None => None
            end
          else None
      | [] => None
      end
  end%char.

Definition parse (text : string) : option Json :=
  let s := list_ascii_of_string text in
  match value (2 * List.length s + 2) s with
  | Some (v, r) =>
      match skipWs r with
      | [] => Some v
      | _ => None
      end
  | None => None
  end.

End JsonText.

(** ** [AIService]: the medicine-details cache and the OCR expiry check *)

Module AiService.

Import Retry.

Record CacheEntry := {
  data : Json;
  timestamp : Z
}.

Definition CACHE_TTL : Z := 1000 * 60 * 60.

(** [model.generateContent] resolves to a result whose [response.text()]
    returns the text or throws. *)
Record GenerateContentResult := {
  text : Outcome string
}.

(** The prompt template of [getMedicineDetails], with ['] standing for the
    double quote. *)
Definition promptHead : string :=
"
      Provide detailed information about this medicine: '".

Definition promptTail : string :=
"'

      Respond in JSON format with exactly this structure:
      {
        'name': 'Standardized Medicine Name',
        'category': 'Broad Category (e.g. Pain Reliever, Antibiotic)',
        'description': 'Clear description of what it is and what it treats',
        'dosage': 'Typical dosage instructions (general)',
        'warnings': ['List', 'of', 'important', 'warnings'],
        'sideEffects': ['Common', 'side', 'effects'],
        'uses': ['List', 'of', 'common', 'uses']
      }
      
      If the medicine name is not recognized or invalid, return null.
      ".

Fixpoint quoted (s : string) : string :=
  match s with
  | EmptyString => EmptyString
  | String c r =>
      String (if Ascii.eqb c "'" then JsString.doubleQuote else c) (quoted r)
  end.

Definition medicineDetailsPrompt (medicineName : string) : string :=
  String.append (quoted promptHead)
    (String.append medicineName (quoted promptTail)).

Definition createFallbackMedicineDetails (medicineName : string) : Json :=
  JObj [
    ("name", JStr medicineName);
    ("category", JStr "Unknown");
    ("description", JStr "Details currently unavailable");
    ("dosage", JStr "Consult a healthcare provider");
    ("warnings", JArr [JStr "Consult a doctor before use"]);
    ("sideEffects", JArr []);
    ("uses", JArr [])
  ]%string.

(** The structure the prompt asks for: an object with string fields [name],
    [category], [description], [dosage] and string-array fields [warnings],
    [sideEffects], [uses]. *)
Fixpoint field (key : string) (fields : list (string * Json)) : option Json :=
  match fields with
  | [] => None
  | (k, v) :: rest => if String.eqb k key then Some v else field key rest
  end.

Definition isString (j : option Json) : bool :=
  match j with
  | Some (JStr _) => true
  | _ => false
  end.

Definition isStringArray (j : option Json) : bool :=
  match j with
  | Some (JArr items) => forallb (fun x => isString (Some x)) items
  | _ => false
  end.

Definition expectedStructure (j : Json) : bool :=
  match j with
  | JObj fields =>
      isString (field "name" fields)
      && isString (field "category" fields)
      && isString (field "description" fields)
      && isString (field "dosage" fields)
      && isStringArray (field "warnings" fields)
      && isStringArray (field "sideEffects" fields)
      && isStringArray (field "uses" fields)
  | _ => false
  end.

Section WithRemote.

Variable World : Type.

(** [Date.now()] in a world, what waiting does to the world, the remote
    model and [JSON.parse] ([None] when it throws). *)
Variable Date_now : World -> Z.
Variable setTimeout : Z -> World -> World.
Variable generateContent :
  string -> World -> Outcome GenerateContentResult * World.
Variable JSON_parse : string -> option Json.

(** The service: its cache, and the world with the trace of remote calls and
    waits. *)
Record Service := {
  medicineCache : gmap string CacheEntry;
  runtime : Runtime World
}.

Definition getMedicineDetails (medicineName : string) (this : Service)
    : Json * Service :=
  let normalizedName := JsString.trim (JsString.toLowerCase medicineName) in
  let miss :=
    let prompt := medicineDetailsPrompt medicineName in
    let '(result, rt) :=
      callWithRetry setTimeout (generateContent prompt) 3 2000
        (runtime this) in
    let this1 := {| medicineCache := medicineCache this; runtime := rt |} in
    match result with
    | Rejected _ => (createFallbackMedicineDetails medicineName, this1)
    | Resolved res =>
        match text res with
        | Rejected _ => (createFallbackMedicineDetails medicineName, this1)
        | Resolved content =>
            if truthy (Some content) then
              let content :=
                JsString.trim (JsString.replaceFences 0 content) in
              if String.eqb content "null" then (JNull, this1)
              else
                match JSON_parse content with
                | Some parsed =>
                    (parsed,
                     {| medicineCache :=
                          <[normalizedName :=
                              {| data := parsed;
                                 timestamp := Date_now (world rt) |}]>
                            (medicineCache this);
                        runtime := rt |})
                | None =>
                    (createFallbackMedicineDetails medicineName, this1)
                end
            else (createFallbackMedicineDetails medicineName, this1)
        end
    end in
  match medicineCache this !! normalizedName with
  | Some cached =>
      if Date_now (world (runtime this)) - timestamp cached <? CACHE_TTL
      then (data cached, this)
      else miss
  | None => miss
  end.

(** The text handed to [JSON.parse]: fences removed, then trimmed. *)
Definition cleaned (content : string) : string :=
  JsString.trim (JsString.replaceFences 0 content).

(** The cache has no live entry for the name: none at all, or one as old as
    the TTL or older. *)
Definition isMiss (medicineName : string) (this : Service) : Prop :=
  match medicineCache this
          !! JsString.trim (JsString.toLowerCase medicineName) with
  | Some cached =>
      CACHE_TTL <= Date_now (world (runtime this)) - timestamp cached
  | None => True
  end.

(** The remote call did not yield a value to store: it failed after the
    retries, its text could not be read, the text was empty, or the text was
    no JSON. *)
Definition failedAnswer (o : Outcome GenerateContentResult) : Prop :=
  match o with
  | Rejected _ => True
  | Resolved res =>
      match text res with
      | Rejected _ => True
      | Resolved content =>
          content = EmptyString
          \/ (cleaned content <> "null"%string
              /\ JSON_parse (cleaned content) = None)
      end
  end.

(** Every entry of the cache holds a value that [JSON.parse] returned. *)
Definition cacheParsed (cache : gmap string CacheEntry) : Prop :=
  forall (key : string) (entry : CacheEntry),
    cache !! key = Some entry ->
    exists content, JSON_parse content = Some (data entry).

(** The service when the next request arrives: the cache and the trace are
    kept, the world has moved on. *)
Definition later (w : World) (this : Service) : Service :=
  {| medicineCache := medicineCache this;
     runtime := {| world := w; trace := trace (runtime this) |} |}.

(** A sequence of requests, each arriving in its own world. *)
Fixpoint serveAll (requests : list (World * string)) (this : Service)
    : Service :=
  match requests with
  | [] => this
  | (w, medicineName) :: rest =>
      serveAll rest (snd (getMedicineDetails medicineName (later w this)))
  end.

End WithRemote.

Arguments medicineCache {World} s.
Arguments runtime {World} s.
Arguments Build_Service {World} medicineCache runtime.
Arguments later {World} w this.

(** The fields of the parsed OCR answer that the expiry block of
    [analyzeOCRText] reads and writes. *)
Record OcrResult := {
  expiryDate : option string;
  isExpired : option bool;
  recommendation : option string;
  reasoning : option string
}.

(** The [// Validate expiry date and set recommendation] block. *)
Definition validateExpiry (Date_parse : string -> option Z)
    (parsed : OcrResult) (now : Z) : OcrResult :=
  match expiryDate parsed with
  | Some s =>
      if truthy (Some s) then
        let expiry := Date_parse s in
        let today := now in
        let expired := JsDate.lt expiry today in
        if expired then
          {| expiryDate := expiryDate parsed;
             isExpired := Some true;
             recommendation := Some "dispose";
             reasoning := Some "Medicine has expired. Please dispose of it safely according to local guidelines." |}
        else if negb (truthy (recommendation parsed))
                || Server.strictEq (recommendation parsed) "keep" then
          {| expiryDate := expiryDate parsed;
             isExpired := Some false;
             recommendation := Some "donate";
             reasoning := Some "Medicine is within expiry date and in good condition. Consider donating to local pharmacy or healthcare center." |}
        else
          {| expiryDate := expiryDate parsed;
             isExpired := Some false;
             recommendation := recommendation parsed;
             reasoning := reasoning parsed |}
      else parsed
  | None => parsed
  end%string.

End AiService.

(** ** JavaScript numbers

    A JavaScript number is a binary64 floating-point number.  The arithmetic
    of the page is done on [float], the binary64 numbers of the kernel; where
    a number is only compared or printed it is taken by what it is: [NaN], an
    infinity, or a finite number with its exact value. *)

Module Binary64.

Inductive Number :=
| NaN
| Infinity (negative : bool)
| Finite (value : Q).

Definition classify (x : float) : Number :=
  match Prim2SF x with
  | S754_nan => NaN
  | S754_infinity negative => Infinity negative
  | S754_zero _ => Finite 0
  | S754_finite negative mantissa exponent =>
      Finite (inject_Z (if negative then Z.neg mantissa else Z.pos mantissa)
              * 2 ^ exponent)%Q
  end.

(** The value of a finite number; 0 for [NaN] and the infinities. *)
Definition valueOf (n : Number) : Q :=
  match n with
  | Finite value => value
  | _ => 0%Q
  end.

Definition exact (x : float) : Q := valueOf (classify x).

(** The integer [k] with [2^k <= num / den < 2^(k+1)], for positive [num]. *)
Definition binade (num : Z) (den : positive) : Z :=
  if Z.pos den <=? num then Z.log2 (num / Z.pos den)
  else - Z.log2_up ((Z.pos den + num - 1) / num).

(** The binary64 number nearest to the rational [num / den], for positive
    [num] and a rational below [2^1024]: 53 bits of mantissa, an exponent not
    below that of the subnormal numbers, and of two numbers equally near the
    one with the even mantissa. *)
Definition nearest (num : Z) (den : positive) : Q :=
  let e := Z.max (binade num den - 52) (-1074) in
  let a := if 0 <=? e then num else num * 2 ^ (- e) in
  let b := if 0 <=? e then Z.pos den * 2 ^ e else Z.pos den in
  let m := a / b in
  let r := a mod b in
  let mantissa :=
    match 2 * r ?= b with
    | Lt => m
    | Gt => m + 1
    | Eq => if Z.even m then m else m + 1
    end in
  (inject_Z mantissa * 2 ^ e)%Q.

(** [a <= b]. *)
Definition leb (a b : Number) : bool :=
  match a, b with
  | NaN, _ | _, NaN => false
  | Infinity true, _ => true
  | _, Infinity false => true
  | Infinity false, _ => false
  | _, Infinity true => false
  | Finite p, Finite q => Qle_bool p q
  end.

(** [a === b]. *)
Definition eqb (a b : Number) : bool :=
  match a, b with
  | Infinity s, Infinity s' => Bool.eqb s s'
  | Finite p, Finite q => Qeq_bool p q
  | _, _ => false
  end.

(** What a comparator returned, as far as a sort looks at it. *)
Inductive Sign :=
| NotANumber
| Negative
| Zero
| Positive.

(** [a - b].  The difference of two finite binary64 numbers is rounded, and
    the rounded difference is negative, zero or positive as the exact one
    is; the difference of two infinities of one sign is [NaN]. *)
Definition minus (a b : Number) : Sign :=
  match a, b with
  | NaN, _ | _, NaN => NotANumber
  | Infinity s, Infinity s' =>
      if Bool.eqb s s' then NotANumber
      else if s then Negative else Positive
  | Infinity s, Finite _ => if s then Negative else Positive
  | Finite _, Infinity s => if s then Positive else Negative
  | Finite p, Finite q =>
      match (p ?= q)%Q with
      | Lt => Negative
      | Eq => Zero
      | Gt => Positive
      end
  end.

End Binary64.

(** ** Distance ranking on the page: [calculateDistance] and the
      sort/filter chain

    ECMAScript leaves the values of [Math.sin], [Math.cos] and [Math.atan2]
    and the order a sort gives with an inconsistent comparator to the
    engine, so the ranking is parametric in them. *)

Module Ranking.

Import Binary64.

Record Coordinates := {
  lat : float;
  lng : float
}.

Record DonationCenter := {
  name : string;
  address : string;
  phone : string;
  distance : string;
  accepts : list string;
  hours : string;
  rating : float;
  verified : bool;
  coordinates : Coordinates;
  type : string
}.

Definition Math_PI : float := 0x1.921fb54442d18p+1%float.

(** The text of a number.  [ToString x] is the text [String(x)] of the
    number [x], which reads back as [x]; [Fixed negative n] is the decimal
    text of [n / 100] with two digits after the point, after a minus sign
    when [negative]. *)
Inductive Text :=
| ToString (x : float)
| Fixed (negative : bool) (hundredths : Z).

Definition digits (n : Z) : string :=
  NilZero.string_of_uint (N.to_uint (Z.to_N n)).

(** The characters of a text, where they are fixed here: those of a finite
    number that [String] prints are not. *)
Definition characters (t : Text) : option string :=
  match t with
  | ToString x =>
      match classify x with
      | NaN => Some "NaN"
      | Infinity negative =>
          Some (if negative then "-Infinity" else "Infinity")
      | Finite _ => None
      end
  | Fixed negative n =>
      Some (String.append (if negative then "-" else "")
              (String.append (digits (n / 100))
                 (String.append "."
                    (String.append (digits (n mod 100 / 10))
                       (digits (n mod 10))))))
  end%string.

(** [x.toFixed(2)]: the text of [x] when [x] is not finite or its magnitude
    is [10^21] or more; else the hundredths [n] with [n / 100] nearest to
    the magnitude, the larger one of two, after a minus sign when [x] is
    below zero. *)
Definition toFixed2 (x : float) : Text :=
  match classify x with
  | Finite value =>
      if Qle_bool (10 ^ 21) (Qabs value) then ToString x
      else Fixed (negb (Qle_bool 0 value))
             (Qfloor (Qabs value * 100 + (1 # 2)))
  | _ => ToString x
  end%Q.

(** [parseFloat] of such a text: the number nearest to the decimal. *)
Definition parseFloat (t : Text) : Number :=
  match t with
  | ToString x => classify x
  | Fixed negative n =>
      if n <=? 0 then Finite 0
      else Finite (if negative then - nearest n 100 else nearest n 100)%Q
  end.

(** [Array.prototype.sort(compare)] where the order is fixed.  A comparator
    that returns [NaN] counts as returning zero.  The sort is stable, so with
    a consistent comparator its result is that of insertion from the right:
    an element moves past those it compares above. *)
Fixpoint insertInOrder {A : Type} (compare : A -> A -> Sign) (x : A)
    (sorted : list A) : list A :=
  match sorted with
  | [] => [x]
  | y :: rest =>
      match compare x y with
      | Positive => y :: insertInOrder compare x rest
      | _ => x :: sorted
      end
  end.

Definition sort {A : Type} (compare : A -> A -> Sign) (l : list A) : list A :=
  fold_right (insertInOrder compare) [] l.

(** The comparator that orders by a rational key. *)
Definition byKey {A : Type} (key : A -> Q) (a b : A) : Sign :=
  minus (Finite (key a)) (Finite (key b)).

(** A consistent comparator for the elements of [l], in the words of
    ECMAScript: it never returns [NaN], an element equals itself, equality is
    symmetric and transitive, and so are below and above. *)
Definition consistent {A : Type} (compare : A -> A -> Sign) (l : list A)
    : Prop :=
  (forall a b, In a l -> In b l -> compare a b <> NotANumber)
  /\ (forall a, In a l -> compare a a = Zero)
  /\ (forall a b, In a l -> In b l ->
        compare a b = Zero -> compare b a = Zero)
  /\ (forall a b c, In a l -> In b l -> In c l ->
        compare a b = Zero -> compare b c = Zero -> compare a c = Zero)
  /\ (forall a b c, In a l -> In b l -> In c l ->
        compare a b = Negative -> compare b c = Negative ->
        compare a c = Negative)
  /\ (forall a b c, In a l -> In b l -> In c l ->
        compare a b = Positive -> compare b c = Positive ->
        compare a c = Positive).

(** What ECMAScript asks of a sort: the elements are kept, and with a
    consistent comparator they come in the stable order; with another
    comparator the order is the engine's. *)
Definition sorts {A : Type} (compare : A -> A -> Sign) (l result : list A)
    : Prop :=
  Permutation l result
  /\ (consistent compare l -> result = sort compare l).

Section WithEngine.

Variables Math_sin Math_cos : float -> float.
Variable Math_atan2 : float -> float -> float.
Variable Array_sort :
  (DonationCenter -> DonationCenter -> Sign)
  -> list DonationCenter -> list DonationCenter.

Local Open Scope float_scope.

(** The value [R * c] that [calculateDistance] computes before it formats
    it. *)
Definition haversineKm (lat1 lon1 lat2 lon2 : float) : float :=
  let R := 6371 in
  let dLat := (lat2 - lat1) * Math_PI / 180 in
  let dLon := (lon2 - lon1) * Math_PI / 180 in
  let a :=
    Math_sin (dLat / 2) * Math_sin (dLat / 2) +
    Math_cos (lat1 * Math_PI / 180) * Math_cos (lat2 * Math_PI / 180) *
    Math_sin (dLon / 2) * Math_sin (dLon / 2) in
  let c := 2 * Math_atan2 (PrimFloat.sqrt a) (PrimFloat.sqrt (1 - a)) in
  R * c.

Definition calculateDistance (lat1 lon1 lat2 lon2 : float) : Text :=
  toFixed2 (haversineKm lat1 lon1 lat2 lon2).

(** The comparator and the filter that both callers pass. *)
Definition distanceTo (lat0 lon0 : float) (c : DonationCenter) : Number :=
  parseFloat
    (calculateDistance lat0 lon0 (lat (coordinates c)) (lng (coordinates c))).

Definition byDistance (lat0 lon0 : float) (a b : DonationCenter) : Sign :=
  let distA := distanceTo lat0 lon0 a in
  let distB := distanceTo lat0 lon0 b in
  minus distA distB.

Definition withinRadius (lat0 lon0 : float) (c : DonationCenter) : bool :=
  leb (distanceTo lat0 lon0 c) (Finite 15).

(** [centers.sort(...).filter(...)], the value of [sortedCenters] in
    [getUserLocation]. *)
Definition sortedCenters (latitude longitude : float)
    (centers : list DonationCenter) : list DonationCenter :=
  List.filter (withinRadius latitude longitude)
    (Array_sort (byDistance latitude longitude) centers).

(** A number of the response used in arithmetic: [null], which is what a
    [NaN] becomes in JSON, counts as zero. *)
Definition toNumber (v : option float) : float :=
  match v with
  | Some x => x
  | None => 0
  end.

(** [finalCenters] in [findDonationCenters]: ranked when the response has a
    geocoded center, as received otherwise. *)
Definition finalCenters (geocodedCenter : option (option float * option float))
    (centers : list DonationCenter) : list DonationCenter :=
  match geocodedCenter with
  | Some (lat0, lon0) =>
      List.filter (withinRadius (toNumber lat0) (toNumber lon0))
        (Array_sort (byDistance (toNumber lat0) (toNumber lon0)) centers)
  | None => centers
  end.

End WithEngine.

End Ranking.

(** ** The page's form as a request to the server

    The literals of the [condition] and [medicineType] unions, and the
    [medicineInfo] object that carries the form state. *)

Module Form.

Definition conditionText (c : Client.Condition) : string :=
  match c with
  | Client.unopened => "unopened"
  | Client.opened => "opened"
  | Client.partial => "partial"
  end.

Definition medicineTypeText (t : Client.MedicineType) : string :=
  match t with
  | Client.prescription => "prescription"
  | Client.otc => "otc"
  | Client.controlled => "controlled"
  | Client.not_sure => "not-sure"
  end.

Definition toRequest (info : Client.MedicineInfo) (expiryNotAvailable : bool)
    (location : option string) : Server.Body :=
  {| Server.medicineInfo :=
       Some {| Server.expiryDate := Client.expiryDate info;
               Server.condition :=
                 option_map conditionText (Client.condition info);
               Server.medicineType :=
                 option_map medicineTypeText (Client.medicineType info);
               Server.expiryNotAvailable := expiryNotAvailable |};
     Server.location := location |}.

End Form.

(** ** The OTC routes: [searchOTCMedicines] and [getOTCSuggestions] *)

Module OtcRoutes.

(** [req.query.query]: absent, a string, or what the query parser builds
    from repeated or bracketed parameters (an array or an object). *)
Inductive QueryParam :=
| Absent
| Text (s : string)
| Other.

(** [!query || typeof query !== 'string']. *)
Definition invalid (query : QueryParam) : bool :=
  match query with
  | Text s => negb (truthy (Some s))
  | Absent | Other => true
  end.

Definition COMMON_MEDICINES : list string := [
  "Paracetamol"; "Acetaminophen"; "Ibuprofen"; "Aspirin"; "Naproxen";
  "Diclofenac"; "Cetirizine"; "Loratadine"; "Fexofenadine";
  "Diphenhydramine"; "Chlorpheniramine"; "Omeprazole"; "Lansoprazole";
  "Ranitidine"; "Famotidine"; "Antacid"; "Magnesium Hydroxide";
  "Guaifenesin"; "Dextromethorphan"; "Codeine"; "Phenylephrine";
  "Pseudoephedrine"; "Loperamide"; "Bismuth Subsalicylate"; "Simethicone";
  "Bisacodyl"; "Senna"; "Hydrocortisone"; "Clotrimazole"; "Miconazole";
  "Terbinafine"; "Bacitracin"; "Neomycin"; "Melatonin"; "Valerian Root";
  "Chamomile"; "Magnesium"; "Vitamin C"; "Vitamin D"; "Zinc"; "Advil";
  "Tylenol"; "Motrin"; "Aleve"; "Zyrtec"; "Claritin"; "Allegra";
  "Benadryl"; "Prilosec"; "Nexium"; "Pepcid"; "Zantac"; "Tums"; "Rolaids";
  "Pepto-Bismol"; "DayQuil"; "NyQuil"; "Mucinex"; "Robitussin"; "Sudafed";
  "Imodium"; "Dulcolax"; "Ex-Lax"
]%string.

(** The body of a suggestions answer; [total] is absent from the answer to
    an invalid query. *)
Record Suggestions := {
  suggestions : list string;
  total : option nat
}.

Definition getOTCSuggestions (query : QueryParam) : Suggestions :=
  match query with
  | Text q =>
      if invalid query then {| suggestions := []; total := None |}
      else
        let filteredSuggestions :=
          firstn 10
            (List.filter
               (fun med =>
                  Retry.includes (JsString.toLowerCase med)
                    (JsString.toLowerCase q))
               COMMON_MEDICINES) in
        {| suggestions := filteredSuggestions;
           total := Some (List.length filteredSuggestions) |}
  | Absent | Other => {| suggestions := []; total := None |}
  end.

(** An entry of the mock table of [searchOTCMedicines]. *)
Record Medicine := {
  name : string;
  category : string;
  description : string;
  dosage : string;
  warnings : list string
}.

Definition mockTable : list Medicine := [
  {| name := "Paracetamol";
     category := "Pain reliever";
     description := "Common pain and fever reducer";
     dosage := "500mg every 4-6 hours";
     warnings := ["Do not exceed 4g per day"; "Avoid alcohol"] |};
  {| name := "Ibuprofen";
     category := "Anti-inflammatory";
     description := "Pain, inflammation, and fever reducer";
     dosage := "200-400mg every 4-6 hours";
     warnings := ["Take with food"; "Avoid if stomach ulcers"] |};
  {| name := "Antacid";
     category := "Digestive";
     description := "Neutralizes stomach acid";
     dosage := "As needed for heartburn";
     warnings := ["Do not use for more than 2 weeks"] |}
]%string.

(** The truthiness of a value that [JSON.parse] returned. *)
Definition truthyJson (v : Json) : bool :=
  match v with
  | JNull => false
  | JBool b => b
  | JNum n => negb (Qeq_bool n 0)
  | JStr s => truthy (Some s)
  | JArr _ | JObj _ => true
  end.

(** [v.key] on such a value: only an object has the fields read here; the
    keys of a parsed object are distinct. *)
Definition prop (v : Json) (key : string) : option Json :=
  match v with
  | JObj fields => AiService.field key fields
  | _ => None
  end.

(** An entry of [results]: the one built from the AI result, whose fields
    may be missing, or a mock entry. *)
Inductive ResultEntry :=
| FromAI (name category description dosage warnings sideEffects uses
            : option Json)
| FromMock (med : Medicine).

Definition aiEntry (aiResult : Json) : ResultEntry :=
  FromAI (prop aiResult "name") (prop aiResult "category")
    (prop aiResult "description") (prop aiResult "dosage")
    (prop aiResult "warnings") (prop aiResult "sideEffects")
    (prop aiResult "uses").

(** The first conjunct of the filter over the mock table: the name or the
    category contains the query, case ignored. *)
Definition matchesQuery (query : string) (med : Medicine) : bool :=
  Retry.includes (JsString.toLowerCase (name med))
    (JsString.toLowerCase query)
  || Retry.includes (JsString.toLowerCase (category med))
       (JsString.toLowerCase query).

(** The filter over the mock table.  [None] is the [TypeError] of
    [aiResult.name.toLowerCase()] when the name is not a string; the second
    conjunct is evaluated only for an entry that matches the query. *)
Fixpoint filterMocks (query : string) (aiResult : Json)
    (table : list Medicine) : option (list Medicine) :=
  match table with
  | [] => Some []
  | med :: rest =>
      if matchesQuery query med then
        if negb (truthyJson aiResult) then
          option_map (cons med) (filterMocks query aiResult rest)
        else
          match prop aiResult "name" with
          | Some (JStr aiName) =>
              if negb (String.eqb (JsString.toLowerCase (name med))
                         (JsString.toLowerCase aiName))
              then option_map (cons med) (filterMocks query aiResult rest)
              else filterMocks query aiResult rest
          | _ => None
          end
      else filterMocks query aiResult rest
  end.

Inductive Response :=
| Status400 (error message : string)
| Status500 (error message : string)
| Json200 (results : list ResultEntry) (query : string) (total : nat).

Section WithRemote.

Variable World : Type.
Variable Date_now : World -> Z.
Variable setTimeout : Z -> World -> World.
Variable generateContent :
  string -> World
  -> Retry.Outcome AiService.GenerateContentResult * World.
Variable JSON_parse : string -> option Json.

(** The message of the engine's [TypeError]. *)
Variable typeErrorMessage : string.

Definition searchOTCMedicines (query : QueryParam)
    (aiService : AiService.Service World)
    : Response * AiService.Service World :=
  match query with
  | Text q =>
      if invalid query then
        (Status400 "Invalid search query" "Please provide a search term",
         aiService)
      else
        let '(aiResult, aiService') :=
          AiService.getMedicineDetails World Date_now setTimeout
            generateContent JSON_parse q aiService in
        let results :=
          if truthyJson aiResult then [aiEntry aiResult] else [] in
        match filterMocks q aiResult mockTable with
        | Some mockResults =>
            let results := results ++ map FromMock mockResults in
            (Json200 results q (List.length results), aiService')
        | None => (Status500 "Search failed" typeErrorMessage, aiService')
        end
  | Absent | Other =>
      (Status400 "Invalid search query" "Please provide a search term",
       aiService)
  end.

End WithRemote.

End OtcRoutes.

(** ** [chatbotResponse] and the chat routes *)

Module Chat.

Import Retry.

(** The system prompt of [chatbotResponse], with ['] standing for the double
    quote. *)
Definition systemPromptText : string :=
"You are MedWise AI, a friendly healthcare buddy. 
      Talk like a caring human, keep it simple and short (2-3 sentences).

      What you can do:
      1. Explain prescriptions or reports in simple English.
      2. Scan medicine strips to check expiry and dosage.
      3. Help with donating or disposing of old medicines.
      4. Give quick OTC suggestions for common things (headaches, etc.).

      Tone & Rules:
      - If someone asks 'how to start' or 'what can you do', briefly tell them you can help explain reports, scan medicine strips, or guide them on disposing/donating meds.
      - Keep it conversational. No robotic lists.
      - If things sound serious, suggest seeing a doctor. 
      - IMPORTANT: Only add the tiny disclaimer '(Not medical advice)' if the user asks about specific medicines, dosages, or medical tips. For general greetings or 'how to start' type questions, skip it.
      ".

Definition systemPrompt : string := AiService.quoted systemPromptText.

Definition newline : string := String JsString.lineFeed EmptyString.

(** [s.slice(-n)]: the last [n] characters, all of them when there are
    fewer. *)
Definition lastChars (n : nat) (s : string) : string :=
  String.substring (String.length s - n) n s.

Definition fullPrompt (message context : string) : string :=
  let withHistory :=
    if truthy (Some context) then
      String.append systemPrompt
        (String.append newline (String.append newline
           (String.append "Recent Conversation History:"
              (String.append newline (lastChars 2000 context)))))
    else systemPrompt in
  String.append withHistory
    (String.append newline (String.append newline
       (String.append "User Question: "
          (String.append message
             (String.append newline (String.append newline
                "MedWise AI Response:")))))).

Definition notConfigured : string :=
  "I'm sorry, I'm currently unable to process requests because my AI engine is not configured. Please contact the administrator.".

Definition troubleReply : string :=
  "I'm having a bit of trouble processing that right now. For urgent health matters, please consult a healthcare professional. How else can I help you today?".

Inductive Sender := user | bot.

Inductive MessageType := text | quick_reply | suggestion.

(** A timestamp is kept as an ISO string; it is modelled by the time value
    that the string denotes, which [new Date(string).getTime()] gives
    back. *)
Record ChatMessage := {
  id : string;
  message : string;
  sender : Sender;
  timestamp : Z;
  type : option MessageType
}.

(** [sid] is the field [id] of a session. *)
Record ChatSession := {
  sid : string;
  messages : list ChatMessage;
  context : string;
  createdAt : Z;
  lastActivity : Z
}.

(** A number in a template literal. *)
Definition decimal (n : Z) : string := NilZero.string_of_int (Z.to_int n).

Definition suggestionsMap : list (list string * list string) := [
  (["prescription"; "report"; "doctor"; "analyze"],
   ["Upload a prescription"; "Understand blood report"; "What is a dosage?"]);
  (["expired"; "dispose"; "medicine"; "old"; "throw"],
   ["Find disposal centers"; "Can I donate old medicine?";
    "Disposal guidelines"]);
  (["pain"; "headache"; "fever"; "cold"; "flu"],
   ["OTC recommendations"; "When to see a doctor?";
    "Home remedies for fever"]);
  (["hi"; "hello"; "hey"; "start"; "help"],
   ["How can you help me?"; "Check medicine expiry"; "Analyze prescription"]);
  (["side effect"; "allergic"; "reaction"],
   ["Check drug interactions"; "Common side effects"; "Allergy information"])
]%string.

Definition defaultSuggestions : list string :=
  ["Analyze prescription"; "Medicine disposal info"; "OTC recommendations";
   "General wellness tips"]%string.

(** The loop over the groups. *)
Fixpoint firstGroup (message : string)
    (groups : list (list string * list string)) : list string :=
  match groups with
  | [] => defaultSuggestions
  | (keywords, suggestions) :: rest =>
      if existsb (fun k => includes message k) keywords then suggestions
      else firstGroup message rest
  end.

Definition generateSuggestions (userMessage context : string) : list string :=
  let message := JsString.toLowerCase userMessage in
  firstGroup message suggestionsMap.

(** A failure answer with its status, or the data of a success. *)
Inductive Reply (A : Type) :=
| Fail (status : Z) (error message : string)
| Ok (data : A).

Arguments Fail {A} status error message.
Arguments Ok {A} data.

Record Started := {
  startedId : string;
  initialMessage : ChatMessage;
  quickReplies : list string;
  features : list string
}.

Record Sent := {
  userMessage : ChatMessage;
  botMessage : ChatMessage;
  suggestions : list string;
  infoId : string;
  messageCount : nat;
  infoLastActivity : Z
}.

Record History := {
  historyId : string;
  historyMessages : list ChatMessage;
  historyCount : nat;
  historyCreatedAt : Z;
  historyLastActivity : Z
}.

Record Ended := {
  endedMessage : string;
  endedId : string;
  duration : Z;
  endedCount : nat
}.

(** The pieces the handlers build, by the clock reading [now] of the
    handler.  A handler reads the clock several times between two [await]s;
    these readings are taken to be one. *)
Definition sessionIdAt (now : Z) (suffix : string) : string :=
  String.append "chat_"
    (String.append (decimal now) (String.append "_" suffix)).

Definition initialMessageAt (now : Z) : ChatMessage :=
  {| id := String.append "msg_" (decimal now);
     message := "Hey there! I'm MedWise. I can help you with prescriptions, meds, or any health questions on your mind. How's it going?";
     sender := bot;
     timestamp := now;
     type := Some text |}.

Definition newSession (now : Z) (suffix : string) : ChatSession :=
  {| sid := sessionIdAt now suffix;
     messages := [initialMessageAt now];
     context := "";
     createdAt := now;
     lastActivity := now |}.

Definition startedAt (now : Z) (suffix : string) : Started :=
  {| startedId := sessionIdAt now suffix;
     initialMessage := initialMessageAt now;
     quickReplies := ["How do I start?"; "Help with prescription";
                      "Medicine disposal"; "OTC recommendations"];
     features := ["Prescription analysis"; "Medicine management";
                  "OTC suggestions"; "Health education"] |}.

Definition userMessageAt (now : Z) (message' : string) : ChatMessage :=
  {| id := String.append "msg_" (String.append (decimal now) "_user");
     message := message';
     sender := user;
     timestamp := now;
     type := Some text |}.

Definition botMessageAt (later : Z) (botResponse : string) : ChatMessage :=
  {| id := String.append "msg_" (String.append (decimal later) "_bot");
     message := botResponse;
     sender := bot;
     timestamp := later;
     type := Some text |}.

(** [session.messages.push(m)]. *)
Definition pushed (session : ChatSession) (m : ChatMessage) : ChatSession :=
  {| sid := sid session;
     messages := messages session ++ [m];
     context := context session;
     createdAt := createdAt session;
     lastActivity := lastActivity session |}.

(** The text [session.context] grows by. *)
Definition exchangeText (message' botResponse : string) : string :=
  String.append newline
    (String.append "User: "
       (String.append message'
          (String.append newline (String.append "Bot: " botResponse)))).

(** The session after the reply: the bot message is pushed, then
    [lastActivity] and [context] are set. *)
Definition replied (session : ChatSession) (message' botResponse : string)
    (later : Z) : ChatSession :=
  {| sid := sid session;
     messages := messages session ++ [botMessageAt later botResponse];
     context := String.append (context session)
                  (exchangeText message' botResponse);
     createdAt := createdAt session;
     lastActivity := later |}.

(** The data of the answer of [sendMessage], read off the session as it is
    after the reply. *)
Definition sentOf (sessionId' message' : string) (userMessage : ChatMessage)
    (botResponse : string) (later : Z) (session' : ChatSession) : Sent :=
  {| userMessage := userMessage;
     botMessage := botMessageAt later botResponse;
     suggestions := generateSuggestions message' (context session');
     infoId := sessionId';
     messageCount := List.length (messages session');
     infoLastActivity := lastActivity session' |}.

Section WithRemote.

Variable World : Type.
Variable Date_now : World -> Z.
Variable setTimeout : Z -> World -> World.
Variable generateContent :
  string -> World -> Outcome AiService.GenerateContentResult * World.

(** [process.env.GEMINI_API_KEY]. *)
Variable GEMINI_API_KEY : option string.

(** [Math.random().toString(36).substr(2, 9)] in a world. *)
Variable randomSuffix : World -> string.

(** [chatbotResponse]: every failure inside the [try] ends in the fixed
    reply. *)
Definition chatbotResponse (message context : string) (rt : Runtime World)
    : string * Runtime World :=
  if negb (truthy GEMINI_API_KEY) then (notConfigured, rt)
  else
    let '(result, rt') :=
      callWithRetry setTimeout (generateContent (fullPrompt message context))
        3 2000 rt in
    match result with
    | Rejected _ => (troubleReply, rt')
    | Resolved res =>
        match AiService.text res with
        | Rejected _ => (troubleReply, rt')
        | Resolved botResponse =>
            if negb (truthy (Some botResponse)) then (troubleReply, rt')
            else (botResponse, rt')
        end
    end.

(** The module state: the session map, and the world with the trace of the
    AI service.  The handlers are taken one at a time. *)
Record Store := {
  chatSessions : gmap string ChatSession;
  runtime : Runtime World
}.

Definition startChatSession (st : Store) : Reply Started * Store :=
  let now := Date_now (world (runtime st)) in
  let suffix := randomSuffix (world (runtime st)) in
  (Ok (startedAt now suffix),
   {| chatSessions :=
        <[sessionIdAt now suffix := newSession now suffix]> (chatSessions st);
      runtime := runtime st |}).

(** [sessionId] and [message] of the body: absent, or strings.  Nothing else
    touches the store while the chatbot is awaited. *)
Definition sendMessage (sessionId message : option string) (st : Store)
    : Reply Sent * Store :=
  match sessionId, message with
  | Some sessionId', Some message' =>
      if negb (truthy sessionId) || negb (truthy message) then
        (Fail 400 "Missing required fields"
           "Session ID and message are required", st)
      else
        match chatSessions st !! sessionId' with
        | None =>
            (Fail 404 "Session not found"
               "Chat session does not exist or has expired", st)
        | Some session =>
            let now := Date_now (world (runtime st)) in
            let userMessage := userMessageAt now message' in
            let '(botResponse, rt) :=
              chatbotResponse message' (context session) (runtime st) in
            let later := Date_now (world rt) in
            let session' :=
              replied (pushed session userMessage) message' botResponse
                later in
            (Ok (sentOf sessionId' message' userMessage botResponse later
                   session'),
             {| chatSessions := <[sessionId' := session']> (chatSessions st);
                runtime := rt |})
        end
  | _, _ =>
      (Fail 400 "Missing required fields"
         "Session ID and message are required", st)
  end%string.

Definition getChatHistory (sessionId : string) (st : Store) : Reply History :=
  match chatSessions st !! sessionId with
  | None => Fail 404 "Session not found" "Chat session does not exist"
  | Some session =>
      Ok {| historyId := sessionId;
            historyMessages := messages session;
            historyCount := List.length (messages session);
            historyCreatedAt := createdAt session;
            historyLastActivity := lastActivity session |}
  end.

Definition endChatSession (sessionId : string) (st : Store)
    : Reply Ended * Store :=
  match chatSessions st !! sessionId with
  | None =>
      (Fail 404 "Session not found" "Chat session does not exist", st)
  | Some session =>
      (Ok {| endedMessage := "Chat session ended successfully";
             endedId := sessionId;
             duration := Date_now (world (runtime st)) - createdAt session;
             endedCount := List.length (messages session) |},
       {| chatSessions := delete sessionId (chatSessions st);
          runtime := runtime st |})
  end.

(** The hourly sweep: a session whose last activity is more than an hour
    old is deleted. *)
Definition sweep (st : Store) : Store :=
  let oneHourAgo := Date_now (world (runtime st)) - 60 * 60 * 1000 in
  {| chatSessions :=
       filter (fun entry => ~ (lastActivity (snd entry) < oneHourAgo))
         (chatSessions st);
     runtime := runtime st |}.

(** A request to the chat module, or the tick of the sweep timer. *)
Inductive Request :=
| StartChat
| SendMessage (sessionId message : option string)
| GetHistory (sessionId : string)
| EndChat (sessionId : string)
| Sweep.

Definition handle (request : Request) (st : Store) : Store :=
  match request with
  | StartChat => snd (startChatSession st)
  | SendMessage sessionId message => snd (sendMessage sessionId message st)
  | GetHistory _ => st
  | EndChat sessionId => snd (endChatSession sessionId st)
  | Sweep => sweep st
  end.

(** The store when a request arrives: the world has moved on. *)
Definition arrive (w : World) (st : Store) : Store :=
  {| chatSessions := chatSessions st;
     runtime := {| world := w; trace := trace (runtime st) |} |}.

Fixpoint serve (requests : list (World * Request)) (st : Store) : Store :=
  match requests with
  | [] => st
  | (w, request) :: rest => serve rest (handle request (arrive w st))
  end.

End WithRemote.

(** A conversation: the greeting of the bot, then pairs of a user message
    and the reply of the bot. *)
Fixpoint exchanges (senders : list Sender) : bool :=
  match senders with
  | [] => true
  | user :: bot :: rest => exchanges rest
  | _ => false
  end.

Definition conversation (msgs : list ChatMessage) : bool :=
  match map sender msgs with
  | bot :: rest => exchanges rest
  | _ => false
  end.

Arguments chatSessions {World} s.
Arguments runtime {World} s.
Arguments Build_Store {World} chatSessions runtime.

(** Every stored session is filed under its own id and holds a
    conversation. *)
Definition wellFormed {World : Type} (st : Store World) : Prop :=
  forall id session,
    chatSessions st !! id = Some session ->
    sid session = id /\ conversation (messages session) = true.

End Chat.

(** * The facility search of the server: [fetchNearbyPlaces] and the
      route [findDonationCenters] *)

Module Places.

Import Server.

Definition OVERPASS_ENDPOINTS : list string := [
  "https://overpass-api.de/api/interpreter";
  "https://lz4.overpass-api.de/api/interpreter";
  "https://overpass.kumi.systems/api/interpreter"
]%string.

(** A number that [parseFloat] gave: [None] is [NaN]. *)
Definition Number : Type := option Q.

(** An element of the Overpass answer: a node carries [lat] and [lon], a way
    or a relation a [center]; [tags] maps keys to texts. *)
Record Element := {
  lat : option Q;
  lon : option Q;
  center : option (Q * Q);
  tags : option (gmap string string)
}.

(** The answer of Overpass once read: [elements] may be missing. *)
Record OverpassData := {
  elements : option (list Element)
}.

(** What [response.json()] gives: it rejects, or resolves to a value. *)
Inductive Payload (A : Type) :=
| Unreadable
| Parsed (value : A).

Arguments Unreadable {A}.
Arguments Parsed {A} value.

(** What [fetch] gives: it rejects, or resolves to a response. *)
Inductive Fetched (A : Type) :=
| NetworkError
| Answered (ok : bool) (body : Payload A).

Arguments NetworkError {A}.
Arguments Answered {A} ok body.

(** An answer the loop over the endpoints stops at: [response.ok] holds and
    the body could be read. *)
Definition usable {A : Type} (f : Fetched A) : bool :=
  match f with
  | Answered true (Parsed _) => true
  | _ => false
  end.

(** The requests sent, in order. *)
Inductive Call :=
| Geocode (searchStr : string)
| Overpass (endpoint : string).

(** [n || alt] on a number. *)
Definition numberOr (n : option Q) (alt : Q) : Q :=
  match n with
  | Some v => if Qeq_bool v 0 then alt else v
  | None => alt
  end.

(** [s || alt] on a text. *)
Definition textOr (s : option string) (alt : string) : string :=
  match s with
  | Some (String c r) => String c r
  | _ => alt
  end.

Definition tag (e : Element) (key : string) : option string :=
  match tags e with
  | Some t => t !! key
  | None => None
  end.

Definition isPharmacy (e : Element) : bool :=
  strictEq (tag e "amenity") "pharmacy"
  || strictEq (tag e "healthcare") "pharmacy".

(** The body of the [map] callback; [random] is the value [Math.random()]
    gives for this element.  The rating is computed in binary64; the record
    keeps the rational it is. *)
Definition toCenter (random : float) (e : Element) : Center :=
  let pLat := numberOr (lat e)
                (match center e with Some c => fst c | None => 0 end) in
  let pLng := numberOr (lon e)
                (match center e with Some c => snd c | None => 0 end) in
  {| cname := textOr (tag e "name")
                (if isPharmacy e then "Local Pharmacy" else "Medical Facility");
     type := if isPharmacy e then "Pharmacy"
             else if strictEq (tag e "amenity") "doctors" then "Clinic"
                  else "Hospital";
     address :=
       textOr (tag e "addr:full")
         (if truthy (tag e "addr:street")
          then JsString.trim
                 (String.append (textOr (tag e "addr:housenumber") "")
                    (String.append " "
                       (String.append (default "" (tag e "addr:street"))
                          (String.append ", "
                             (textOr (tag e "addr:city") "")))))
          else "Address on map");
     phone := textOr (tag e "phone")
                (textOr (tag e "contact:phone") "Contact to confirm");
     coordinates := (pLat, pLng);
     accepts := ["Unopened"; "Sealed"; "Unexpired"];
     distance := "Live";
     hours := textOr (tag e "opening_hours") "Contact facility";
     rating := Binary64.exact (4.2 + random * 0.8)%float;
     verified := true |}%string%Q.

Definition located (place : Center) : bool :=
  negb (Qeq_bool (fst (coordinates place)) 0).

Section WithNetwork.

(** The geocoder asked for [searchStr]: the entries found, each with the
    texts of its [lat] and [lon].  An answer that is no array of such
    entries ends in the [catch] like one that cannot be read. *)
Variable nominatim : string -> Fetched (list (string * string)).

(** An Overpass endpoint asked for the facilities around a point (the URL
    is made of the endpoint and the two numbers): a falsy answer is
    [None]. *)
Variable overpass :
  string -> Number * Number -> Fetched (option OverpassData).

Variable parseFloat : string -> Number.

(** The [n]-th value of [Math.random()] in a call. *)
Variable Math_random : nat -> float.

(** The loop over the endpoints: the endpoints asked, and [overpassData]. *)
Fixpoint askEndpoints (endpoints : list string) (at_ : Number * Number)
    : list string * option OverpassData :=
  match endpoints with
  | [] => ([], None)
  | endpoint :: rest =>
      match overpass endpoint at_ with
      | Answered true (Parsed data) => ([endpoint], data)
      | _ =>
          let '(asked, data) := askEndpoints rest at_ in
          (endpoint :: asked, data)
      end
  end.

Definition toCenters (els : list Element) : list Center :=
  List.filter located (imap (fun i e => toCenter (Math_random i) e) els).

(** [fetchNearbyPlaces] from the Overpass query on. *)
Definition around (at_ : Number * Number)
    : list Call * (list Center * option (Number * Number)) :=
  let '(asked, overpassData) := askEndpoints OVERPASS_ENDPOINTS at_ in
  (List.map Overpass asked,
   match overpassData with
   | Some {| elements := Some (e :: els) |} =>
       (toCenters (e :: els), Some at_)
   | _ => ([], Some at_)
   end).

Definition fetchNearbyPlaces (locationQuery : option string)
    (coords : option (Number * Number))
    : list Call * (list Center * option (Number * Number)) :=
  match coords with
  | Some at_ => around at_
  | None =>
      match locationQuery with
      | Some query =>
          if negb (truthy locationQuery)
             || (String.length (JsString.trim query) =? 0)%nat
          then ([], ([], None))
          else
            let searchStr :=
              if Retry.includes (JsString.toLowerCase query) "india"
              then query else String.append query ", India" in
            match nominatim searchStr with
            | Answered true (Parsed (first :: _)) =>
                let '(calls, result) :=
                  around (parseFloat (fst first), parseFloat (snd first)) in
                (Geocode searchStr :: calls, result)
            | _ => ([Geocode searchStr], ([], None))
            end
      | None => ([], ([], None))
      end
  end%string.

(** [data] of the answer of [findDonationCenters]. *)
Record Found := {
  centers : list Center;
  geocodedCenter : option (Number * Number);
  total : nat;
  searchLocation : string;
  source : string
}.

(** [location], [lat] and [lng] of the query string: absent, or texts. *)
Definition findDonationCenters (location qLat qLng : option string)
    : list Call * Found :=
  let '(calls, (found, geocoded)) :=
    match qLat, qLng with
    | Some la, Some ln =>
        if truthy qLat && truthy qLng
        then fetchNearbyPlaces None (Some (parseFloat la, parseFloat ln))
        else fetchNearbyPlaces location None
    | _, _ => fetchNearbyPlaces location None
    end in
  let usedMock :=
    (List.length found =? 0)%nat && negb (truthy location)
    && negb (truthy qLat) in
  let finalCenters := if usedMock then MOCK_CENTERS else found in
  (calls,
   {| centers := finalCenters;
      geocodedCenter := geocoded;
      total := List.length finalCenters;
      searchLocation :=
        if truthy location then default "" location
        else if truthy qLat
             then String.append (default "" qLat)
                    (String.append ", "
                       (match qLng with
                        | Some ln => ln
                        | None => "undefined"
                        end))
             else "Default";
      source := if usedMock then "Mock Data (API Limit/Error)"
                else "OpenStreetMap" |})%string.

End WithNetwork.

End Places.

(** ** The chat routes when requests overlap

    [sendMessage] awaits the chatbot between pushing the message of the user
    and pushing the reply, and other handlers run in between.  A session is
    an object that the map and every waiting [sendMessage] hold by
    reference.  In the state, [objects] lists the session objects ever
    created, a reference being a position in it, [chatSessions] is the map,
    and [calls] are the [sendMessage] calls that await the chatbot.  Each
    handler gets the clock reading [now] of its run. *)

Module ChatRun.

Import Chat.

(** What a waiting [sendMessage] holds: the session object, [sessionId] and
    [message], the context it called the chatbot with, and [userMessage]. *)
Record Call := {
  target : nat;
  callId : string;
  userText : string;
  askedContext : string;
  sentUser : ChatMessage
}.

Record State := {
  objects : list ChatSession;
  chatSessions : gmap string nat;
  calls : list Call
}.

Definition initial : State :=
  {| objects := []; chatSessions := ∅; calls := [] |}.

(** [chatSessions.get(sessionId)]. *)
Definition get (st : State) (sessionId : string)
    : option (nat * ChatSession) :=
  match chatSessions st !! sessionId with
  | Some ref =>
      match objects st !! ref with
      | Some session => Some (ref, session)
      | None => None
      end
  | None => None
  end.

Definition startChatSession (now : Z) (suffix : string) (st : State)
    : Reply Started * State :=
  (Ok (startedAt now suffix),
   {| objects := objects st ++ [newSession now suffix];
      chatSessions :=
        <[sessionIdAt now suffix := List.length (objects st)]>
          (chatSessions st);
      calls := calls st |}).

(** [sendMessage] up to the [await]: an answer at once, or the call is left
    waiting for the chatbot. *)
Definition sendMessage (sessionId message : option string) (now : Z)
    (st : State) : option (Reply Sent) * State :=
  match sessionId, message with
  | Some sessionId', Some message' =>
      if negb (truthy sessionId) || negb (truthy message) then
        (Some (Fail 400 "Missing required fields"
                 "Session ID and message are required"), st)
      else
        match get st sessionId' with
        | None =>
            (Some (Fail 404 "Session not found"
                     "Chat session does not exist or has expired"), st)
        | Some (ref, session) =>
            let userMessage := userMessageAt now message' in
            (None,
             {| objects :=
                  <[ref := pushed session userMessage]> (objects st);
                chatSessions := chatSessions st;
                calls :=
                  calls st ++ [{| target := ref;
                                  callId := sessionId';
                                  userText := message';
                                  askedContext := context session;
                                  sentUser := userMessage |}] |})
        end
  | _, _ =>
      (Some (Fail 400 "Missing required fields"
               "Session ID and message are required"), st)
  end%string.

(** [sendMessage] from the [await] on, for the [n]-th waiting call, once the
    chatbot has answered [botResponse]: [None] when no such call waits. *)
Definition resume (n : nat) (botResponse : string) (later : Z) (st : State)
    : option (Reply Sent * State) :=
  match calls st !! n with
  | Some call =>
      match objects st !! target call with
      | Some session =>
          let session' :=
            replied session (userText call) botResponse later in
          Some (Ok (sentOf (callId call) (userText call) (sentUser call)
                      botResponse later session'),
                {| objects := <[target call := session']> (objects st);
                   chatSessions := chatSessions st;
                   calls := delete n (calls st) |})
      | None => None
      end
  | None => None
  end.

Definition getChatHistory (sessionId : string) (st : State) : Reply History :=
  match get st sessionId with
  | None => Fail 404 "Session not found" "Chat session does not exist"
  | Some (_, session) =>
      Ok {| historyId := sessionId;
            historyMessages := messages session;
            historyCount := List.length (messages session);
            historyCreatedAt := createdAt session;
            historyLastActivity := lastActivity session |}
  end.

Definition endChatSession (sessionId : string) (now : Z) (st : State)
    : Reply Ended * State :=
  match get st sessionId with
  | None =>
      (Fail 404 "Session not found" "Chat session does not exist", st)
  | Some (_, session) =>
      (Ok {| endedMessage := "Chat session ended successfully";
             endedId := sessionId;
             duration := now - createdAt session;
             endedCount := List.length (messages session) |},
       {| objects := objects st;
          chatSessions := delete sessionId (chatSessions st);
          calls := calls st |})
  end.

Definition stale (oneHourAgo : Z) (objs : list ChatSession) (ref : nat)
    : bool :=
  match objs !! ref with
  | Some session => lastActivity session <? oneHourAgo
  | None => false
  end.

(** The hourly sweep. *)
Definition sweep (now : Z) (st : State) : State :=
  let oneHourAgo := now - 60 * 60 * 1000 in
  {| objects := objects st;
     chatSessions :=
       filter (fun entry => stale oneHourAgo (objects st) (snd entry) = false)
         (chatSessions st);
     calls := calls st |}.

(** What happens, in the order it happens: a request is taken up, the
    chatbot answers a waiting call, or the sweep timer fires. *)
Inductive Happening :=
| StartChat (now : Z) (suffix : string)
| SendMessage (sessionId message : option string) (now : Z)
| ChatbotReplied (n : nat) (botResponse : string) (now : Z)
| EndChat (sessionId : string) (now : Z)
| Sweep (now : Z).

Definition step (h : Happening) (st : State) : State :=
  match h with
  | StartChat now suffix => snd (startChatSession now suffix st)
  | SendMessage sessionId message now =>
      snd (sendMessage sessionId message now st)
  | ChatbotReplied n botResponse now =>
      match resume n botResponse now st with
      | Some (_, st') => st'
      | None => st
      end
  | EndChat sessionId now => snd (endChatSession sessionId now st)
  | Sweep now => sweep now st
  end.

Fixpoint run (happenings : list Happening) (st : State) : State :=
  match happenings with
  | [] => st
  | h :: rest => run rest (step h st)
  end.

(** The messages of one sender, and the waiting calls on one object. *)
Definition Sender_eqb (a b : Sender) : bool :=
  match a, b with
  | user, user | bot, bot => true
  | _, _ => false
  end.

Definition said (who : Sender) (msgs : list ChatMessage) : nat :=
  List.length (List.filter (fun m => Sender_eqb (sender m) who) msgs).

Definition awaiting (ref : nat) (cs : list Call) : nat :=
  List.length (List.filter (fun c => (target c =? ref)%nat) cs).

(** The map points at objects filed under their own id; every object starts
    with a message of the bot, and its user messages are as many as the
    replies to them and the calls still waiting on it; every waiting call
    holds an object. *)
Definition balanced (st : State) : Prop :=
  (forall id ref,
      chatSessions st !! id = Some ref ->
      exists session, objects st !! ref = Some session /\ sid session = id)
  /\ (forall ref session,
        objects st !! ref = Some session ->
        (exists first rest,
            messages session = first :: rest /\ sender first = bot)
        /\ (said user (messages session) + 1
            = said bot (messages session) + awaiting ref (calls st))%nat)
  /\ (forall call,
        In call (calls st) ->
        (target call < List.length (objects st))%nat).

(** The sessions as the map shows them. *)
Definition view (st : State) : gmap string ChatSession :=
  omap (fun ref => objects st !! ref) (chatSessions st).

End ChatRun.

(** ** Sample inputs *)

(** The inputs of one form, for both classifiers. *)
Definition sampleClientInfo (expiry : string) (c : Client.Condition)
    (t : Client.MedicineType) : Client.MedicineInfo :=
  {| Client.name := Some "Paracetamol"%string;
     Client.manufacturer := None;
     Client.expiryDate := Some expiry;
     Client.batchNumber := None;
     Client.strength := None;
     Client.condition := Some c;
     Client.medicineType := Some t |}.

Definition sampleServerBody (expiry condition medicineType : string)
    (notAvailable : bool) : Server.Body :=
  {| Server.medicineInfo :=
       Some {| Server.expiryDate := Some expiry;
               Server.condition := Some condition;
               Server.medicineType := Some medicineType;
               Server.expiryNotAvailable := notAvailable |};
     Server.location := None |}.

(** A lookup that finds nothing. *)
Definition noPlaces (_ : option string)
    : list Server.Center * option (Q * Q) := ([], None).

(** 2024-06-15T12:00:00Z, and five hours west of UTC. *)
Definition noonJune15 : Z := 1718452800000.
Definition utcMinus5 : Z := - (5 * 3600000).

(** A remote whose world is the number of calls made so far: rate limited
    on its first [limit] calls, then [after]. *)
Definition error429 : Retry.Thrown :=
  Retry.Error {| Retry.status := Some 429;
                 Retry.message := Some "Too Many Requests"%string;
                 Retry.errorDetails := None |}.

Definition error500 : Retry.Thrown :=
  Retry.Error {| Retry.status := Some 500;
                 Retry.message := Some "Internal error"%string;
                 Retry.errorDetails := None |}.

Definition limitedThen {T : Type} (limit : nat) (after : Retry.Outcome T)
    (calls : nat) : Retry.Outcome T * nat :=
  if (calls <? limit)%nat then (Retry.Rejected error429, S calls)
  else (after, S calls).

(** Waiting leaves that world as it is. *)
Definition noWait (_ : Z) (calls : nat) : nat := calls.

Definition freshRuntime : Retry.Runtime nat := Retry.Build_Runtime O [].

(** A remote for examples.  The world is the clock; the remote answers every
    prompt with the same text after 1.2 seconds; waiting moves the clock by
    the delay. *)
Definition answering (content : string) (_ : string) (clock : Z)
    : Retry.Outcome AiService.GenerateContentResult * Z :=
  (Retry.Resolved {| AiService.text := Retry.Resolved content |},
   clock + 1200).

Definition waiting (delay clock : Z) : Z := clock + delay.

Definition clockOf (clock : Z) : Z := clock.

Definition freshService (clock : Z) : AiService.Service Z :=
  AiService.Build_Service ∅ (Retry.Build_Runtime clock []).

(** A fenced answer of the structure the prompt asks for. *)
Definition aspirinAnswer : string :=
  String.append "```json"
    (String JsString.lineFeed
       (String.append
          (AiService.quoted
             "{'name': 'Aspirin', 'category': 'Pain Reliever', 'description': 'Relieves pain and fever', 'dosage': 'One tablet every 4-6 hours', 'warnings': ['Not for children'], 'sideEffects': [], 'uses': ['Headache', 'Fever']}")
          (String JsString.lineFeed "```"))).

(** A facility at a position; the other fields as the server fills them. *)
Definition centerAt (name : string) (latitude longitude : float)
    : Ranking.DonationCenter :=
  {| Ranking.name := name;
     Ranking.address := "Address on map";
     Ranking.phone := "Contact to confirm";
     Ranking.distance := "Live";
     Ranking.accepts := ["Unopened"; "Sealed"; "Unexpired"]%string;
     Ranking.hours := "Contact facility";
     Ranking.rating := 4.5%float;
     Ranking.verified := true;
     Ranking.coordinates :=
       {| Ranking.lat := latitude; Ranking.lng := longitude |};
     Ranking.type := "Pharmacy" |}.

(** Four facilities due north of the origin (12 N, 77 E), about 2.0 km,
    5.0 km, 15.0024 km and 20.0 km away, and one at the antipode of the
    origin. *)
Definition nearCenter : Ranking.DonationCenter :=
  centerAt "Near Pharmacy" 12.018%float 77%float.

Definition midCenter : Ranking.DonationCenter :=
  centerAt "Mid Pharmacy" 12.045%float 77%float.

Definition edgeCenter : Ranking.DonationCenter :=
  centerAt "Edge Pharmacy" 12.13492%float 77%float.

Definition farCenter : Ranking.DonationCenter :=
  centerAt "Far Pharmacy" 12.18%float 77%float.

Definition antipodeCenter : Ranking.DonationCenter :=
  centerAt "Antipode Pharmacy" (-12)%float (-103)%float.

(** An engine for examples: [Math.sin], [Math.cos] and [Math.atan2] by the
    values the C library gives at the arguments the examples reach, [NaN]
    elsewhere, and the stable insertion sort. *)
Definition sinTable : list (float * float) := [
  (0x1.496b7c53c5bdep-13, 0x1.496b7c3d0b6a1p-13);
  (0x0.0p+0, 0x0.0p+0);
  (0x1.34a5eabed86eep-10, 0x1.34a5e6126fbe6p-10);
  (0x1.9bc65b68b71b7p-10, 0x1.9bc6504fbc47ap-10);
  (0x1.9bc65b68b71b7p-12, 0x1.9bc65ab7276cep-12);
  ((-0x1.acee9f37bebd5p-3), (-0x1.a9cd9ac4258f5p-3));
  ((-0x1.921fb54442d18p+0), (-0x1.0000000000000p+0))
]%float.

Definition cosTable : list (float * float) := [
  (0x1.acee9f37bebd5p-3, 0x1.f4cfc327a0080p-1);
  (0x1.ad9354f5e8a03p-3, 0x1.f4c731d8f1cd7p-1);
  (0x1.b1c136e2ba1f0p-3, 0x1.f48f3c41457e1p-1);
  (0x1.b35db8a56199cp-3, 0x1.f479845902340p-1);
  (0x1.ae8a659327747p-3, 0x1.f4ba51d02bb25p-1);
  ((-0x1.acee9f37bebd5p-3), 0x1.f4cfc327a0080p-1)
]%float.

Definition atan2Table : list (float * float * float) := [
  (0x1.496b7c3d0b6a1p-13, 0x1.ffffff9606a35p-1, 0x1.496b7c53c5bdep-13);
  (0x1.34a5e6126fbe6p-10, 0x1.ffffe8be05a6ep-1, 0x1.34a5eabed86eep-10);
  (0x1.9bc6504fbc47ap-10, 0x1.ffffd69a985b9p-1, 0x1.9bc65b68b71b7p-10);
  (0x1.9bc65ab7276cep-12, 0x1.fffffd69a97d6p-1, 0x1.9bc65b68b71b7p-12)
]%float.

Definition tabulated (table : list (float * float)) (x : float) : float :=
  match List.find (fun entry => PrimFloat.eqb (fst entry) x) table with
  | Some entry => snd entry
  | None => nan
  end.

Definition sampleSin : float -> float := tabulated sinTable.

Definition sampleCos : float -> float := tabulated cosTable.

Definition sampleAtan2 (y x : float) : float :=
  match List.find (fun entry => PrimFloat.eqb (fst (fst entry)) y
                                && PrimFloat.eqb (snd (fst entry)) x)
          atan2Table with
  | Some entry => snd entry
  | None => nan
  end.

Definition sampleSort :
    (Ranking.DonationCenter -> Ranking.DonationCenter -> Binary64.Sign)
    -> list Ranking.DonationCenter -> list Ranking.DonationCenter :=
  Ranking.sort.

(** The distance from the origin (12 N, 77 E) and the ranking around it with
    this engine. *)
Definition sampleKm (c : Ranking.DonationCenter) : float :=
  Ranking.haversineKm sampleSin sampleCos sampleAtan2 12 77
    (Ranking.lat (Ranking.coordinates c))
    (Ranking.lng (Ranking.coordinates c)).

Definition sampleShown (c : Ranking.DonationCenter) : option string :=
  Ranking.characters
    (Ranking.calculateDistance sampleSin sampleCos sampleAtan2 12 77
       (Ranking.lat (Ranking.coordinates c))
       (Ranking.lng (Ranking.coordinates c))).

Definition sampleRanked
    : list Ranking.DonationCenter -> list Ranking.DonationCenter :=
  Ranking.sortedCenters sampleSin sampleCos sampleAtan2 sampleSort 12 77.

(** A chat without an API key and one with a remote that answers every
    prompt with the same text; the random part of a session id is fixed. *)
Definition fixedSuffix (_ : Z) : string := "k3x9q2b7a"%string.

Definition greeting : Chat.ChatMessage :=
  {| Chat.id := "msg_0";
     Chat.message := "Hey there!";
     Chat.sender := Chat.bot;
     Chat.timestamp := 0;
     Chat.type := Some Chat.text |}%string.

Definition sampleSession : Chat.ChatSession :=
  {| Chat.sid := "s1";
     Chat.messages := [greeting];
     Chat.context := "";
     Chat.createdAt := 0;
     Chat.lastActivity := 0 |}%string.

Definition sampleStore : Chat.Store Z :=
  Chat.Build_Store (<["s1"%string := sampleSession]> ∅)
    (Retry.Build_Runtime 5000 []).

(** A network for examples.  The geocoder knows Pune; the first Overpass
    endpoint is down, the others list a pharmacy and a clinic mapped as a way
    whose centre is missing. *)
Definition sampleGeocoder (searchStr : string)
    : Places.Fetched (list (string * string)) :=
  if String.eqb searchStr "Pune, India"
  then Places.Answered true (Places.Parsed [("18.52", "73.85")%string])
  else Places.Answered true (Places.Parsed []).

Definition samplePharmacy : Places.Element :=
  {| Places.lat := Some (1852 # 100)%Q;
     Places.lon := Some (7385 # 100)%Q;
     Places.center := None;
     Places.tags :=
       Some (<["amenity"%string := "pharmacy"%string]>
               (<["name"%string := "Apollo Pharmacy"%string]> ∅)) |}.

Definition sampleClinic : Places.Element :=
  {| Places.lat := None;
     Places.lon := None;
     Places.center := None;
     Places.tags := Some (<["amenity"%string := "clinic"%string]> ∅) |}.

Definition sampleOverpass (endpoint : string)
    (_ : Places.Number * Places.Number)
    : Places.Fetched (option Places.OverpassData) :=
  if String.eqb endpoint "https://overpass-api.de/api/interpreter"
  then Places.NetworkError
  else Places.Answered true
         (Places.Parsed
            (Some {| Places.elements :=
                       Some [samplePharmacy; sampleClinic] |})).

Definition sampleParseFloat (s : string) : Places.Number :=
  if String.eqb s "18.52" then Some (1852 # 100)%Q
  else if String.eqb s "73.85" then Some (7385 # 100)%Q
       else None.

Definition halfRandom (_ : nat) : float := 0.5%float.


(** An answer read from a package that expired in 2020, with the
    recommendation to keep it. *)
Definition expiredKeep : AiService.OcrResult :=
  {| AiService.expiryDate := Some "2020-01-01"%string;
     AiService.isExpired := Some false;
     AiService.recommendation := Some "keep"%string;
     AiService.reasoning := None |}.

(** An answer read from a package that expires in 2030, with the
    recommendation to keep it. *)
Definition freshKeep : AiService.OcrResult :=
  {| AiService.expiryDate := Some "2030-01-01"%string;
     AiService.isExpired := None;
     AiService.recommendation := Some "keep"%string;
     AiService.reasoning := None |}.

(** A service that has cached an answer for aspirin. *)
Definition aspirinCached : AiService.Service Z :=
  AiService.Build_Service
    (<["aspirin"%string :=
         {| AiService.data := JArr []; AiService.timestamp := 0 |}]> ∅)
    (Retry.Build_Runtime 1000 []).

(** One session, started at time 0. *)
Definition chatId : string := "chat_0_k3x9q2b7a"%string.

Definition startedState : ChatRun.State :=
  ChatRun.run [ChatRun.StartChat 0 "k3x9q2b7a"] ChatRun.initial.

(** * Properties of the classifiers *)

Section ClassifierFacts.

Variable Date_parse : string -> option Z.
Variable LocalTZA : Z.
Variable fetchNearbyPlaces :
  option string -> list Server.Center * option (Q * Q).

Local Abbreviation clientRec := (Client.getRecommendation Date_parse).
Local Abbreviation serverRec :=
  (Server.getDonateDisposeRecommendation Date_parse LocalTZA fetchNearbyPlaces).

(** A date-only expiry on an earlier calendar day lies before local midnight
    of today in every zone within a day of UTC. *)
Lemma earlier_day_before_midnight (tza d now : Z) :
  tza < JsDate.msPerDay ->
  d < JsDate.localDay tza now ->
  d * JsDate.msPerDay < JsDate.setHours0 tza now.
Proof.
  unfold JsDate.setHours0, JsDate.localDay, JsDate.msPerDay. intros Hz Hd.
  nia.
Qed.

(** Local midnight of today is not after now. *)
Lemma midnight_le_now (tza now : Z) : JsDate.setHours0 tza now <= now.
Proof.
  unfold JsDate.setHours0, JsDate.msPerDay.
  pose proof (Z.mul_div_le (now + tza) 86400000 ltac:(lia)). lia.
Qed.

Lemma truthy_Some_nonempty (s : string) :
  truthy (Some s) = true <-> s <> EmptyString.
Proof. destruct s; simpl; split; congruence. Qed.

(** The response of the server for a present [medicineInfo] is a 200. *)
Lemma server_responds (body : Server.Body) (info : Server.MedicineInfo)
    (now sentAt : Z) :
  Server.medicineInfo body = Some info ->
  exists data, serverRec body now sentAt = Server.Json200 data
               /\ Server.echo data = info /\ Server.timestamp data = sentAt.
Proof.
  intros Hi. unfold Server.getDonateDisposeRecommendation. rewrite Hi.
  destruct (Server.expiryNotAvailable info); [eexists; split; [reflexivity | split; reflexivity] |].
  destruct (Server.checkExpiry _ _ _ _); [eexists; split; [reflexivity | split; reflexivity] |].
  destruct (Server.strictEq (Server.medicineType info) "controlled");
    [eexists; split; [reflexivity | split; reflexivity] |].
  destruct (Server.strictEq (Server.medicineType info) "not-sure");
    [eexists; split; [reflexivity | split; reflexivity] |].
  destruct (Server.strictEq (Server.condition info) "unopened"); simpl;
    [| eexists; split; [reflexivity | split; reflexivity] ].
  destruct (fetchNearbyPlaces (Server.location body)) as [centers geocoded].
  eexists; split; [reflexivity | split; reflexivity].
Qed.

(** Past its guard, the page's classifier returns the kind and the reasoning
    of the matched rule. *)
Lemma client_follows_table (info : Client.MedicineInfo)
    (expiryNotAvailable : bool) (now : Z) (r : Client.Recommendation) :
  clientRec info expiryNotAvailable now = Some r ->
  let rule := DecisionTable.ofClient Date_parse info expiryNotAvailable now in
  Client.recommendation r = DecisionTable.kindOf rule
  /\ Client.reasoning r = DecisionTable.reasoningOf rule.
Proof.
  unfold Client.getRecommendation, DecisionTable.ofClient,
    DecisionTable.matched.
  destruct (negb (truthy (Client.name info))
            || negb (truthy (Client.expiryDate info)) && negb expiryNotAvailable);
    [discriminate |].
  destruct expiryNotAvailable; simpl negb; cbv iota.
  { intros [= <-]. split; reflexivity. }
  destruct (JsDate.lt _ now); [intros [= <-]; split; reflexivity |].
  destruct (Client.strictEq _ _ Client.controlled);
    [intros [= <-]; split; reflexivity |].
  destruct (Client.strictEq _ _ Client.not_sure);
    [intros [= <-]; split; reflexivity |].
  destruct (Client.strictEq _ _ Client.unopened);
    intros [= <-]; split; reflexivity.
Qed.

(** The server's classifier returns the label and the reasoning of the
    matched rule. *)
Lemma server_follows_table (body : Server.Body) (info : Server.MedicineInfo)
    (now sentAt : Z) (data : Server.Data) :
  Server.medicineInfo body = Some info ->
  serverRec body now sentAt = Server.Json200 data ->
  let rule := DecisionTable.ofServer Date_parse LocalTZA info now in
  Server.recommendation data = DecisionTable.label (DecisionTable.kindOf rule)
  /\ Server.reasoning data = DecisionTable.reasoningOf rule.
Proof.
  intros Hi. unfold Server.getDonateDisposeRecommendation,
    DecisionTable.ofServer, DecisionTable.matched. rewrite Hi.
  destruct (Server.expiryNotAvailable info); simpl negb; cbv iota.
  { intros [= <-]. split; reflexivity. }
  destruct (Server.checkExpiry _ _ _ _); [intros [= <-]; split; reflexivity |].
  destruct (Server.strictEq (Server.medicineType info) "controlled");
    [intros [= <-]; split; reflexivity |].
  destruct (Server.strictEq (Server.medicineType info) "not-sure");
    [intros [= <-]; split; reflexivity |].
  destruct (Server.strictEq (Server.condition info) "unopened"); simpl negb;
    cbv iota; [| intros [= <-]; split; reflexivity].
  destruct (fetchNearbyPlaces (Server.location body)) as [centers geocoded].
  intros [= <-]. split; reflexivity.
Qed.

(** The page's classifier answers exactly when the form has a name and
    either an expiry date or the not-available mark. *)
Lemma client_answers (info : Client.MedicineInfo) (expiryNotAvailable : bool)
    (now : Z) :
  truthy (Client.name info) = true ->
  truthy (Client.expiryDate info) = true \/ expiryNotAvailable = true ->
  exists r, clientRec info expiryNotAvailable now = Some r.
Proof.
  intros Hn He. unfold Client.getRecommendation. rewrite Hn.
  replace (negb true
           || negb (truthy (Client.expiryDate info)) && negb expiryNotAvailable)
    with false
    by (destruct He as [-> | ->]; simpl; rewrite ?andb_false_r; reflexivity).
  repeat match goal with
         | |- context [if ?b then _ else _] => destruct b
         end; eexists; reflexivity.
Qed.

Lemma parsed_is_nonempty (s : string) (t : Z) :
  Date_parse EmptyString = None -> Date_parse s = Some t ->
  truthy (Some s) = true.
Proof. intros He Hs. destruct s; [congruence | reflexivity]. Qed.

(** C1: a known expiry date strictly before the current date gives
    [dispose] in both classifiers, whatever the medicine type and the
    condition are, and the answer is the one of the expiry rule: that rule
    is tested before the controlled, unknown-type and condition rules.  The
    expiry date is a date-only string, read as midnight UTC of day [d]; the
    current date is the local calendar day of [now], in a zone less than a
    day ahead of UTC.  The page classifies a form that has a medicine name,
    the server a request that has a [medicineInfo]. *)
Theorem expired_is_disposed (s : string) (d now : Z) :
  Date_parse EmptyString = None ->
  LocalTZA < JsDate.msPerDay ->
  Date_parse s = Some (d * JsDate.msPerDay) ->
  d < JsDate.localDay LocalTZA now ->
  (forall info : Client.MedicineInfo,
      truthy (Client.name info) = true ->
      Client.expiryDate info = Some s ->
      exists r,
        clientRec info false now = Some r
        /\ Client.recommendation r = Client.dispose
        /\ Client.reasoning r
           = DecisionTable.reasoningOf DecisionTable.Expired)
  /\ (forall (body : Server.Body) (info : Server.MedicineInfo) (sentAt : Z),
        Server.medicineInfo body = Some info ->
        Server.expiryNotAvailable info = false ->
        Server.expiryDate info = Some s ->
        exists data,
          serverRec body now sentAt = Server.Json200 data
          /\ Server.recommendation data = "Dispose"%string
          /\ Server.reasoning data
             = DecisionTable.reasoningOf DecisionTable.Expired).
Proof.
  intros Hempty Hz Hs Hd.
  pose proof (earlier_day_before_midnight _ _ _ Hz Hd) as Hlt.
  pose proof (midnight_le_now LocalTZA now) as Hle.
  pose proof (parsed_is_nonempty _ _ Hempty Hs) as Hne.
  split.
  - intros info Hn He.
    destruct (client_answers info false now Hn) as [r Hr].
    { left. rewrite He. exact Hne. }
    exists r. split; [exact Hr |].
    destruct (client_follows_table _ _ _ _ Hr) as [Hk Ht].
    assert (Hrule : DecisionTable.ofClient Date_parse info false now
                    = DecisionTable.Expired).
    { unfold DecisionTable.ofClient, DecisionTable.matched, Client.newDate.
      rewrite He, Hs. simpl JsDate.lt.
      replace (d * JsDate.msPerDay <? now) with true
        by (symmetry; apply Z.ltb_lt; lia).
      reflexivity. }
    rewrite Hrule in Hk, Ht. split; assumption.
  - intros body info sentAt Hi Hna He.
    destruct (server_responds body info now sentAt Hi) as [data [Hdata _]].
    exists data. split; [exact Hdata |].
    destruct (server_follows_table _ _ _ _ _ Hi Hdata) as [Hk Ht].
    assert (Hrule : DecisionTable.ofServer Date_parse LocalTZA info now
                    = DecisionTable.Expired).
    { unfold DecisionTable.ofServer, DecisionTable.matched, Server.checkExpiry.
      rewrite Hna, He, Hne, Hs. simpl JsDate.lt.
      replace (d * JsDate.msPerDay <? JsDate.setHours0 LocalTZA now) with true
        by (symmetry; apply Z.ltb_lt; lia).
      reflexivity. }
    rewrite Hrule in Hk, Ht. split; assumption.
Qed.

(** C2: when the expiry date is marked not available both classifiers
    return [consult], with the text of the unknown-expiry rule, whatever the
    expiry date, the condition and the medicine type are.  The page
    classifies a form that has a medicine name, the server a request that
    has a [medicineInfo]. *)
Theorem unknown_expiry_is_consult (now : Z) :
  (forall info : Client.MedicineInfo,
      truthy (Client.name info) = true ->
      exists r,
        clientRec info true now = Some r
        /\ Client.recommendation r = Client.consult
        /\ Client.reasoning r
           = DecisionTable.reasoningOf DecisionTable.ExpiryUnknown)
  /\ (forall (body : Server.Body) (info : Server.MedicineInfo) (sentAt : Z),
        Server.medicineInfo body = Some info ->
        Server.expiryNotAvailable info = true ->
        exists data,
          serverRec body now sentAt = Server.Json200 data
          /\ Server.recommendation data = "Consult"%string
          /\ Server.reasoning data
             = DecisionTable.reasoningOf DecisionTable.ExpiryUnknown).
Proof.
  split.
  - intros info Hn.
    destruct (client_answers info true now Hn) as [r Hr]; [now right |].
    exists r. split; [exact Hr |].
    exact (client_follows_table _ _ _ _ Hr).
  - intros body info sentAt Hi Hna.
    destruct (server_responds body info now sentAt Hi) as [data [Hdata _]].
    exists data. split; [exact Hdata |].
    destruct (server_follows_table _ _ _ _ _ Hi Hdata) as [Hk Ht].
    unfold DecisionTable.ofServer in Hk, Ht. rewrite Hna in Hk, Ht.
    split; assumption.
Qed.

(** C9: no input makes either classifier answer [keep]: the page's
    classifier, when it answers, answers [consult], [dispose] or [donate],
    and the server's label is [Consult], [Dispose] or [Donate]. *)
Theorem never_keep (info : Client.MedicineInfo) (expiryNotAvailable : bool)
    (body : Server.Body) (now sentAt : Z) :
  match clientRec info expiryNotAvailable now with
  | Some r =>
      Client.recommendation r <> Client.keep
      /\ (Client.recommendation r = Client.consult
          \/ Client.recommendation r = Client.dispose
          \/ Client.recommendation r = Client.donate)
  | None => True
  end
  /\ match serverRec body now sentAt with
     | Server.Json200 data =>
         Server.recommendation data <> "Keep"%string
         /\ Server.recommendation data <> "keep"%string
         /\ (Server.recommendation data = "Consult"%string
             \/ Server.recommendation data = "Dispose"%string
             \/ Server.recommendation data = "Donate"%string)
     | Server.Status400 _ _ => True
     end.
Proof.
  split.
  - destruct (clientRec info expiryNotAvailable now) as [r |] eqn:Hr;
      [| exact I].
    destruct (client_follows_table _ _ _ _ Hr) as [Hk _]. rewrite Hk.
    destruct (DecisionTable.ofClient _ _ _ _); simpl;
      (split; [discriminate | auto]).
  - destruct (serverRec body now sentAt) as [| data] eqn:Hdata; [exact I |].
    destruct (Server.medicineInfo body) as [info' |] eqn:Hi.
    + destruct (server_follows_table _ _ _ _ _ Hi Hdata) as [Hk _].
      rewrite Hk.
      destruct (DecisionTable.ofServer _ _ _ _); simpl;
        (split; [discriminate | split; [discriminate | auto]]).
    + unfold Server.getDonateDisposeRecommendation in Hdata.
      rewrite Hi in Hdata. discriminate.
Qed.

End ClassifierFacts.

Lemma expired_is_disposed_witness :
  JsDate.parseISODate "2024-06-14" = Some (19888 * JsDate.msPerDay)
  /\ 19888 < JsDate.localDay 0 noonJune15
  /\ (exists r,
        Client.getRecommendation JsDate.parseISODate
          (sampleClientInfo "2024-06-14" Client.opened Client.controlled)
          false noonJune15 = Some r
        /\ Client.recommendation r = Client.dispose)
  /\ (exists data,
        Server.getDonateDisposeRecommendation JsDate.parseISODate 0 noPlaces
          (sampleServerBody "2024-06-14" "opened" "controlled" false)
          noonJune15 noonJune15 = Server.Json200 data
        /\ Server.recommendation data = "Dispose"%string).
Proof.
  destruct (expired_is_disposed JsDate.parseISODate 0 noPlaces
              "2024-06-14" 19888 noonJune15
              eq_refl eq_refl eq_refl eq_refl) as [Hc Hs].
  split; [reflexivity | split; [reflexivity | split]].
  - destruct (Hc (sampleClientInfo "2024-06-14" Client.opened
                    Client.controlled) eq_refl eq_refl) as [r [Hr [Hk _]]].
    exists r. split; assumption.
  - destruct (Hs (sampleServerBody "2024-06-14" "opened" "controlled" false)
                _ noonJune15 eq_refl eq_refl eq_refl) as [data [Hd [Hk _]]].
    exists data. split; assumption.
Defined.

Lemma unknown_expiry_is_consult_witness :
  (exists r,
     Client.getRecommendation JsDate.parseISODate
       (sampleClientInfo "" Client.unopened Client.otc) true noonJune15
     = Some r
     /\ Client.recommendation r = Client.consult)
  /\ (exists data,
        Server.getDonateDisposeRecommendation JsDate.parseISODate 0 noPlaces
          (sampleServerBody "2030-01-01" "unopened" "otc" true)
          noonJune15 noonJune15 = Server.Json200 data
        /\ Server.recommendation data = "Consult"%string).
Proof.
  destruct (unknown_expiry_is_consult JsDate.parseISODate 0 noPlaces
              noonJune15) as [Hc Hs].
  split.
  - destruct (Hc (sampleClientInfo "" Client.unopened Client.otc) eq_refl)
      as [r [Hr [Hk _]]].
    exists r. split; assumption.
  - destruct (Hs (sampleServerBody "2030-01-01" "unopened" "otc" true)
                _ noonJune15 eq_refl eq_refl) as [data [Hd [Hk _]]].
    exists data. split; assumption.
Defined.

(** The server's check does what the claim about same-day expiry says in a
    zone at or east of UTC: a date-only expiry on today's local day is not
    expired there. *)
Lemma server_same_day_not_expired (Date_parse : string -> option Z)
    (tza : Z) (s : string) (d now : Z) :
  0 <= tza ->
  Date_parse s = Some (d * JsDate.msPerDay) ->
  d = JsDate.localDay tza now ->
  Server.checkExpiry Date_parse tza (Some s) now = false.
Proof.
  intros Hz Hs Hd. unfold Server.checkExpiry.
  destruct (truthy (Some s)); [| reflexivity].
  rewrite Hs. simpl. apply Z.ltb_ge.
  unfold JsDate.setHours0, JsDate.localDay in *. subst d. lia.
Qed.

(** C4: a medicine expiring today, 2024-06-15, classified at noon UTC of
    that day.  The page's classifier compares with the current instant and
    calls it expired ([dispose]); so does the OCR check; the server, which
    resets today to local midnight, does not in UTC ([Donate]) but does five
    hours west of UTC, where local midnight is after midnight UTC. *)
Theorem same_day_expiry_paths :
  JsDate.parseISODate "2024-06-15" = Some (19889 * JsDate.msPerDay)
  /\ JsDate.localDay 0 noonJune15 = 19889
  /\ JsDate.localDay utcMinus5 noonJune15 = 19889
  /\ option_map Client.recommendation
       (Client.getRecommendation JsDate.parseISODate
          (sampleClientInfo "2024-06-15" Client.unopened Client.otc)
          false noonJune15) = Some Client.dispose
  /\ AiService.isExpired
       (AiService.validateExpiry JsDate.parseISODate
          {| AiService.expiryDate := Some "2024-06-15"%string;
             AiService.isExpired := Some false;
             AiService.recommendation := Some "keep"%string;
             AiService.reasoning := None |} noonJune15) = Some true
  /\ (exists data,
        Server.getDonateDisposeRecommendation JsDate.parseISODate 0 noPlaces
          (sampleServerBody "2024-06-15" "unopened" "otc" false)
          noonJune15 noonJune15 = Server.Json200 data
        /\ Server.recommendation data = "Donate"%string)
  /\ (exists data,
        Server.getDonateDisposeRecommendation JsDate.parseISODate utcMinus5
          noPlaces (sampleServerBody "2024-06-15" "unopened" "otc" false)
          noonJune15 noonJune15 = Server.Json200 data
        /\ Server.recommendation data = "Dispose"%string).
Proof.
  repeat split; try reflexivity; eexists; split; reflexivity.
Qed.














(** The three sample verdicts of the specification, for an expiry date after
    today. *)
Example unopened_otc_is_donated :
  option_map Client.recommendation
    (Client.getRecommendation JsDate.parseISODate
       (sampleClientInfo "2024-06-16" Client.unopened Client.otc)
       false noonJune15) = Some Client.donate.
Proof. reflexivity. Qed.

Example opened_otc_is_disposed :
  option_map Client.recommendation
    (Client.getRecommendation JsDate.parseISODate
       (sampleClientInfo "2024-06-16" Client.opened Client.otc)
       false noonJune15) = Some Client.dispose.
Proof. reflexivity. Qed.

Example unopened_controlled_is_disposed :
  option_map Client.recommendation
    (Client.getRecommendation JsDate.parseISODate
       (sampleClientInfo "2024-06-16" Client.unopened Client.controlled)
       false noonJune15) = Some Client.dispose.
Proof. reflexivity. Qed.

(** * Properties of [callWithRetry] *)

Lemma append_cons (c : ascii) (s1 s2 : string) :
  String.append (String c s1) s2 = String c (String.append s1 s2).
Proof. reflexivity. Qed.

Lemma append_nil (s : string) : String.append EmptyString s = s.
Proof. reflexivity. Qed.

Lemma prefix_append (needle hay : string) :
  String.prefix needle hay = true
  <-> exists post, hay = String.append needle post.
Proof.
  revert hay. induction needle as [| c n IH]; intros hay.
  - split; [intros _; exists hay; reflexivity |].
    intros _. destruct hay; reflexivity.
  - destruct hay as [| c' h]; simpl.
    + split; [discriminate | intros [post H]; discriminate].
    + destruct (ascii_dec c c') as [-> | Hne].
      * rewrite IH. split; intros [post H]; exists post;
          rewrite append_cons in *; congruence.
      * split; [discriminate |]. intros [post H].
        rewrite append_cons in H. congruence.
Qed.

Lemma includes_eq (hay needle : string) :
  Retry.includes hay needle
  = if String.prefix needle hay then true
    else match hay with
         | EmptyString => false
         | String _ hay' => Retry.includes hay' needle
         end.
Proof. destruct hay; reflexivity. Qed.

(** [includes] is the substring test. *)
Lemma includes_substring (hay needle : string) :
  Retry.includes hay needle = true
  <-> exists pre post,
        hay = String.append pre (String.append needle post).
Proof.
  induction hay as [| c h IH]; rewrite includes_eq.
  - destruct (String.prefix needle EmptyString) eqn:E.
    + split; [intros _ | reflexivity].
      apply prefix_append in E as [post E]. exists EmptyString, post. exact E.
    + split; [discriminate |]. intros (pre & post & H).
      destruct pre; [rewrite append_nil in H | rewrite append_cons in H].
      * assert (String.prefix needle EmptyString = true)
          by (apply prefix_append; eauto). congruence.
      * discriminate.
  - destruct (String.prefix needle (String c h)) eqn:E.
    + split; [intros _ | reflexivity].
      apply prefix_append in E as [post E]. exists EmptyString, post. exact E.
    + rewrite IH. split.
      * intros (pre & post & ->). exists (String c pre), post. reflexivity.
      * intros (pre & post & H).
        destruct pre as [| c' pre];
          [rewrite append_nil in H | rewrite append_cons in H].
        -- assert (String.prefix needle (String c h) = true)
             by (apply prefix_append; eauto). congruence.
        -- injection H as _ ->. eauto.
Qed.

(** The test of the wrapper is the test for a rate-limit marker. *)
Lemma isRateLimit_marker (error : Retry.Thrown) :
  Retry.isRateLimit error = true <-> Retry.rateLimitMarker error.
Proof.
  unfold Retry.rateLimitMarker. destruct error as [| e]; simpl.
  - split; [discriminate | intros (e & H & _); discriminate].
  - rewrite !orb_true_iff. split.
    + intros H. exists e. split; [reflexivity |].
      destruct H as [[[H | H] | H] | H].
      * left. destruct (Retry.status e); [| discriminate].
        apply Z.eqb_eq in H. congruence.
      * right; left. destruct (Retry.message e) as [m |]; [| discriminate].
        apply includes_substring in H as (pre & post & H). eauto 6.
      * right; right; left.
        destruct (Retry.message e) as [m |]; [| discriminate].
        apply includes_substring in H as (pre & post & H). eauto 6.
      * right; right; right.
        destruct (Retry.errorDetails e) as [ds |]; [| discriminate].
        apply existsb_exists in H as (d & Hin & Hd).
        exists ds, d. repeat split; try assumption.
        unfold Retry.reasonIs in Hd. destruct (Retry.reason d); [| discriminate].
        apply String.eqb_eq in Hd. congruence.
    + intros (e' & [= <-] & H).
      destruct H as [H | [H | [H | H]]].
      * left; left; left. rewrite H. reflexivity.
      * left; left; right. destruct H as (m & pre & post & -> & H).
        apply includes_substring. eauto.
      * left; right. destruct H as (m & pre & post & -> & H).
        apply includes_substring. eauto.
      * right. destruct H as (ds & d & -> & Hin & Hd).
        apply existsb_exists. exists d. split; [assumption |].
        unfold Retry.reasonIs. rewrite Hd. apply String.eqb_refl.
Qed.

Section RetryFacts.

Variable World : Type.
Variable setTimeout : Z -> World -> World.
Variable T : Type.

Local Abbreviation Op := (World -> Retry.Outcome T * World).

Lemma sleeps_app (a b : list Retry.Event) :
  Retry.sleeps (a ++ b) = Retry.sleeps a ++ Retry.sleeps b.
Proof.
  induction a as [| [| ms] a IH]; simpl; [reflexivity | exact IH |].
  now rewrite IH.
Qed.

Lemma attempts_app (a b : list Retry.Event) :
  Retry.attempts (a ++ b) = (Retry.attempts a + Retry.attempts b)%nat.
Proof.
  induction a as [| [| ms] a IH]; simpl; [reflexivity | | exact IH].
  now rewrite IH.
Qed.

(** A run of [k] rate-limited failures sleeps the [k] backoff delays and
    calls the operation [k] times. *)
Lemma rateLimited_trace (fn : Op) (k : nat) (delay : Z) (w w' : World)
    (tr : list Retry.Event) :
  Retry.rateLimited setTimeout fn k delay w w' tr ->
  Retry.sleeps tr = Retry.backoff k delay /\ Retry.attempts tr = k.
Proof.
  induction 1 as [| k delay w w1 w' e tr Hfn He Hrun [IHs IHa]]; simpl.
  - split; reflexivity.
  - rewrite IHs, IHa. split; reflexivity.
Qed.

(** The loop follows a run of rate-limited failures as long as attempts
    remain after each of them. *)
Lemma retryLoop_follows (fn : Op) (k : nat) (delay : Z) (w w' : World)
    (tr : list Retry.Event) :
  Retry.rateLimited setTimeout fn k delay w w' tr ->
  forall (m : nat) (i retries : Z) (last : Retry.Thrown)
         (tr0 : list Retry.Event),
    i + Z.of_nat k <= retries - 1 ->
    exists last' delay',
      Retry.retryLoop setTimeout fn (k + m) i retries delay last
        (Retry.Build_Runtime w tr0)
      = Retry.retryLoop setTimeout fn m (i + Z.of_nat k) retries delay' last'
          (Retry.Build_Runtime w' (tr0 ++ tr)).
Proof.
  induction 1 as [| k delay w w1 w' e tr Hfn He Hrun IH];
    intros m i retries last tr0 Hi.
  - exists last, delay. rewrite app_nil_r, Z.add_0_r. reflexivity.
  - simpl Nat.add. cbn [Retry.retryLoop Retry.world Retry.trace].
    replace (i <? retries) with true by (symmetry; apply Z.ltb_lt; lia).
    rewrite Hfn, He.
    replace (i <? retries - 1) with true by (symmetry; apply Z.ltb_lt; lia).
    cbn [andb].
    destruct (IH m (i + 1) retries e ((tr0 ++ [Retry.Attempt])
                                        ++ [Retry.Sleep delay]))
      as (last' & delay' & Heq); [lia |].
    exists last', delay'. rewrite Heq.
    replace (i + 1 + Z.of_nat k) with (i + Z.of_nat (S k)) by lia.
    rewrite <- !app_assoc. reflexivity.
Qed.

(** After [k] rate-limited failures, the outcome of the next attempt is the
    outcome of the call when it is a success, a failure without a rate-limit
    marker, or the failure of the last attempt allowed. *)
Lemma callWithRetry_settles (fn : Op) (retries delay : Z)
    (rt : Retry.Runtime World) (k : nat) (w w2 : World)
    (tr : list Retry.Event) (o : Retry.Outcome T) :
  Retry.rateLimited setTimeout fn k delay (Retry.world rt) w tr ->
  Z.of_nat k < retries ->
  fn w = (o, w2) ->
  match o with
  | Retry.Resolved _ => True
  | Retry.Rejected e =>
      Retry.isRateLimit e = false \/ Z.of_nat k = retries - 1
  end ->
  Retry.callWithRetry setTimeout fn retries delay rt
  = (o, Retry.Build_Runtime w2 (Retry.trace rt ++ tr ++ [Retry.Attempt])).
Proof.
  intros Hrun Hk Hfn Ho. unfold Retry.callWithRetry.
  destruct rt as [w0 tr0]. cbn [Retry.world Retry.trace] in *.
  replace (Z.to_nat retries) with (k + S (Z.to_nat retries - k - 1))%nat
    by lia.
  destruct (retryLoop_follows fn k delay w0 w tr Hrun
              (S (Z.to_nat retries - k - 1)) 0 retries Retry.Undefined tr0)
    as (last' & delay' & Heq); [lia |].
  rewrite Heq. cbn [Retry.retryLoop Retry.world Retry.trace].
  replace (0 + Z.of_nat k <? retries) with true
    by (symmetry; apply Z.ltb_lt; lia).
  rewrite Hfn. rewrite <- app_assoc. destruct o as [v | e]; [reflexivity |].
  destruct Ho as [Ho | Ho].
  - rewrite Ho. reflexivity.
  - replace (0 + Z.of_nat k <? retries - 1) with false
      by (symmetry; apply Z.ltb_ge; lia).
    rewrite andb_false_r. reflexivity.
Qed.

(** Every call with at least one attempt allowed ends with an attempt whose
    outcome is the outcome of the call. *)
Lemma retryLoop_ends (fn : Op) (retries : Z) (n : nat) :
  forall (i delay : Z) (last : Retry.Thrown) (rt : Retry.Runtime World),
    0 <= i < retries ->
    n = Z.to_nat (retries - i) ->
    let res := Retry.retryLoop setTimeout fn n i retries delay last rt in
    exists (k : nat) (w : World) (tr : list Retry.Event),
      Retry.rateLimited setTimeout fn k delay (Retry.world rt) w tr
      /\ i + Z.of_nat k < retries
      /\ fn w = (fst res, Retry.world (snd res))
      /\ Retry.trace (snd res) = Retry.trace rt ++ tr ++ [Retry.Attempt]
      /\ (forall e, fst res = Retry.Rejected e ->
            Retry.isRateLimit e = false \/ i + Z.of_nat k = retries - 1).
Proof.
  induction n as [| n IH]; intros i delay last rt Hi Hn; [lia |].
  cbn [Retry.retryLoop].
  replace (i <? retries) with true by (symmetry; apply Z.ltb_lt; lia).
  destruct (fn (Retry.world rt)) as [o w1] eqn:Hfn.
  destruct o as [v | e].
  - exists O, (Retry.world rt), []. cbn.
    repeat split; [constructor | lia | exact Hfn | discriminate].
  - destruct (Retry.isRateLimit e && (i <? retries - 1)) eqn:Hretry.
    + apply andb_true_iff in Hretry as [He Hlt]. apply Z.ltb_lt in Hlt.
      specialize (IH (i + 1) (delay * 2) e
                    (Retry.Build_Runtime (setTimeout delay w1)
                       ((Retry.trace rt ++ [Retry.Attempt])
                          ++ [Retry.Sleep delay]))
                    ltac:(lia) ltac:(lia)).
      cbn zeta in IH. cbn [Retry.world Retry.trace] in *.
      destruct IH as (k & w & tr & Hrun & Hk & Hlast & Htr & Herr).
      exists (S k), w, (Retry.Attempt :: Retry.Sleep delay :: tr).
      repeat split.
      * econstructor; eassumption.
      * lia.
      * exact Hlast.
      * rewrite Htr, <- !app_assoc. reflexivity.
      * intros e' He'. destruct (Herr e' He'); [now left | right; lia].
    + exists O, (Retry.world rt), []. cbn.
      repeat split; [constructor | lia | exact Hfn |].
      intros e' [= <-]. apply andb_false_iff in Hretry as [He | Hlt];
        [now left | right]. apply Z.ltb_ge in Hlt. lia.
Qed.

(** C5: with three attempts allowed, an operation that fails twice with a
    rate-limit marker and then succeeds makes the call return the value of
    the third attempt; the waits before the retries are the initial delay and
    twice the initial delay, three times the initial delay in all. *)
Theorem retry_twice_then_success (fn : Op) (initialDelay : Z)
    (rt : Retry.Runtime World) (e1 e2 : Retry.Thrown) (w1 w2 w3 : World)
    (v : T) :
  Retry.rateLimitMarker e1 ->
  Retry.rateLimitMarker e2 ->
  fn (Retry.world rt) = (Retry.Rejected e1, w1) ->
  fn (setTimeout initialDelay w1) = (Retry.Rejected e2, w2) ->
  fn (setTimeout (initialDelay * 2) w2) = (Retry.Resolved v, w3) ->
  exists events,
    Retry.callWithRetry setTimeout fn 3 initialDelay rt
    = (Retry.Resolved v, Retry.Build_Runtime w3 (Retry.trace rt ++ events))
    /\ Retry.attempts events = 3%nat
    /\ Retry.sleeps events = [initialDelay; 2 * initialDelay]
    /\ Retry.total (Retry.sleeps events) = 3 * initialDelay.
Proof.
  intros M1 M2 H1 H2 H3.
  apply isRateLimit_marker in M1, M2.
  exists [Retry.Attempt; Retry.Sleep initialDelay;
          Retry.Attempt; Retry.Sleep (initialDelay * 2); Retry.Attempt].
  split; [| split; [reflexivity | split]].
  - apply (callWithRetry_settles fn 3 initialDelay rt 2
             (setTimeout (initialDelay * 2) w2) w3
             [Retry.Attempt; Retry.Sleep initialDelay;
              Retry.Attempt; Retry.Sleep (initialDelay * 2)]);
      [| lia | exact H3 | exact I].
    econstructor; [exact H1 | exact M1 |].
    econstructor; [exact H2 | exact M2 |]. constructor.
  - simpl. f_equal. f_equal. lia.
  - unfold Retry.total. simpl. lia.
Qed.

(** C6: the call rejects with the error of the operation, at once and
    without a further wait, when the operation fails without a rate-limit
    marker on any attempt, or with one on the last attempt allowed; before
    that it has waited once per earlier rate-limited failure.  With at least
    one attempt allowed, the outcome of the call is always the outcome of its
    last attempt: no error is swallowed and no value is substituted. *)
Theorem callWithRetry_propagates (fn : Op) (retries delay : Z)
    (rt : Retry.Runtime World) :
  (forall (k : nat) (w w2 : World) (tr : list Retry.Event) (e : Retry.Thrown),
      Retry.rateLimited setTimeout fn k delay (Retry.world rt) w tr ->
      Z.of_nat k < retries ->
      fn w = (Retry.Rejected e, w2) ->
      Retry.isRateLimit e = false \/ Z.of_nat k = retries - 1 ->
      Retry.callWithRetry setTimeout fn retries delay rt
      = (Retry.Rejected e,
         Retry.Build_Runtime w2 (Retry.trace rt ++ tr ++ [Retry.Attempt]))
      /\ Retry.sleeps (tr ++ [Retry.Attempt]) = Retry.backoff k delay
      /\ Retry.attempts (tr ++ [Retry.Attempt]) = S k)
  /\ (1 <= retries ->
      let res := Retry.callWithRetry setTimeout fn retries delay rt in
      exists (k : nat) (w : World) (tr : list Retry.Event),
        Retry.rateLimited setTimeout fn k delay (Retry.world rt) w tr
        /\ Z.of_nat k < retries
        /\ fn w = (fst res, Retry.world (snd res))
        /\ Retry.trace (snd res) = Retry.trace rt ++ tr ++ [Retry.Attempt]
        /\ (forall e, fst res = Retry.Rejected e ->
              Retry.isRateLimit e = false \/ Z.of_nat k = retries - 1)).
Proof.
  split.
  - intros k w w2 tr e Hrun Hk Hfn He.
    split; [exact (callWithRetry_settles fn retries delay rt k w w2 tr
                     (Retry.Rejected e) Hrun Hk Hfn He) |].
    destruct (rateLimited_trace fn k delay _ _ tr Hrun) as [Hs Ha].
    rewrite sleeps_app, attempts_app, Hs, Ha. simpl.
    rewrite app_nil_r. split; [reflexivity | lia].
  - intros Hr res.
    destruct (retryLoop_ends fn retries (Z.to_nat retries) 0 delay
                Retry.Undefined rt ltac:(lia) ltac:(f_equal; lia))
      as (k & w & tr & Hrun & Hk & Hlast & Htr & Herr).
    exists k, w, tr. repeat split; try assumption; lia.
Qed.

End RetryFacts.

Lemma retry_twice_then_success_witness :
  Retry.rateLimitMarker error429
  /\ exists events,
       Retry.callWithRetry noWait
         (limitedThen 2 (Retry.Resolved "ok"%string)) 3 2000 freshRuntime
       = (Retry.Resolved "ok"%string, Retry.Build_Runtime 3%nat events)
       /\ Retry.sleeps events = [2000; 4000]
       /\ Retry.total (Retry.sleeps events) = 6000.
Proof.
  assert (M : Retry.rateLimitMarker error429).
  { eexists. split; [reflexivity | left; reflexivity]. }
  split; [exact M |].
  destruct (retry_twice_then_success nat noWait string
              (limitedThen 2 (Retry.Resolved "ok"%string)) 2000 freshRuntime
              error429 error429 1%nat 2%nat 3%nat "ok"%string
              M M eq_refl eq_refl eq_refl)
    as (events & Hcall & _ & Hs & Ht).
  exists events. repeat split; assumption.
Defined.

Lemma callWithRetry_propagates_witness :
  Retry.callWithRetry noWait
    (limitedThen 1 (@Retry.Rejected string error500)) 3 2000 freshRuntime
  = (Retry.Rejected error500,
     Retry.Build_Runtime 2%nat
       [Retry.Attempt; Retry.Sleep 2000; Retry.Attempt])
  /\ Retry.callWithRetry noWait
       (limitedThen 3 (@Retry.Rejected string error500)) 3 2000 freshRuntime
     = (Retry.Rejected error429,
        Retry.Build_Runtime 3%nat
          [Retry.Attempt; Retry.Sleep 2000; Retry.Attempt; Retry.Sleep 4000;
           Retry.Attempt]).
Proof.
  split.
  - destruct (callWithRetry_propagates nat noWait string
                (limitedThen 1 (Retry.Rejected error500)) 3 2000 freshRuntime)
      as [Hfail _].
    refine (proj1 (Hfail 1%nat 1%nat 2%nat
                     [Retry.Attempt; Retry.Sleep 2000] error500
                     _ eq_refl eq_refl (or_introl eq_refl))).
    econstructor; [reflexivity | reflexivity | constructor].
  - destruct (callWithRetry_propagates nat noWait string
                (limitedThen 3 (Retry.Rejected error500)) 3 2000 freshRuntime)
      as [Hfail _].
    refine (proj1 (Hfail 2%nat 2%nat 3%nat
                     [Retry.Attempt; Retry.Sleep 2000;
                      Retry.Attempt; Retry.Sleep 4000] error429
                     _ eq_refl eq_refl (or_intror eq_refl))).
    econstructor; [reflexivity | reflexivity |].
    econstructor; [reflexivity | reflexivity | constructor].
Defined.

(** * Properties of the medicine-details cache *)

Lemma whitespace_is_lower (c : ascii) :
  JsString.isWhiteSpace c = true -> JsString.lowerChar c = c.
Proof.
  destruct c as [[] [] [] [] [] [] [] []]; intros H; try reflexivity;
    discriminate H.
Qed.

Lemma toLowerCase_append (a b : string) :
  JsString.toLowerCase (String.append a b)
  = String.append (JsString.toLowerCase a) (JsString.toLowerCase b).
Proof.
  induction a as [| c a IH]; [reflexivity |].
  rewrite !append_cons. simpl. rewrite IH. reflexivity.
Qed.

Lemma toLowerCase_blank (s : string) :
  JsString.blank s = true -> JsString.toLowerCase s = s.
Proof.
  induction s as [| c s IH]; simpl; [reflexivity |].
  intros H. apply andb_true_iff in H as [Hc Hs].
  rewrite (whitespace_is_lower c Hc), (IH Hs). reflexivity.
Qed.

Lemma toLowerCase_sameLetters (a b : string) :
  JsString.sameLetters a b ->
  JsString.toLowerCase a = JsString.toLowerCase b.
Proof.
  induction 1 as [| c1 c2 s1 s2 Hc _ IH]; simpl; [reflexivity |].
  rewrite Hc, IH. reflexivity.
Qed.

Lemma trimStart_blank (l s : string) :
  JsString.blank l = true ->
  JsString.trimStart (String.append l s) = JsString.trimStart s.
Proof.
  induction l as [| c l IH]; [reflexivity |].
  simpl JsString.blank. intros H. apply andb_true_iff in H as [Hc Hl].
  rewrite append_cons. simpl. rewrite Hc. exact (IH Hl).
Qed.

Lemma trimEnd_blank (r : string) :
  JsString.blank r = true -> JsString.trimEnd r = EmptyString.
Proof.
  induction r as [| c r IH]; simpl; [reflexivity |].
  intros H. apply andb_true_iff in H as [Hc Hr].
  rewrite (IH Hr), Hc. reflexivity.
Qed.

Lemma trimEnd_append_blank (s r : string) :
  JsString.blank r = true ->
  JsString.trimEnd (String.append s r) = JsString.trimEnd s.
Proof.
  intros Hr. induction s as [| c s IH].
  - rewrite append_nil. simpl. exact (trimEnd_blank r Hr).
  - rewrite append_cons. simpl. rewrite IH. reflexivity.
Qed.

Lemma trimStart_all_blank (r : string) :
  JsString.blank r = true -> JsString.trimStart r = EmptyString.
Proof.
  induction r as [| c r IH]; simpl; [reflexivity |].
  intros H. apply andb_true_iff in H as [Hc Hr]. rewrite Hc. exact (IH Hr).
Qed.

Lemma trim_append_blank (s r : string) :
  JsString.blank r = true ->
  JsString.trim (String.append s r) = JsString.trim s.
Proof.
  intros Hr. unfold JsString.trim. induction s as [| c s IH].
  - rewrite append_nil, (trimStart_all_blank r Hr). reflexivity.
  - rewrite append_cons. simpl. destruct (JsString.isWhiteSpace c).
    + exact IH.
    + rewrite <- append_cons. apply trimEnd_append_blank. exact Hr.
Qed.

Lemma trim_surrounded (l s r : string) :
  JsString.blank l = true -> JsString.blank r = true ->
  JsString.trim (String.append l (String.append s r)) = JsString.trim s.
Proof.
  intros Hl Hr. unfold JsString.trim at 1.
  rewrite (trimStart_blank l _ Hl). exact (trim_append_blank s r Hr).
Qed.

(** Keys that differ only in case and surrounding white space have the same
    normalized key. *)
Lemma sameKey_normalized (a b : string) :
  JsString.sameKey a b ->
  JsString.trim (JsString.toLowerCase a)
  = JsString.trim (JsString.toLowerCase b).
Proof.
  intros (l1 & r1 & l2 & r2 & c1 & c2 & -> & -> & Hl1 & Hr1 & Hl2 & Hr2 & Hc).
  rewrite !toLowerCase_append.
  rewrite (toLowerCase_blank l1 Hl1), (toLowerCase_blank r1 Hr1),
    (toLowerCase_blank l2 Hl2), (toLowerCase_blank r2 Hr2),
    (toLowerCase_sameLetters c1 c2 Hc).
  rewrite (trim_surrounded l1 _ r1 Hl1 Hr1), (trim_surrounded l2 _ r2 Hl2 Hr2).
  reflexivity.
Qed.

Section CacheFacts.

Variable World : Type.
Variable Date_now : World -> Z.
Variable setTimeout : Z -> World -> World.
Variable generateContent :
  string -> World -> Retry.Outcome AiService.GenerateContentResult * World.
Variable JSON_parse : string -> option Json.

Local Abbreviation lookupDetails :=
  (AiService.getMedicineDetails World Date_now setTimeout generateContent
     JSON_parse).
Local Abbreviation askRemote := (fun (medicineName : string)
                                  (this : AiService.Service World) =>
  Retry.callWithRetry setTimeout
    (generateContent (AiService.medicineDetailsPrompt medicineName)) 3 2000
    (AiService.runtime this)).
Local Abbreviation keyOf := (fun medicineName : string =>
  JsString.trim (JsString.toLowerCase medicineName)).

(** A live entry is returned as it is; nothing else happens. *)
Lemma lookup_hit (medicineName : string) (this : AiService.Service World)
    (entry : AiService.CacheEntry) :
  AiService.medicineCache this !! keyOf medicineName = Some entry ->
  Date_now (Retry.world (AiService.runtime this)) - AiService.timestamp entry
  < AiService.CACHE_TTL ->
  lookupDetails medicineName this = (AiService.data entry, this).
Proof.
  intros Hc Hlive. unfold AiService.getMedicineDetails. cbv zeta.
  rewrite Hc.
  replace (_ <? AiService.CACHE_TTL) with true
    by (symmetry; apply Z.ltb_lt; exact Hlive).
  reflexivity.
Qed.

(** What a lookup without a live entry does, by the answer of the remote. *)
Lemma lookup_miss (medicineName : string) (this : AiService.Service World)
    (o : Retry.Outcome AiService.GenerateContentResult)
    (rt : Retry.Runtime World) :
  AiService.isMiss World Date_now medicineName this ->
  askRemote medicineName this = (o, rt) ->
  lookupDetails medicineName this
  = match o with
    | Retry.Rejected _ =>
        (AiService.createFallbackMedicineDetails medicineName,
         AiService.Build_Service (AiService.medicineCache this) rt)
    | Retry.Resolved res =>
        match AiService.text res with
        | Retry.Rejected _ =>
            (AiService.createFallbackMedicineDetails medicineName,
             AiService.Build_Service (AiService.medicineCache this) rt)
        | Retry.Resolved content =>
            if String.eqb content EmptyString then
              (AiService.createFallbackMedicineDetails medicineName,
               AiService.Build_Service (AiService.medicineCache this) rt)
            else if String.eqb (AiService.cleaned content) "null" then
              (JNull, AiService.Build_Service (AiService.medicineCache this) rt)
            else
              match JSON_parse (AiService.cleaned content) with
              | Some parsed =>
                  (parsed,
                   AiService.Build_Service
                     (<[keyOf medicineName :=
                          {| AiService.data := parsed;
                             AiService.timestamp :=
                               Date_now (Retry.world rt) |}]>
                        (AiService.medicineCache this)) rt)
              | None =>
                  (AiService.createFallbackMedicineDetails medicineName,
                   AiService.Build_Service (AiService.medicineCache this) rt)
              end
        end
    end.
Proof.
  intros Hmiss Hask. unfold AiService.isMiss in Hmiss.
  unfold AiService.getMedicineDetails. cbv zeta. rewrite Hask.
  assert (Hbody :
    forall body : Json * AiService.Service World,
      match AiService.medicineCache this !! keyOf medicineName with
      | Some cached =>
          if Date_now (Retry.world (AiService.runtime this))
             - AiService.timestamp cached <? AiService.CACHE_TTL
          then (AiService.data cached, this)
          else body
      | None => body
      end = body).
  { intros body.
    destruct (AiService.medicineCache this !! keyOf medicineName)
      as [cached |]; [| reflexivity].
    replace (_ <? AiService.CACHE_TTL) with false
      by (symmetry; apply Z.ltb_ge; exact Hmiss).
    reflexivity. }
  rewrite Hbody. destruct o as [res | e]; [| reflexivity].
  destruct (AiService.text res) as [content | e]; [| reflexivity].
  destruct content as [| c content]; reflexivity.
Qed.

(** A lookup either finds a live entry or asks the remote. *)
Lemma hit_or_miss (medicineName : string) (this : AiService.Service World) :
  (exists entry,
      AiService.medicineCache this !! keyOf medicineName = Some entry
      /\ Date_now (Retry.world (AiService.runtime this))
         - AiService.timestamp entry < AiService.CACHE_TTL)
  \/ AiService.isMiss World Date_now medicineName this.
Proof.
  unfold AiService.isMiss.
  destruct (AiService.medicineCache this !! keyOf medicineName)
    as [entry |]; [| right; exact I].
  destruct (Z_lt_ge_dec
              (Date_now (Retry.world (AiService.runtime this))
               - AiService.timestamp entry) AiService.CACHE_TTL);
    [left; eauto | right; lia].
Qed.

(** A lookup keeps the invariant that entries hold parsed values. *)
Lemma lookup_keeps_parsed (medicineName : string)
    (this : AiService.Service World) :
  AiService.cacheParsed JSON_parse (AiService.medicineCache this) ->
  AiService.cacheParsed JSON_parse
    (AiService.medicineCache (snd (lookupDetails medicineName this))).
Proof.
  intros Hinv.
  destruct (hit_or_miss medicineName this) as [(entry & Hc & Hl) | Hmiss].
  - rewrite (lookup_hit _ _ _ Hc Hl). exact Hinv.
  - destruct (askRemote medicineName this) as [o rt] eqn:Hask.
    rewrite (lookup_miss _ _ _ _ Hmiss Hask).
    destruct o as [res | e]; [| exact Hinv].
    destruct (AiService.text res) as [content | e]; [| exact Hinv].
    destruct (String.eqb content EmptyString); [exact Hinv |].
    destruct (String.eqb (AiService.cleaned content) "null"); [exact Hinv |].
    destruct (JSON_parse (AiService.cleaned content)) as [parsed |] eqn:Hp;
      [| exact Hinv].
    intros key entry. cbn [snd AiService.medicineCache].
    destruct (decide (keyOf medicineName = key)) as [<- | Hne].
    + rewrite lookup_insert_eq. intros [= <-]. eauto.
    + rewrite lookup_insert_ne by exact Hne. apply Hinv.
Qed.

Lemma serveAll_keeps_parsed (requests : list (World * string)) :
  forall this : AiService.Service World,
    AiService.cacheParsed JSON_parse (AiService.medicineCache this) ->
    AiService.cacheParsed JSON_parse
      (AiService.medicineCache
         (AiService.serveAll World Date_now setTimeout generateContent
            JSON_parse requests this)).
Proof.
  induction requests as [| [w medicineName] rest IH]; intros this Hinv;
    [exact Hinv |].
  cbn [AiService.serveAll]. apply IH.
  apply lookup_keeps_parsed. exact Hinv.
Qed.

(** C10, amended: a lookup writes the cache only when the remote call
    resolved, its text was not empty, the cleaned text was not [null] and
    [JSON.parse] accepted it (whatever the shape of the value); the entry
    then holds the parsed value.  On a remote failure, an empty text or a
    text that does not parse, the fallback is returned and the cache is left
    as it was, so after any sequence of requests every entry holds a value
    that [JSON.parse] returned. *)
Theorem cache_written_only_when_parsed (medicineName : string)
    (this : AiService.Service World) :
  (AiService.medicineCache (snd (lookupDetails medicineName this))
   <> AiService.medicineCache this ->
   exists res rt content parsed,
     askRemote medicineName this = (Retry.Resolved res, rt)
     /\ AiService.text res = Retry.Resolved content
     /\ content <> EmptyString
     /\ AiService.cleaned content <> "null"%string
     /\ JSON_parse (AiService.cleaned content) = Some parsed
     /\ lookupDetails medicineName this
        = (parsed,
           AiService.Build_Service
             (<[keyOf medicineName :=
                  {| AiService.data := parsed;
                     AiService.timestamp := Date_now (Retry.world rt) |}]>
                (AiService.medicineCache this)) rt))
  /\ (forall (o : Retry.Outcome AiService.GenerateContentResult)
             (rt : Retry.Runtime World),
        AiService.isMiss World Date_now medicineName this ->
        askRemote medicineName this = (o, rt) ->
        AiService.failedAnswer JSON_parse o ->
        lookupDetails medicineName this
        = (AiService.createFallbackMedicineDetails medicineName,
           AiService.Build_Service (AiService.medicineCache this) rt))
  /\ (forall (requests : list (World * string)) (rt : Retry.Runtime World),
        AiService.cacheParsed JSON_parse
          (AiService.medicineCache
             (AiService.serveAll World Date_now setTimeout generateContent
                JSON_parse requests (AiService.Build_Service ∅ rt)))).
Proof.
  split; [| split].
  - intros Hchanged.
    destruct (hit_or_miss medicineName this) as [(entry & Hc & Hl) | Hmiss].
    { rewrite (lookup_hit _ _ _ Hc Hl) in Hchanged. now contradiction Hchanged. }
    destruct (askRemote medicineName this) as [o rt] eqn:Hask.
    rewrite (lookup_miss _ _ _ _ Hmiss Hask) in Hchanged |- *.
    destruct o as [res | e]; [| now contradiction Hchanged].
    destruct (AiService.text res) as [content | e] eqn:Htext;
      [| now contradiction Hchanged].
    destruct (String.eqb content EmptyString) eqn:Hempty;
      [now contradiction Hchanged |].
    destruct (String.eqb (AiService.cleaned content) "null") eqn:Hnull;
      [now contradiction Hchanged |].
    destruct (JSON_parse (AiService.cleaned content)) as [parsed |] eqn:Hp;
      [| now contradiction Hchanged].
    exists res, rt, content, parsed.
    apply String.eqb_neq in Hempty, Hnull.
    repeat split; assumption || reflexivity.
  - intros o rt Hmiss Hask Hfail.
    rewrite (lookup_miss _ _ _ _ Hmiss Hask).
    unfold AiService.failedAnswer in Hfail.
    destruct o as [res | e]; [| reflexivity].
    destruct (AiService.text res) as [content | e]; [| reflexivity].
    destruct Hfail as [-> | [Hnull Hp]]; [reflexivity |].
    destruct (String.eqb content EmptyString); [reflexivity |].
    apply String.eqb_neq in Hnull. rewrite Hnull, Hp. reflexivity.
  - intros requests rt. apply serveAll_keeps_parsed.
    intros key entry. cbn [AiService.medicineCache].
    rewrite lookup_empty. discriminate.
Qed.

(** Asking the remote calls it at least once. *)
Lemma askRemote_calls (medicineName : string)
    (this : AiService.Service World) :
  exists calls,
    Retry.trace (snd (askRemote medicineName this))
    = Retry.trace (AiService.runtime this) ++ calls
    /\ (1 <= Retry.attempts calls)%nat.
Proof.
  destruct (retryLoop_ends World setTimeout _
              (generateContent (AiService.medicineDetailsPrompt medicineName))
              3 (Z.to_nat 3) 0 2000 Retry.Undefined (AiService.runtime this)
              ltac:(lia) ltac:(reflexivity))
    as (k & w & tr & _ & _ & _ & Htr & _).
  exists (tr ++ [Retry.Attempt]). split; [exact Htr |].
  rewrite attempts_app. cbn [Retry.attempts]. lia.
Qed.

(** A lookup without a live entry leaves the runtime as the remote call
    left it. *)
Lemma miss_runtime (medicineName : string) (this : AiService.Service World) :
  AiService.isMiss World Date_now medicineName this ->
  AiService.runtime (snd (lookupDetails medicineName this))
  = snd (askRemote medicineName this).
Proof.
  intros Hmiss.
  destruct (askRemote medicineName this) as [o rt] eqn:Hask.
  rewrite (lookup_miss _ _ _ _ Hmiss Hask). cbn [snd].
  destruct o as [res | e]; [| reflexivity].
  destruct (AiService.text res) as [content | e]; [| reflexivity].
  destruct (String.eqb content EmptyString); [reflexivity |].
  destruct (String.eqb (AiService.cleaned content) "null"); [reflexivity |].
  destruct (JSON_parse (AiService.cleaned content)); reflexivity.
Qed.

(** C7, amended: two names that differ only in letter case and surrounding
    white space have the same cache key.  When the first lookup left an
    entry under it and the second lookup comes within the TTL of that entry,
    the second lookup returns the entry's value and does nothing else: no
    remote call, no wait, no write.  When moreover the first lookup found no
    live entry and the remote answered its first attempt with a text that
    parses, both lookups return the parsed value and the remote is called
    exactly once across the two.  When the first lookup found no live entry
    and its answer is not stored (the remote failed, the text was empty or
    did not parse, or it was [null]), the cache is left as it was and the
    second lookup, the clock not having gone back, calls the remote again:
    each of the two lookups calls it at least once. *)
Theorem second_lookup_served_from_cache (a b : string)
    (this : AiService.Service World) (w2 : World) :
  JsString.sameKey a b ->
  keyOf a = keyOf b
  /\ (forall entry : AiService.CacheEntry,
        let this1 := snd (lookupDetails a this) in
        AiService.medicineCache this1 !! keyOf a = Some entry ->
        Date_now w2 - AiService.timestamp entry < AiService.CACHE_TTL ->
        lookupDetails b (AiService.later w2 this1)
        = (AiService.data entry, AiService.later w2 this1))
  /\ (forall (res : AiService.GenerateContentResult) (content : string)
             (parsed : Json) (w1 : World),
        AiService.isMiss World Date_now a this ->
        generateContent (AiService.medicineDetailsPrompt a)
          (Retry.world (AiService.runtime this)) = (Retry.Resolved res, w1) ->
        AiService.text res = Retry.Resolved content ->
        content <> EmptyString ->
        AiService.cleaned content <> "null"%string ->
        JSON_parse (AiService.cleaned content) = Some parsed ->
        Date_now w2 - Date_now w1 < AiService.CACHE_TTL ->
        let first := lookupDetails a this in
        let second := lookupDetails b (AiService.later w2 (snd first)) in
        fst first = parsed
        /\ fst second = parsed
        /\ Retry.trace (AiService.runtime (snd second))
           = Retry.trace (AiService.runtime this) ++ [Retry.Attempt])
  /\ (forall (o : Retry.Outcome AiService.GenerateContentResult)
             (rt : Retry.Runtime World),
        AiService.isMiss World Date_now a this ->
        askRemote a this = (o, rt) ->
        AiService.failedAnswer JSON_parse o
        \/ (exists res content,
               o = Retry.Resolved res
               /\ AiService.text res = Retry.Resolved content
               /\ content <> EmptyString
               /\ AiService.cleaned content = "null"%string) ->
        Date_now (Retry.world (AiService.runtime this)) <= Date_now w2 ->
        let first := lookupDetails a this in
        let second := lookupDetails b (AiService.later w2 (snd first)) in
        AiService.medicineCache (snd first) = AiService.medicineCache this
        /\ exists calls1 calls2,
             Retry.trace (AiService.runtime (snd first))
             = Retry.trace (AiService.runtime this) ++ calls1
             /\ Retry.trace (AiService.runtime (snd second))
                = Retry.trace (AiService.runtime (snd first)) ++ calls2
             /\ (1 <= Retry.attempts calls1)%nat
             /\ (1 <= Retry.attempts calls2)%nat).
Proof.
  intros Hkey. pose proof (sameKey_normalized a b Hkey) as Hk.
  split; [exact Hk | split; [| split]].
  - intros entry this1 Hentry Hlive.
    apply lookup_hit; [rewrite <- Hk; exact Hentry | exact Hlive].
  - intros res content parsed w1 Hmiss Hgen Htext Hne Hnull Hp Hlive.
    assert (Hask : askRemote a this
                   = (Retry.Resolved res,
                      Retry.Build_Runtime w1
                        (Retry.trace (AiService.runtime this)
                           ++ [] ++ [Retry.Attempt]))).
    { apply (callWithRetry_settles World setTimeout _ _ 3 2000
               (AiService.runtime this) 0
               (Retry.world (AiService.runtime this)) w1 []);
        [constructor | lia | exact Hgen | exact I]. }
    pose proof (lookup_miss a this _ _ Hmiss Hask) as Hfirst.
    cbv beta iota in Hfirst. rewrite Htext in Hfirst.
    apply String.eqb_neq in Hne, Hnull. rewrite Hne, Hnull, Hp in Hfirst.
    intros first second. subst second first. rewrite Hfirst.
    cbn [fst snd Retry.world].
    rewrite (lookup_hit b _ {| AiService.data := parsed;
                               AiService.timestamp := Date_now w1 |}).
    + cbn [fst snd AiService.later AiService.runtime Retry.trace
             AiService.data].
      repeat split; reflexivity.
    + cbn [AiService.later AiService.medicineCache]. rewrite <- Hk.
      apply lookup_insert_eq.
    + cbn [AiService.later AiService.runtime Retry.world AiService.timestamp].
      exact Hlive.
  - intros o rt Hmiss Hask Hunstored Hclock first second.
    assert (Hfirst : snd first
                     = AiService.Build_Service (AiService.medicineCache this)
                         rt).
    { subst first. rewrite (lookup_miss a this _ _ Hmiss Hask).
      destruct Hunstored as [Hfail | (res & content & -> & Htext & Hne & Hnull)].
      - unfold AiService.failedAnswer in Hfail.
        destruct o as [res | e]; [| reflexivity].
        destruct (AiService.text res) as [content | e]; [| reflexivity].
        destruct Hfail as [-> | [Hnull Hp]]; [reflexivity |].
        destruct (String.eqb content EmptyString); [reflexivity |].
        apply String.eqb_neq in Hnull. rewrite Hnull, Hp. reflexivity.
      - rewrite Htext. apply String.eqb_neq in Hne. rewrite Hne, Hnull.
        reflexivity. }
    assert (Hmiss2 : AiService.isMiss World Date_now b
                       (AiService.later w2 (snd first))).
    { rewrite Hfirst. unfold AiService.isMiss in *.
      cbn [AiService.later AiService.medicineCache AiService.runtime
           Retry.world]. rewrite <- Hk.
      destruct (AiService.medicineCache this !! keyOf a) as [cached |];
        [lia | exact I]. }
    split; [rewrite Hfirst; reflexivity |].
    destruct (askRemote_calls a this) as (calls1 & Hcalls1 & Hone1).
    destruct (askRemote_calls b (AiService.later w2 (snd first)))
      as (calls2 & Hcalls2 & Hone2).
    exists calls1, calls2.
    subst second. rewrite (miss_runtime b _ Hmiss2), Hcalls2.
    rewrite Hask in Hcalls1. cbn [snd] in Hcalls1.
    rewrite Hfirst. cbn [AiService.runtime AiService.later Retry.trace].
    repeat split; assumption.
Qed.

End CacheFacts.

Lemma sameKey_aspirin : JsString.sameKey "Aspirin" "  aspirin ".
Proof.
  exists EmptyString, EmptyString, "  "%string, " "%string,
    "Aspirin"%string, "aspirin"%string.
  repeat split; try reflexivity.
  repeat (constructor; [reflexivity |]). constructor.
Qed.

Lemma cache_written_only_when_parsed_witness :
  AiService.isMiss Z clockOf "Aspirin" (freshService 0)
  /\ AiService.failedAnswer JsonText.parse
       (Retry.Resolved {| AiService.text := Retry.Resolved "not json" |})
  /\ AiService.getMedicineDetails Z clockOf waiting (answering "not json")
       JsonText.parse "Aspirin" (freshService 0)
     = (AiService.createFallbackMedicineDetails "Aspirin",
        AiService.Build_Service ∅
          (Retry.Build_Runtime 1200 [Retry.Attempt])).
Proof.
  assert (Hmiss : AiService.isMiss Z clockOf "Aspirin" (freshService 0)).
  { unfold AiService.isMiss, freshService. cbn [AiService.medicineCache].
    rewrite lookup_empty. exact I. }
  assert (Hfail : AiService.failedAnswer JsonText.parse
            (Retry.Resolved {| AiService.text := Retry.Resolved "not json" |})).
  { right. split; [vm_compute; discriminate | reflexivity]. }
  split; [exact Hmiss | split; [exact Hfail |]].
  destruct (cache_written_only_when_parsed Z clockOf waiting
              (answering "not json") JsonText.parse "Aspirin"
              (freshService 0)) as (_ & Hfallback & _).
  exact (Hfallback _ (Retry.Build_Runtime 1200 [Retry.Attempt])
           Hmiss eq_refl Hfail).
Defined.

(** C10 as stated fails: the remote answers with an empty array.  That is
    JSON, so it is stored, but it is not the structure the prompt asks
    for. *)
Lemma unexpected_shape_is_cached :
  JsonText.parse (AiService.cleaned "[]") = Some (JArr [])
  /\ AiService.expectedStructure (JArr []) = false
  /\ AiService.medicineCache
       (snd (AiService.getMedicineDetails Z clockOf waiting (answering "[]")
               JsonText.parse "Aspirin" (freshService 0)))
     !! "aspirin"%string
     = Some {| AiService.data := JArr []; AiService.timestamp := 1200 |}.
Proof.
  split; [reflexivity | split; [reflexivity |]].
  assert (Hmiss : AiService.isMiss Z clockOf "Aspirin" (freshService 0)).
  { unfold AiService.isMiss, freshService. cbn [AiService.medicineCache].
    rewrite lookup_empty. exact I. }
  rewrite (lookup_miss Z clockOf waiting (answering "[]") JsonText.parse
             "Aspirin" (freshService 0) _
             (Retry.Build_Runtime 1200 [Retry.Attempt]) Hmiss eq_refl).
  cbn [snd AiService.medicineCache AiService.text].
  change (JsString.trim (JsString.toLowerCase "Aspirin"))
    with "aspirin"%string.
  apply lookup_insert_eq.
Qed.

Lemma second_lookup_served_from_cache_witness :
  JsString.sameKey "Aspirin" "  aspirin "
  /\ (let first :=
        AiService.getMedicineDetails Z clockOf waiting
          (answering aspirinAnswer) JsonText.parse "Aspirin"
          (freshService 0) in
      let second :=
        AiService.getMedicineDetails Z clockOf waiting
          (answering aspirinAnswer) JsonText.parse "  aspirin "
          (AiService.later 60000 (snd first)) in
      JsonText.parse (AiService.cleaned aspirinAnswer) = Some (fst first)
      /\ fst second = fst first
      /\ Retry.trace (AiService.runtime (snd second)) = [Retry.Attempt])
  /\ (let first :=
        AiService.getMedicineDetails Z clockOf waiting
          (answering "not json") JsonText.parse "Aspirin"
          (freshService 0) in
      let second :=
        AiService.getMedicineDetails Z clockOf waiting
          (answering "not json") JsonText.parse "  aspirin "
          (AiService.later 60000 (snd first)) in
      AiService.medicineCache (snd first)
      = AiService.medicineCache (freshService 0)
      /\ exists calls1 calls2,
           Retry.trace (AiService.runtime (snd first))
           = Retry.trace (AiService.runtime (freshService 0)) ++ calls1
           /\ Retry.trace (AiService.runtime (snd second))
              = Retry.trace (AiService.runtime (snd first)) ++ calls2
           /\ (1 <= Retry.attempts calls1)%nat
           /\ (1 <= Retry.attempts calls2)%nat).
Proof.
  split; [exact sameKey_aspirin |].
  assert (Hmiss : AiService.isMiss Z clockOf "Aspirin" (freshService 0)).
  { unfold AiService.isMiss, freshService. cbn [AiService.medicineCache].
    rewrite lookup_empty. exact I. }
  split.
  - destruct (second_lookup_served_from_cache Z clockOf waiting
                (answering aspirinAnswer) JsonText.parse
                "Aspirin" "  aspirin " (freshService 0) 60000
                sameKey_aspirin)
      as (_ & _ & Honce & _).
    destruct (JsonText.parse (AiService.cleaned aspirinAnswer))
      as [parsed |] eqn:Hp; [| vm_compute in Hp; discriminate Hp].
    specialize (Honce {| AiService.text := Retry.Resolved aspirinAnswer |}
                  aspirinAnswer parsed 1200 Hmiss eq_refl eq_refl
                  ltac:(vm_compute; discriminate)
                  ltac:(vm_compute; discriminate) Hp eq_refl).
    cbv zeta in Honce |- *. destruct Honce as (H1 & H2 & H3).
    rewrite H1, H2. split; [reflexivity | split; [reflexivity | exact H3]].
  - destruct (second_lookup_served_from_cache Z clockOf waiting
                (answering "not json") JsonText.parse
                "Aspirin" "  aspirin " (freshService 0) 60000
                sameKey_aspirin)
      as (_ & _ & _ & Hagain).
    assert (Hfail : AiService.failedAnswer JsonText.parse
              (Retry.Resolved
                 {| AiService.text := Retry.Resolved "not json" |})).
    { right. split; [vm_compute; discriminate | reflexivity]. }
    assert (Hclock : clockOf (Retry.world (AiService.runtime (freshService 0)))
                     <= clockOf 60000).
    { vm_compute. discriminate. }
    exact (Hagain _ (Retry.Build_Runtime 1200 [Retry.Attempt]) Hmiss eq_refl
             (or_introl Hfail) Hclock).
Defined.

(** C7 as stated fails: the remote answers [null] (medicine not
    recognized).  Nothing is stored, so the second lookup of the same key,
    one minute later, asks the remote again. *)
Lemma null_answer_is_asked_twice :
  JsString.sameKey "Aspirin" "  aspirin "
  /\ (let first :=
        AiService.getMedicineDetails Z clockOf waiting (answering "null")
          JsonText.parse "Aspirin" (freshService 0) in
      let second :=
        AiService.getMedicineDetails Z clockOf waiting (answering "null")
          JsonText.parse "  aspirin " (AiService.later 60000 (snd first)) in
      AiService.medicineCache (snd first) = ∅
      /\ Retry.attempts (Retry.trace (AiService.runtime (snd first))) = 1%nat
      /\ Retry.attempts (Retry.trace (AiService.runtime (snd second)))
         = 2%nat).
Proof.
  split; [exact sameKey_aspirin |].
  assert (Hmiss : AiService.isMiss Z clockOf "Aspirin" (freshService 0)).
  { unfold AiService.isMiss, freshService. cbn [AiService.medicineCache].
    rewrite lookup_empty. exact I. }
  set (this1 := AiService.Build_Service (World := Z) ∅
                  (Retry.Build_Runtime 1200 [Retry.Attempt])).
  assert (Hfirst :
    AiService.getMedicineDetails Z clockOf waiting (answering "null")
      JsonText.parse "Aspirin" (freshService 0) = (JNull, this1)).
  { rewrite (lookup_miss Z clockOf waiting (answering "null") JsonText.parse
               "Aspirin" (freshService 0) _
               (Retry.Build_Runtime 1200 [Retry.Attempt]) Hmiss eq_refl).
    reflexivity. }
  assert (Hmiss2 : AiService.isMiss Z clockOf "  aspirin "
                     (AiService.later 60000 this1)).
  { unfold AiService.isMiss, AiService.later, this1.
    cbn [AiService.medicineCache]. rewrite lookup_empty. exact I. }
  assert (Hsecond :
    AiService.getMedicineDetails Z clockOf waiting (answering "null")
      JsonText.parse "  aspirin " (AiService.later 60000 this1)
    = (JNull,
       AiService.Build_Service ∅
         (Retry.Build_Runtime 61200 [Retry.Attempt; Retry.Attempt]))).
  { rewrite (lookup_miss Z clockOf waiting (answering "null") JsonText.parse
               "  aspirin " (AiService.later 60000 this1) _
               (Retry.Build_Runtime 61200 [Retry.Attempt; Retry.Attempt])
               Hmiss2 eq_refl).
    reflexivity. }
  cbv zeta. rewrite Hfirst. cbn [snd]. rewrite Hsecond.
  split; [reflexivity | split; reflexivity].
Qed.

(** * Properties of the distance ranking *)

Section StableSort.

Import Binary64.

Variable A : Type.

Lemma insertInOrder_perm (compare : A -> A -> Sign) (x : A) (l : list A) :
  Permutation (Ranking.insertInOrder compare x l) (x :: l).
Proof.
  induction l as [| y l IH]; simpl; [reflexivity |].
  destruct (compare x y); try reflexivity.
  rewrite IH. apply perm_swap.
Qed.

Lemma sort_perm (compare : A -> A -> Sign) (l : list A) :
  Permutation (Ranking.sort compare l) l.
Proof.
  induction l as [| x l IH]; simpl; [reflexivity |].
  rewrite insertInOrder_perm. now constructor.
Qed.

(** The stable sort is a sort in the sense of ECMAScript. *)
Lemma sort_sorts (compare : A -> A -> Sign) (l : list A) :
  Ranking.sorts compare l (Ranking.sort compare l).
Proof.
  split; [symmetry; apply sort_perm | reflexivity].
Qed.

(** The stable sort looks at the comparator on the elements only. *)
Lemma insertInOrder_ext (compare compare' : A -> A -> Sign) (x : A)
    (l : list A) :
  (forall b, In b l -> compare x b = compare' x b) ->
  Ranking.insertInOrder compare x l = Ranking.insertInOrder compare' x l.
Proof.
  induction l as [| y l IH]; intros Hagree; [reflexivity |].
  cbn [Ranking.insertInOrder].
  rewrite <- (Hagree y (or_introl eq_refl)).
  rewrite IH; [reflexivity |].
  intros b Hb. apply Hagree. right. exact Hb.
Qed.

Lemma sort_ext (compare compare' : A -> A -> Sign) (l : list A) :
  (forall a b, In a l -> In b l -> compare a b = compare' a b) ->
  Ranking.sort compare l = Ranking.sort compare' l.
Proof.
  induction l as [| x l IH]; intros Hagree; [reflexivity |].
  cbn [Ranking.sort fold_right].
  fold (Ranking.sort compare l). fold (Ranking.sort compare' l).
  rewrite <- IH by (intros a b Ha Hb; apply Hagree; right; assumption).
  apply insertInOrder_ext. intros b Hb.
  apply Hagree; [left; reflexivity | right].
  exact (Permutation_in b (sort_perm compare l) Hb).
Qed.

(** A comparator that orders by a rational key. *)
Variable key : A -> Q.

Local Abbreviation byKey := (Ranking.byKey key).

Local Abbreviation keyLe := (fun a b : A => (key a <= key b)%Q).
Local Abbreviation hasKey := (fun (k : Q) (a : A) => Qeq_bool (key a) k).

Lemma byKey_Positive (a b : A) :
  byKey a b = Positive <-> (key b < key a)%Q.
Proof.
  unfold Ranking.byKey, minus. rewrite Qgt_alt.
  destruct (key a ?= key b)%Q; split; congruence.
Qed.

Lemma byKey_consistent (l : list A) : Ranking.consistent byKey l.
Proof.
  unfold Ranking.consistent, Ranking.byKey, minus.
  split; [| split; [| split; [| split; [| split]]]].
  - intros a b _ _. destruct (key a ?= key b)%Q; discriminate.
  - intros a _. assert (E : (key a ?= key a)%Q = Eq)
      by (apply Qeq_alt; reflexivity).
    rewrite E. reflexivity.
  - intros a b _ _.
    destruct (key a ?= key b)%Q eqn:E; try discriminate. intros _.
    apply Qeq_alt in E. symmetry in E. apply Qeq_alt in E. rewrite E.
    reflexivity.
  - intros a b c _ _ _.
    destruct (key a ?= key b)%Q eqn:E1; try discriminate. intros _.
    destruct (key b ?= key c)%Q eqn:E2; try discriminate. intros _.
    apply Qeq_alt in E1, E2.
    assert (E : (key a ?= key c)%Q = Eq)
      by (apply Qeq_alt; etransitivity; eassumption).
    rewrite E. reflexivity.
  - intros a b c _ _ _.
    destruct (key a ?= key b)%Q eqn:E1; try discriminate. intros _.
    destruct (key b ?= key c)%Q eqn:E2; try discriminate. intros _.
    apply Qlt_alt in E1, E2.
    assert (E : (key a ?= key c)%Q = Lt)
      by (apply Qlt_alt; eapply Qlt_trans; eassumption).
    rewrite E. reflexivity.
  - intros a b c _ _ _.
    destruct (key a ?= key b)%Q eqn:E1; try discriminate. intros _.
    destruct (key b ?= key c)%Q eqn:E2; try discriminate. intros _.
    apply Qgt_alt in E1, E2.
    assert (E : (key a ?= key c)%Q = Gt)
      by (apply Qgt_alt; eapply Qlt_trans; eassumption).
    rewrite E. reflexivity.
Qed.

Lemma insertInOrder_sorted (x : A) (l : list A) :
  StronglySorted keyLe l ->
  StronglySorted keyLe (Ranking.insertInOrder byKey x l).
Proof.
  induction 1 as [| y l Hsorted IH Hall]; simpl.
  - repeat constructor.
  - destruct (byKey x y) eqn:E.
    1-3: assert (Hxy : (key x <= key y)%Q)
      by (apply Qnot_lt_le; intros H; apply byKey_Positive in H;
          congruence).
    1-3: constructor; [constructor; assumption |];
      constructor; [exact Hxy |];
      eapply List.Forall_impl; [| exact Hall]; simpl; intros a Ha;
      eapply Qle_trans; eassumption.
    apply byKey_Positive in E. constructor; [exact IH |].
    apply (Permutation_Forall
             (Permutation_sym (insertInOrder_perm byKey x l))).
    constructor; [apply Qlt_le_weak; exact E | exact Hall].
Qed.

Lemma sort_sorted (l : list A) :
  StronglySorted keyLe (Ranking.sort byKey l).
Proof.
  induction l as [| x l IH]; simpl; [constructor |].
  apply insertInOrder_sorted, IH.
Qed.

(** Among the elements of one key, insertion puts the new one first. *)
Lemma insertInOrder_ties (k : Q) (x : A) (l : list A) :
  List.filter (hasKey k) (Ranking.insertInOrder byKey x l)
  = List.filter (hasKey k) (x :: l).
Proof.
  induction l as [| y l IH]; [reflexivity |].
  cbn [Ranking.insertInOrder].
  destruct (byKey x y) eqn:E; try reflexivity.
  apply byKey_Positive in E.
  cbn [List.filter] in *. rewrite IH.
  destruct (Qeq_bool (key y) k) eqn:Ey, (Qeq_bool (key x) k) eqn:Ex;
    try reflexivity.
  apply Qeq_bool_eq in Ey, Ex. exfalso.
  rewrite Ey, Ex in E. exact (Qlt_irrefl k E).
Qed.

(** The sort is stable: the elements of one key keep their input order. *)
Lemma sort_ties (k : Q) (l : list A) :
  List.filter (hasKey k) (Ranking.sort byKey l) = List.filter (hasKey k) l.
Proof.
  induction l as [| x l IH]; [reflexivity |].
  cbn [Ranking.sort fold_right]. rewrite insertInOrder_ties.
  cbn [List.filter]. fold (Ranking.sort byKey l). rewrite IH. reflexivity.
Qed.

(** A list that is in order is left as it is. *)
Lemma sort_of_sorted (l : list A) :
  StronglySorted keyLe l -> Ranking.sort byKey l = l.
Proof.
  induction 1 as [| x l Hsorted IH Hall]; [reflexivity |].
  cbn [Ranking.sort fold_right]. fold (Ranking.sort byKey l). rewrite IH.
  destruct l as [| y l]; [reflexivity |].
  cbn [Ranking.insertInOrder].
  destruct (byKey x y) eqn:E; try reflexivity.
  apply byKey_Positive in E. inversion Hall as [| ? ? Hxy _]. subst.
  exfalso. exact (Qlt_irrefl _ (Qle_lt_trans _ _ _ Hxy E)).
Qed.

Lemma filter_sorted (keep : A -> bool) (l : list A) :
  StronglySorted keyLe l -> StronglySorted keyLe (List.filter keep l).
Proof.
  induction 1 as [| y l Hsorted IH Hall]; simpl; [constructor |].
  destruct (keep y); [| exact IH].
  constructor; [exact IH |].
  apply List.Forall_forall. intros a Ha. apply filter_In in Ha as [Ha _].
  rewrite List.Forall_forall in Hall. exact (Hall a Ha).
Qed.

Lemma filter_swap (p q : A -> bool) (l : list A) :
  List.filter p (List.filter q l) = List.filter q (List.filter p l).
Proof.
  induction l as [| x l IH]; simpl; [reflexivity |].
  destruct (p x) eqn:Ep, (q x) eqn:Eq; simpl; rewrite ?Ep, ?Eq, IH;
    reflexivity.
Qed.

Lemma filter_perm (keep : A -> bool) (l l' : list A) :
  Permutation l l' ->
  Permutation (List.filter keep l) (List.filter keep l').
Proof.
  induction 1 as [| x l l' Hp IH | x y l | l l' l'' H1 IH1 H2 IH2]; simpl.
  - constructor.
  - destruct (keep x); [constructor |]; exact IH.
  - destruct (keep x), (keep y); try reflexivity. apply perm_swap.
  - etransitivity; eassumption.
Qed.

End StableSort.

(** ** Rounding to binary64 and the two-decimal text *)

Lemma Qpower2_pos (e : Z) : (0 < 2 ^ e)%Q.
Proof. apply Qpower_0_lt. reflexivity. Qed.

Lemma nearest_mantissa (m r b : Z) :
  0 <= r ->
  m <= match 2 * r ?= b with
       | Lt => m
       | Gt => m + 1
       | Eq => if Z.even m then m else m + 1
       end.
Proof.
  intros _. destruct (2 * r ?= b); [destruct (Z.even m) | |]; lia.
Qed.

Lemma nearest_nonneg (num : Z) (den : positive) :
  0 <= num -> (0 <= Binary64.nearest num den)%Q.
Proof.
  intros Hnum. unfold Binary64.nearest.
  set (e := Z.max (Binary64.binade num den - 52) (-1074)).
  set (a := if 0 <=? e then num else num * 2 ^ (- e)).
  set (b := if 0 <=? e then Z.pos den * 2 ^ e else Z.pos den).
  assert (Ha : 0 <= a).
  { subst a. destruct (0 <=? e); [exact Hnum |].
    apply Z.mul_nonneg_nonneg; [exact Hnum |]. apply Z.pow_nonneg. lia. }
  assert (Hb : 0 < b).
  { subst b. destruct (0 <=? e) eqn:E; [| lia].
    apply Z.leb_le in E. apply Z.mul_pos_pos; [lia |].
    apply Z.pow_pos_nonneg; lia. }
  cbv zeta. apply Qmult_le_0_compat; [| apply Qlt_le_weak, Qpower2_pos].
  rewrite <- (Zle_Qle 0).
  etransitivity; [| apply nearest_mantissa, Z.mod_pos_bound, Hb].
  apply Z.div_pos; assumption.
Qed.

(** A rational that is at least a power of two is rounded to a number that
    is at least that power. *)
Lemma nearest_lower (num : Z) (den : positive) (k : Z) :
  0 <= k -> 2 ^ k * Z.pos den <= num ->
  (inject_Z (2 ^ k) <= Binary64.nearest num den)%Q.
Proof.
  intros Hk Hnum.
  assert (Hpow : 0 < 2 ^ k) by (apply Z.pow_pos_nonneg; lia).
  assert (Hden : Z.pos den <= num) by nia.
  assert (Hquot : 2 ^ k <= num / Z.pos den)
    by (apply Z.div_le_lower_bound; lia).
  unfold Binary64.nearest, Binary64.binade.
  destruct (Z.leb_spec (Z.pos den) num) as [_ | H]; [| lia].
  set (K := Z.log2 (num / Z.pos den)).
  assert (HK : k <= K).
  { subst K. rewrite <- (Z.log2_pow2 k Hk). apply Z.log2_le_mono, Hquot. }
  assert (Hspec : 2 ^ K <= num / Z.pos den)
    by (apply Z.log2_spec; lia).
  assert (Hbelow : 2 ^ K * Z.pos den <= num).
  { etransitivity; [apply Z.mul_le_mono_nonneg_r; [lia | exact Hspec] |].
    rewrite Z.mul_comm. apply Z.mul_div_le. lia. }
  replace (Z.max (K - 52) (-1074)) with (K - 52) by lia.
  set (e := K - 52).
  set (a := if 0 <=? e then num else num * 2 ^ (- e)).
  set (b := if 0 <=? e then Z.pos den * 2 ^ e else Z.pos den).
  assert (Hb : 0 < b).
  { subst b. destruct (Z.leb_spec 0 e); [| lia].
    apply Z.mul_pos_pos; [lia |]. apply Z.pow_pos_nonneg; lia. }
  assert (Hm : 2 ^ 52 <= a / b).
  { apply Z.div_le_lower_bound; [exact Hb |].
    subst a b. destruct (Z.leb_spec 0 e) as [He | He].
    - replace (Z.pos den * 2 ^ e * 2 ^ 52) with (2 ^ K * Z.pos den);
        [exact Hbelow |].
      replace K with (e + 52) by (subst e; lia).
      rewrite Z.pow_add_r by lia. ring.
    - replace (2 ^ 52) with (2 ^ K * 2 ^ (- e)).
      + rewrite Z.mul_assoc. apply Z.mul_le_mono_nonneg_r.
        * apply Z.pow_nonneg. lia.
        * rewrite Z.mul_comm. exact Hbelow.
      + rewrite <- Z.pow_add_r by lia. f_equal. subst e. lia. }
  cbv zeta.
  apply Qle_trans with (inject_Z (2 ^ 52) * 2 ^ e)%Q.
  - rewrite (Zpower_Qpower 2 k Hk), (Zpower_Qpower 2 52) by lia.
    rewrite <- Qpower_plus by discriminate.
    apply Qpower_le_compat_l; [subst e; lia | discriminate].
  - apply Qmult_le_compat_r; [| apply Qlt_le_weak, Qpower2_pos].
    rewrite <- Zle_Qle.
    etransitivity; [exact Hm |].
    apply nearest_mantissa, Z.mod_pos_bound, Hb.
Qed.

(** For the hundredths up to 49.99 the number read is the binary64 quotient
    of the hundredths by 100, which is the nearest number as well. *)
Lemma nearest_is_quotient :
  forallb (fun n : nat =>
             Qeq_bool (Binary64.nearest (Z.of_nat n) 100)
               (Binary64.exact
                  (PrimFloat.of_uint63 (Uint63.of_Z (Z.of_nat n)) / 100)%float))
    (seq 1 4999) = true.
Proof. vm_compute. reflexivity. Qed.

(** The hundredths up to 15.99, one by one. *)
Lemma nearest_le_15_table :
  forallb (fun n : nat =>
             Bool.eqb (Qle_bool (Binary64.nearest (Z.of_nat n) 100) 15)
               (Z.of_nat n <=? 1500))
    (seq 1 1599) = true.
Proof. vm_compute. reflexivity. Qed.

(** The number read from hundredths is at most 15 exactly when there are at
    most 1500 of them. *)
Lemma nearest_le_15 (n : Z) :
  0 < n -> Qle_bool (Binary64.nearest n 100) 15 = true <-> n <= 1500.
Proof.
  intros Hpos. destruct (Z_lt_le_dec n 1600) as [Hsmall | Hlarge].
  - pose proof nearest_le_15_table as Htable.
    rewrite forallb_forall in Htable.
    specialize (Htable (Z.to_nat n)).
    rewrite Z2Nat.id in Htable by lia.
    assert (Hin : In (Z.to_nat n) (seq 1 1599)) by (apply in_seq; lia).
    specialize (Htable Hin). apply Bool.eqb_prop in Htable.
    rewrite Htable. apply Z.leb_le.
  - split; [| lia]. intros Hle. exfalso.
    apply Qle_bool_iff in Hle.
    pose proof (nearest_lower n 100 4 ltac:(lia) ltac:(lia)) as Hlow.
    assert (H : (inject_Z (2 ^ 4) <= 15)%Q)
      by (eapply Qle_trans; eassumption).
    revert H. vm_compute. intros H. apply H. reflexivity.
Qed.

Lemma parseFloat_within (negative : bool) (n : Z) :
  Binary64.leb (Ranking.parseFloat (Ranking.Fixed negative n))
    (Binary64.Finite 15) = true
  <-> negative = true \/ n <= 1500.
Proof.
  cbn [Ranking.parseFloat].
  destruct (Z.leb_spec n 0) as [Hn | Hn].
  - cbn [Binary64.leb]. split; [right; lia | reflexivity].
  - cbn [Binary64.leb]. destruct negative.
    + split; [left; reflexivity |]. intros _. apply Qle_bool_iff.
      apply Qle_trans with 0%Q; [| discriminate].
      rewrite <- (Qopp_involutive 0). apply Qopp_le_compat.
      apply nearest_nonneg. lia.
    + rewrite (nearest_le_15 n Hn).
      split; [right; assumption | intros [H | H]; [discriminate | exact H]].
Qed.

Lemma Qfloor_le_iff (q : Q) (z : Z) :
  Qfloor q <= z <-> (q < inject_Z (z + 1))%Q.
Proof.
  split; intros H.
  - eapply Qlt_le_trans; [apply Qlt_floor |].
    rewrite <- Zle_Qle. lia.
  - assert (Hlt : (inject_Z (Qfloor q) < inject_Z (z + 1))%Q)
      by (eapply Qle_lt_trans; [apply Qfloor_le | exact H]).
    rewrite <- Zlt_Qlt in Hlt. lia.
Qed.

(** A finite number is shown and read back as at most 15 exactly when it is
    below 15.005. *)
Lemma toFixed2_within (x : float) (q : Q) :
  Binary64.classify x = Binary64.Finite q ->
  Binary64.leb (Ranking.parseFloat (Ranking.toFixed2 x))
    (Binary64.Finite 15) = true
  <-> (q < 15005 # 1000)%Q.
Proof.
  intros Hx. unfold Ranking.toFixed2. rewrite Hx.
  destruct (Qle_bool (10 ^ 21) (Qabs q)) eqn:Hhuge.
  - cbn [Ranking.parseFloat]. rewrite Hx. cbn [Binary64.leb].
    rewrite Qle_bool_iff. apply Qle_bool_iff in Hhuge.
    split; intros H.
    + eapply Qle_lt_trans; [exact H | reflexivity].
    + destruct (Qlt_le_dec q 0) as [Hneg | Hpos].
      * apply Qlt_le_weak. eapply Qlt_trans; [exact Hneg | reflexivity].
      * rewrite (Qabs_pos q Hpos) in Hhuge. exfalso.
        apply (Qlt_irrefl q).
        eapply Qlt_le_trans; [exact H |].
        eapply Qle_trans; [| exact Hhuge]. discriminate.
  - rewrite parseFloat_within.
    destruct (Qle_bool 0 q) eqn:Hsign; cbn [negb].
    + apply Qle_bool_iff in Hsign. rewrite (Qabs_pos q Hsign).
      rewrite Qfloor_le_iff.
      split.
      * intros [H | H]; [discriminate |].
        apply Qmult_lt_r with 100%Q; [reflexivity |].
        apply Qplus_lt_l with (1 # 2)%Q.
        eapply Qlt_le_trans; [exact H | discriminate].
      * intros H. right.
        apply Qlt_le_trans with ((15005 # 1000) * 100 + (1 # 2))%Q;
          [| discriminate].
        apply Qplus_lt_l. apply Qmult_lt_r; [reflexivity | exact H].
    + split; [| left; reflexivity]. intros _.
      apply Qlt_trans with 0%Q; [| reflexivity].
      apply Qnot_le_lt. intros H. apply Qle_bool_iff in H. congruence.
Qed.

(** The two-decimal figure of a finite number below [10^21] that is not
    below zero is within 0.005 of it. *)
Lemma toFixed2_near (x : float) (q : Q) :
  Binary64.classify x = Binary64.Finite q ->
  (0 <= q)%Q -> (q < 10 ^ 21)%Q ->
  exists n : Z,
    Ranking.toFixed2 x = Ranking.Fixed false n
    /\ 0 <= n
    /\ ((n # 100) - (5 # 1000) <= q)%Q
    /\ (q < (n # 100) + (5 # 1000))%Q.
Proof.
  intros Hx Hpos Hsmall. unfold Ranking.toFixed2. rewrite Hx.
  pose proof (Qabs_pos q Hpos) as Habs.
  assert (Hhuge : Qle_bool (10 ^ 21) (Qabs q) = false).
  { destruct (Qle_bool (10 ^ 21) (Qabs q)) eqn:E; [| reflexivity].
    apply Qle_bool_iff in E. rewrite Habs in E. exfalso.
    apply (Qlt_irrefl q). eapply Qlt_le_trans; eassumption. }
  rewrite Hhuge.
  assert (Hsign : Qle_bool 0 q = true) by (apply Qle_bool_iff; exact Hpos).
  rewrite Hsign. cbn [negb].
  set (n := Qfloor (Qabs q * 100 + (1 # 2))).
  assert (Hlow : (inject_Z n <= q * 100 + (1 # 2))%Q)
    by (rewrite <- Habs; apply Qfloor_le).
  assert (Hup : (q * 100 + (1 # 2) < inject_Z (n + 1))%Q)
    by (rewrite <- Habs; apply Qlt_floor).
  assert (Hn : 0 <= n).
  { subst n. change 0 with (Qfloor 0). apply Qfloor_resp_le. rewrite Habs.
    apply Qle_trans with (0 * 100 + (1 # 2))%Q; [discriminate |].
    apply Qplus_le_l. apply Qmult_le_compat_r; [exact Hpos | discriminate]. }
  exists n. split; [reflexivity |]. split; [exact Hn |].
  rewrite inject_Z_plus in Hup.
  assert (E : (n # 100 == inject_Z n / 100)%Q).
  { unfold Qeq, Qdiv, Qmult, Qinv, inject_Z. cbn. lia. }
  rewrite E. split.
  - apply Qmult_le_r with 100%Q; [reflexivity |].
    apply Qplus_le_l with (1 # 2)%Q.
    eapply Qle_trans; [| exact Hlow].
    apply Qle_lteq. right. field.
  - apply Qmult_lt_r with 100%Q; [reflexivity |].
    apply Qplus_lt_l with (1 # 2)%Q.
    eapply Qlt_le_trans; [exact Hup |].
    apply Qle_lteq. right. field.
Qed.

(** ** The ranking *)

Lemma consistent_ext {A : Type} (compare compare' : A -> A -> Binary64.Sign)
    (l : list A) :
  (forall a b, In a l -> In b l -> compare a b = compare' a b) ->
  Ranking.consistent compare' l -> Ranking.consistent compare l.
Proof.
  intros Hagree (Hnan & Hrefl & Hsym & Heq & Hlt & Hgt).
  split; [| split; [| split; [| split; [| split]]]].
  - intros a b Ha Hb. rewrite Hagree by assumption. auto.
  - intros a Ha. rewrite Hagree by assumption. auto.
  - intros a b Ha Hb. rewrite !Hagree by assumption. auto.
  - intros a b c Ha Hb Hc. rewrite !Hagree by assumption. eauto.
  - intros a b c Ha Hb Hc. rewrite !Hagree by assumption. eauto.
  - intros a b c Ha Hb Hc. rewrite !Hagree by assumption. eauto.
Qed.

Lemma StronglySorted_In_impl {A : Type} (R R' : A -> A -> Prop)
    (l : list A) :
  (forall a b, In a l -> In b l -> R a b -> R' a b) ->
  StronglySorted R l -> StronglySorted R' l.
Proof.
  intros Himpl Hsorted. induction Hsorted as [| x l Hsorted IH Hall].
  - constructor.
  - constructor.
    + apply IH. intros a b Ha Hb. apply Himpl; right; assumption.
    + rewrite List.Forall_forall in *. intros b Hb.
      apply Himpl; [left; reflexivity | right; exact Hb | exact (Hall b Hb)].
Qed.

Lemma filter_ext_In {A : Type} (p q : A -> bool) (l : list A) :
  (forall a, In a l -> p a = q a) -> List.filter p l = List.filter q l.
Proof.
  induction l as [| x l IH]; intros H; [reflexivity |].
  cbn [List.filter]. rewrite (H x (or_introl eq_refl)).
  rewrite IH by (intros a Ha; apply H; right; exact Ha). reflexivity.
Qed.

(** A finite number is shown and read back as a finite number. *)
Lemma shown_finite (x : float) (q : Q) :
  Binary64.classify x = Binary64.Finite q ->
  exists k, Ranking.parseFloat (Ranking.toFixed2 x) = Binary64.Finite k.
Proof.
  intros Hx. unfold Ranking.toFixed2. rewrite Hx.
  destruct (Qle_bool _ _).
  - exists q. exact Hx.
  - cbn [Ranking.parseFloat]. destruct (_ <=? 0); eauto.
Qed.

(** A number that is not finite is shown and read back as it is. *)
Lemma shown_not_finite (x : float) :
  (forall q, Binary64.classify x <> Binary64.Finite q) ->
  Ranking.parseFloat (Ranking.toFixed2 x) = Binary64.classify x.
Proof.
  intros Hx. unfold Ranking.toFixed2.
  destruct (Binary64.classify x) as [| negative | q] eqn:E;
    cbn [Ranking.parseFloat]; try exact E.
  contradiction (Hx q). reflexivity.
Qed.

Section RankingFacts.

Import Binary64.

Variables Math_sin Math_cos : float -> float.
Variable Math_atan2 : float -> float -> float.
Variable Array_sort :
  (Ranking.DonationCenter -> Ranking.DonationCenter -> Sign)
  -> list Ranking.DonationCenter -> list Ranking.DonationCenter.

(** The sort of the engine is one that ECMAScript allows. *)
Hypothesis Array_sort_sorts :
  forall compare l, Ranking.sorts compare l (Array_sort compare l).

Variables lat0 lon0 : float.

Local Abbreviation km := (fun c : Ranking.DonationCenter =>
  Ranking.haversineKm Math_sin Math_cos Math_atan2 lat0 lon0
    (Ranking.lat (Ranking.coordinates c))
    (Ranking.lng (Ranking.coordinates c))).
Local Abbreviation shown := (fun c : Ranking.DonationCenter =>
  Ranking.calculateDistance Math_sin Math_cos Math_atan2 lat0 lon0
    (Ranking.lat (Ranking.coordinates c))
    (Ranking.lng (Ranking.coordinates c))).
Local Abbreviation read :=
  (Ranking.distanceTo Math_sin Math_cos Math_atan2 lat0 lon0).
Local Abbreviation compare :=
  (Ranking.byDistance Math_sin Math_cos Math_atan2 lat0 lon0).
Local Abbreviation within :=
  (Ranking.withinRadius Math_sin Math_cos Math_atan2 lat0 lon0).
Local Abbreviation ranked :=
  (Ranking.sortedCenters Math_sin Math_cos Math_atan2 Array_sort lat0 lon0).

Lemma withinRadius_km (c : Ranking.DonationCenter) :
  within c = true
  <-> match classify (km c) with
      | NaN => False
      | Infinity negative => negative = true
      | Finite q => (q < 15005 # 1000)%Q
      end.
Proof.
  unfold Ranking.withinRadius, Ranking.distanceTo, Ranking.calculateDistance.
  destruct (classify (km c)) as [| negative | q] eqn:E.
  - rewrite shown_not_finite by (intros q; rewrite E; discriminate).
    rewrite E. cbn. split; [discriminate | contradiction].
  - rewrite shown_not_finite by (intros q; rewrite E; discriminate).
    rewrite E. destruct negative; cbn; split; auto; discriminate.
  - apply toFixed2_within, E.
Qed.

Lemma ranked_perm (centers : list Ranking.DonationCenter) :
  Permutation (List.filter within centers) (ranked centers).
Proof.
  unfold Ranking.sortedCenters. apply filter_perm.
  apply Array_sort_sorts.
Qed.

Lemma ranked_In (centers : list Ranking.DonationCenter)
    (c : Ranking.DonationCenter) :
  In c (ranked centers) <-> In c centers /\ within c = true.
Proof.
  rewrite <- filter_In. split; intros H.
  - exact (Permutation_in c (Permutation_sym (ranked_perm centers)) H).
  - exact (Permutation_in c (ranked_perm centers) H).
Qed.

Lemma ranked_none (centers : list Ranking.DonationCenter) :
  (forall c, In c centers -> within c = false) -> ranked centers = [].
Proof.
  intros Hfar. destruct (ranked centers) as [| c rest] eqn:E; [reflexivity |].
  assert (Hin : In c (ranked centers)) by (rewrite E; now left).
  apply ranked_In in Hin as [Hin Hc]. rewrite (Hfar c Hin) in Hc.
  discriminate.
Qed.

(** The number read for a facility, 0 where it is not finite. *)
Local Abbreviation key :=
  (fun c : Ranking.DonationCenter => valueOf (read c)).

Section FiniteDistances.

Variable centers : list Ranking.DonationCenter.

Hypothesis finite :
  forall c, In c centers -> exists q, classify (km c) = Finite q.

Lemma read_key (c : Ranking.DonationCenter) :
  In c centers -> read c = Finite (key c).
Proof.
  intros Hc. destruct (finite c Hc) as [q Hq].
  unfold Ranking.distanceTo, Ranking.calculateDistance.
  destruct (shown_finite _ q Hq) as [k Hk]. rewrite Hk. reflexivity.
Qed.

Lemma compare_key (a b : Ranking.DonationCenter) :
  In a centers -> In b centers -> compare a b = Ranking.byKey key a b.
Proof.
  intros Ha Hb. unfold Ranking.byDistance, Ranking.byKey.
  rewrite (read_key a Ha), (read_key b Hb). reflexivity.
Qed.

Lemma compare_consistent : Ranking.consistent compare centers.
Proof.
  apply (consistent_ext _ _ _ compare_key), byKey_consistent.
Qed.

Lemma ranked_stable :
  ranked centers
  = List.filter within (Ranking.sort (Ranking.byKey key) centers).
Proof.
  unfold Ranking.sortedCenters.
  rewrite (proj2 (Array_sort_sorts compare centers) compare_consistent).
  rewrite (sort_ext _ _ _ centers compare_key). reflexivity.
Qed.

Lemma ranked_In_centers (c : Ranking.DonationCenter) :
  In c (ranked centers) -> In c centers.
Proof. intros H. apply ranked_In in H. tauto. Qed.

Lemma ranked_sorted :
  StronglySorted (fun a b => leb (read a) (read b) = true) (ranked centers).
Proof.
  apply (StronglySorted_In_impl (fun a b => (key a <= key b)%Q)).
  - intros a b Ha Hb Hle.
    rewrite (read_key a (ranked_In_centers a Ha)),
      (read_key b (ranked_In_centers b Hb)).
    apply Qle_bool_iff, Hle.
  - rewrite ranked_stable. apply filter_sorted, sort_sorted.
Qed.

Lemma ranked_ties (d : Number) :
  List.filter (fun c => eqb (read c) d) (ranked centers)
  = List.filter (fun c => eqb (read c) d) (List.filter within centers).
Proof.
  destruct d as [| negative | k].
  - rewrite (filter_ext_In _ (fun _ => false) (ranked centers)),
      (filter_ext_In _ (fun _ => false) (List.filter within centers)).
    + clear. induction (ranked centers) as [| x l IH];
        induction (List.filter within centers) as [| y l' IH'];
        cbn in *; auto.
    + intros a _. destruct (read a); reflexivity.
    + intros a _. destruct (read a); reflexivity.
  - rewrite (filter_ext_In _ (fun _ => false) (ranked centers)),
      (filter_ext_In _ (fun _ => false) (List.filter within centers)).
    + clear. induction (ranked centers) as [| x l IH];
        induction (List.filter within centers) as [| y l' IH'];
        cbn in *; auto.
    + intros a Ha. apply filter_In in Ha as [Ha _].
      rewrite (read_key a Ha). reflexivity.
    + intros a Ha. rewrite (read_key a (ranked_In_centers a Ha)).
      reflexivity.
  - rewrite (filter_ext_In _ (fun c => Qeq_bool (key c) k) (ranked centers)),
      (filter_ext_In _ (fun c => Qeq_bool (key c) k)
         (List.filter within centers)).
    + rewrite ranked_stable, filter_swap, sort_ties. apply filter_swap.
    + intros a Ha. apply filter_In in Ha as [Ha _].
      rewrite (read_key a Ha). reflexivity.
    + intros a Ha. rewrite (read_key a (ranked_In_centers a Ha)).
      reflexivity.
Qed.

End FiniteDistances.

(** C8, amended: the distance is computed in binary64 by the haversine
    formula with radius 6371 km, printed with two decimals and read back.
    The facilities returned are those of the input whose figure read back is
    at most 15: a facility is kept exactly when its distance is below
    15.005 km or minus infinity, and never when it is [NaN]; the figure of a
    distance that is not below zero is within 0.005 km of it.  When every
    distance is a finite number, the facilities kept come in ascending order
    of the figure read back and those with the same figure stay in input
    order; with a distance that is [NaN] or infinite the comparator is not
    consistent and the order is the engine's.  When no facility is kept the
    result is the empty list. *)
Theorem ranked_by_shown_distance (centers : list Ranking.DonationCenter) :
  (forall c,
      let lat2 := Ranking.lat (Ranking.coordinates c) in
      let lon2 := Ranking.lng (Ranking.coordinates c) in
      let dLat := ((lat2 - lat0) * Ranking.Math_PI / 180)%float in
      let dLon := ((lon2 - lon0) * Ranking.Math_PI / 180)%float in
      let a :=
        (Math_sin (dLat / 2) * Math_sin (dLat / 2)
         + Math_cos (lat0 * Ranking.Math_PI / 180)
           * Math_cos (lat2 * Ranking.Math_PI / 180)
           * Math_sin (dLon / 2) * Math_sin (dLon / 2))%float in
      km c = (6371 * (2 * Math_atan2 (PrimFloat.sqrt a)
                            (PrimFloat.sqrt (1 - a))))%float
      /\ shown c = Ranking.toFixed2 (km c)
      /\ read c = Ranking.parseFloat (shown c))
  /\ Permutation (List.filter within centers) (ranked centers)
  /\ (forall c, In c (ranked centers) <-> In c centers /\ within c = true)
  /\ (forall c,
        within c = true
        <-> match classify (km c) with
            | NaN => False
            | Infinity negative => negative = true
            | Finite q => (q < 15005 # 1000)%Q
            end)
  /\ (forall c q,
        classify (km c) = Finite q -> (0 <= q)%Q -> (q < 10 ^ 21)%Q ->
        exists n : Z,
          shown c = Ranking.Fixed false n
          /\ 0 <= n
          /\ ((n # 100) - (5 # 1000) <= q)%Q
          /\ (q < (n # 100) + (5 # 1000))%Q)
  /\ ((forall c, In c centers -> exists q, classify (km c) = Finite q) ->
      Ranking.consistent compare centers
      /\ ranked centers
         = List.filter within (Ranking.sort compare centers)
      /\ StronglySorted (fun a b => leb (read a) (read b) = true)
           (ranked centers)
      /\ (forall d : Number,
            List.filter (fun c => eqb (read c) d) (ranked centers)
            = List.filter (fun c => eqb (read c) d)
                (List.filter within centers)))
  /\ ((forall c, In c centers -> within c = false) -> ranked centers = [])
  /\ (forall geocodedLat geocodedLon : option float,
        Ranking.finalCenters Math_sin Math_cos Math_atan2 Array_sort
          (Some (geocodedLat, geocodedLon)) centers
        = Ranking.sortedCenters Math_sin Math_cos Math_atan2 Array_sort
            (Ranking.toNumber geocodedLat) (Ranking.toNumber geocodedLon)
            centers)
  /\ Ranking.finalCenters Math_sin Math_cos Math_atan2 Array_sort None centers
     = centers.
Proof.
  split; [intros c; cbv zeta; repeat split |].
  split; [apply ranked_perm |].
  split; [intros c; apply ranked_In |].
  split; [intros c; apply withinRadius_km |].
  split; [intros c q Hq Hpos Hsmall; exact (toFixed2_near _ q Hq Hpos Hsmall) |].
  split.
  { intros Hfinite.
    split; [apply compare_consistent, Hfinite |].
    split.
    - unfold Ranking.sortedCenters.
      rewrite (proj2 (Array_sort_sorts compare centers)
                 (compare_consistent centers Hfinite)).
      reflexivity.
    - split; [apply ranked_sorted, Hfinite |].
      intros d. apply ranked_ties, Hfinite. }
  split; [apply ranked_none |].
  split; [intros geocodedLat geocodedLon; reflexivity | reflexivity].
Qed.

End RankingFacts.

(** ** The ranking around (12 N, 77 E) *)

Lemma sample_distances_finite (c : Ranking.DonationCenter) :
  In c [farCenter; midCenter; nearCenter] ->
  exists q, Binary64.classify (sampleKm c) = Binary64.Finite q.
Proof.
  intros [<- | [<- | [<- | []]]]; eexists; vm_compute; reflexivity.
Qed.

(** Facilities at 20, 5 and 2 km: the one at 20 km is dropped and the others
    come nearest first. *)
Lemma ranked_by_shown_distance_witness :
  (forall compare l, Ranking.sorts compare l (sampleSort compare l))
  /\ (forall c, In c [farCenter; midCenter; nearCenter] ->
        exists q, Binary64.classify (sampleKm c) = Binary64.Finite q)
  /\ StronglySorted
       (fun a b =>
          Binary64.leb
            (Ranking.distanceTo sampleSin sampleCos sampleAtan2 12 77 a)
            (Ranking.distanceTo sampleSin sampleCos sampleAtan2 12 77 b)
          = true)
       (sampleRanked [farCenter; midCenter; nearCenter])
  /\ sampleRanked [farCenter; midCenter; nearCenter]
     = [nearCenter; midCenter]
  /\ List.map sampleShown [farCenter; midCenter; nearCenter]
     = [Some "20.02"; Some "5.00"; Some "2.00"]%string.
Proof.
  pose proof (ranked_by_shown_distance sampleSin sampleCos sampleAtan2
                sampleSort (sort_sorts Ranking.DonationCenter) 12 77
                [farCenter; midCenter; nearCenter])
    as (_ & _ & _ & _ & _ & Hfinite & _).
  destruct (Hfinite sample_distances_finite) as (_ & Hstable & Hsorted & _).
  split; [exact (sort_sorts Ranking.DonationCenter) |].
  split; [exact sample_distances_finite |].
  split; [exact Hsorted |].
  split; [| vm_compute; reflexivity].
  unfold sampleRanked. rewrite Hstable. vm_compute. reflexivity.
Defined.

(** C8 as stated fails.  A facility whose distance exceeds 15 km, here
    15.0024 km, is shown as 15.00 km and is not excluded.  A facility whose
    distance comes out as [NaN], here one at the antipode of the origin, is
    dropped, but it breaks the order of the others: placed between a
    facility at 5 km and one at 2 km it leaves them in that order. *)
Lemma facility_beyond_radius_is_kept :
  (15 < Binary64.exact (sampleKm edgeCenter))%Q
  /\ sampleShown edgeCenter = Some "15.00"%string
  /\ In edgeCenter (sampleRanked [nearCenter; edgeCenter; farCenter])
  /\ Binary64.classify (sampleKm antipodeCenter) = Binary64.NaN
  /\ List.map sampleShown [midCenter; antipodeCenter; nearCenter]
     = [Some "5.00"; Some "NaN"; Some "2.00"]%string
  /\ sampleRanked [midCenter; antipodeCenter; nearCenter]
     = [midCenter; nearCenter].
Proof.
  split; [vm_compute; reflexivity |].
  split; [vm_compute; reflexivity |].
  split; [vm_compute; right; left; reflexivity |].
  split; [vm_compute; reflexivity |].
  split; vm_compute; reflexivity.
Qed.

(** * Further properties of [callWithRetry] *)

Lemma total_backoff (k : nat) (delay : Z) :
  Retry.total (Retry.backoff k delay) = delay * (2 ^ Z.of_nat k - 1).
Proof.
  revert delay. induction k as [| k IH]; intros delay.
  - simpl. lia.
  - cbn [Retry.backoff]. unfold Retry.total in *. cbn [fold_right].
    rewrite IH. rewrite Nat2Z.inj_succ, Z.pow_succ_r by lia. lia.
Qed.

Section RetryBounds.

Variable World : Type.
Variable setTimeout : Z -> World -> World.
Variable T : Type.

(** What a call with at least one attempt allowed adds to the trace. *)
Lemma callWithRetry_events (fn : World -> Retry.Outcome T * World)
    (retries delay : Z) (rt : Retry.Runtime World) :
  1 <= retries ->
  exists events,
    Retry.trace (snd (Retry.callWithRetry setTimeout fn retries delay rt))
    = Retry.trace rt ++ events
    /\ (1 <= Retry.attempts events)%nat
    /\ Z.of_nat (Retry.attempts events) <= retries
    /\ Retry.sleeps events
       = Retry.backoff (Retry.attempts events - 1) delay.
Proof.
  intros Hr.
  destruct (retryLoop_ends World setTimeout T fn retries (Z.to_nat retries) 0
              delay Retry.Undefined rt ltac:(lia) ltac:(f_equal; lia))
    as (k & w & tr & Hrun & Hk & _ & Htr & _).
  destruct (rateLimited_trace World setTimeout T fn k delay _ _ tr Hrun)
    as [Hs Ha].
  exists (tr ++ [Retry.Attempt]). split; [exact Htr |].
  rewrite attempts_app, sleeps_app, Hs, Ha. cbn [Retry.attempts Retry.sleeps].
  rewrite app_nil_r. replace (k + 1 - 1)%nat with k by lia.
  repeat split; lia.
Qed.

Lemma rateLimited_rounds (fn : World -> Retry.Outcome T * World) (k : nat)
    (delay : Z) (w w' : World) (tr : list Retry.Event) :
  Retry.rateLimited setTimeout fn k delay w w' tr ->
  tr = Retry.rounds k delay.
Proof.
  induction 1 as [| k delay w w1 w' e tr Hfn He Hrun IH]; [reflexivity |].
  cbn [Retry.rounds]. rewrite IH. reflexivity.
Qed.

(** X1: the operation is called at least once and at most [retries] times.
    What the call does is, in this order: a call of the operation, then,
    for each further call, one wait and that call.  So it waits exactly once
    between two calls, never before the first and never after the last, and
    the waits are the initial delay doubled each time. *)
Theorem callWithRetry_attempts_bounded
    (fn : World -> Retry.Outcome T * World) (retries delay : Z)
    (rt : Retry.Runtime World) :
  1 <= retries ->
  exists (events : list Retry.Event) (k : nat),
    Retry.trace (snd (Retry.callWithRetry setTimeout fn retries delay rt))
    = Retry.trace rt ++ events
    /\ events = Retry.rounds k delay ++ [Retry.Attempt]
    /\ Retry.attempts events = S k
    /\ Z.of_nat (Retry.attempts events) <= retries
    /\ Retry.sleeps events = Retry.backoff k delay
    /\ last events = Some Retry.Attempt.
Proof.
  intros Hr.
  destruct (retryLoop_ends World setTimeout T fn retries (Z.to_nat retries) 0
              delay Retry.Undefined rt ltac:(lia) ltac:(f_equal; lia))
    as (k & w & tr & Hrun & Hk & _ & Htr & _).
  destruct (rateLimited_trace World setTimeout T fn k delay _ _ tr Hrun)
    as [Hs Ha].
  pose proof (rateLimited_rounds fn k delay _ _ tr Hrun) as Hrounds.
  exists (tr ++ [Retry.Attempt]), k. split; [exact Htr |].
  split; [rewrite Hrounds; reflexivity |].
  rewrite attempts_app, sleeps_app, Hs, Ha. cbn [Retry.attempts Retry.sleeps].
  rewrite app_nil_r.
  repeat split; try lia. apply last_snoc.
Qed.

(** X2: with no attempt allowed the operation is not called at all and the call
    rejects with [undefined], the initial value of [lastError]. *)
Theorem callWithRetry_no_attempts
    (fn : World -> Retry.Outcome T * World) (retries delay : Z)
    (rt : Retry.Runtime World) :
  retries <= 0 ->
  Retry.callWithRetry setTimeout fn retries delay rt
  = (Retry.Rejected Retry.Undefined, rt).
Proof.
  intros Hr. unfold Retry.callWithRetry.
  destruct (Z.to_nat retries) as [| n] eqn:E; [reflexivity |].
  cbn [Retry.retryLoop].
  replace (0 <? retries) with false by (symmetry; apply Z.ltb_ge; lia).
  reflexivity.
Qed.

(** X3: the time a call spends waiting is the initial delay times
    [2^(calls - 1) - 1]; with a non-negative delay that is at most the
    initial delay times [2^(retries - 1) - 1]. *)
Theorem callWithRetry_total_wait
    (fn : World -> Retry.Outcome T * World) (retries delay : Z)
    (rt : Retry.Runtime World) :
  1 <= retries ->
  0 <= delay ->
  exists events,
    Retry.trace (snd (Retry.callWithRetry setTimeout fn retries delay rt))
    = Retry.trace rt ++ events
    /\ Retry.total (Retry.sleeps events)
       = delay * (2 ^ (Z.of_nat (Retry.attempts events) - 1) - 1)
    /\ Retry.total (Retry.sleeps events)
       <= delay * (2 ^ (retries - 1) - 1).
Proof.
  intros Hr Hd.
  destruct (callWithRetry_events fn retries delay rt Hr)
    as (events & Htr & Hone & Hmax & Hs).
  exists events. split; [exact Htr |].
  rewrite Hs, total_backoff.
  replace (Z.of_nat (Retry.attempts events - 1))
    with (Z.of_nat (Retry.attempts events) - 1) by lia.
  split; [reflexivity |].
  apply Z.mul_le_mono_nonneg_l; [exact Hd |].
  apply Z.sub_le_mono_r, Z.pow_le_mono_r; lia.
Qed.

End RetryBounds.

Lemma callWithRetry_attempts_bounded_witness :
  1 <= 3
  /\ exists k,
       Retry.trace
         (snd (Retry.callWithRetry noWait
                 (limitedThen 1 (Retry.Resolved "ok"%string)) 3 2000
                 freshRuntime))
       = Retry.trace freshRuntime ++ Retry.rounds k 2000 ++ [Retry.Attempt]
       /\ Z.of_nat (S k) <= 3.
Proof.
  split; [lia |].
  destruct (callWithRetry_attempts_bounded nat noWait string
              (limitedThen 1 (Retry.Resolved "ok"%string)) 3 2000
              freshRuntime ltac:(lia))
    as (events & k & Htr & Hevents & Hk & Hmax & _).
  exists k. rewrite <- Hevents, <- Hk. split; [exact Htr | exact Hmax].
Defined.

Lemma callWithRetry_no_attempts_witness :
  0 <= 0
  /\ Retry.callWithRetry noWait
       (limitedThen 0 (Retry.Resolved "ok"%string)) 0 2000 freshRuntime
     = (Retry.Rejected Retry.Undefined, freshRuntime).
Proof.
  split; [lia |].
  apply (callWithRetry_no_attempts nat noWait string). lia.
Defined.

Lemma callWithRetry_total_wait_witness :
  1 <= 3 /\ 0 <= 2000
  /\ exists events,
       Retry.trace
         (snd (Retry.callWithRetry noWait
                 (limitedThen 5 (Retry.Resolved "ok"%string)) 3 2000
                 freshRuntime))
       = events
       /\ Retry.total (Retry.sleeps events) <= 6000.
Proof.
  split; [lia | split; [lia |]].
  destruct (callWithRetry_total_wait nat noWait string
              (limitedThen 5 (Retry.Resolved "ok"%string)) 3 2000
              freshRuntime ltac:(lia) ltac:(lia))
    as (events & Htr & _ & Hmax).
  exists events. split; [exact Htr | exact Hmax].
Defined.

(** * Further properties of the medicine-details cache *)

Section CacheBounds.

Variable World : Type.
Variable Date_now : World -> Z.
Variable setTimeout : Z -> World -> World.
Variable generateContent :
  string -> World -> Retry.Outcome AiService.GenerateContentResult * World.
Variable JSON_parse : string -> option Json.

Local Abbreviation lookupDetails :=
  (AiService.getMedicineDetails World Date_now setTimeout generateContent
     JSON_parse).
Local Abbreviation askRemote := (fun (medicineName : string)
                                  (this : AiService.Service World) =>
  Retry.callWithRetry setTimeout
    (generateContent (AiService.medicineDetailsPrompt medicineName)) 3 2000
    (AiService.runtime this)).
Local Abbreviation keyOf := (fun medicineName : string =>
  JsString.trim (JsString.toLowerCase medicineName)).

(** After a lookup without a live entry the cache is the old one, or the old
    one with the entry of this name replaced, and the trace is that of the
    remote call. *)
Lemma lookup_miss_state (medicineName : string)
    (this : AiService.Service World) :
  AiService.isMiss World Date_now medicineName this ->
  AiService.runtime (snd (lookupDetails medicineName this))
  = snd (askRemote medicineName this)
  /\ (AiService.medicineCache (snd (lookupDetails medicineName this))
      = AiService.medicineCache this
      \/ exists entry,
           AiService.medicineCache (snd (lookupDetails medicineName this))
           = <[keyOf medicineName := entry]> (AiService.medicineCache this)).
Proof.
  intros Hmiss.
  destruct (askRemote medicineName this) as [o rt] eqn:Hask.
  rewrite (lookup_miss World Date_now setTimeout generateContent JSON_parse
             _ _ _ _ Hmiss Hask).
  destruct o as [res | e]; [| split; [reflexivity | left; reflexivity]].
  destruct (AiService.text res) as [content | e];
    [| split; [reflexivity | left; reflexivity]].
  destruct (String.eqb content EmptyString);
    [split; [reflexivity | left; reflexivity] |].
  destruct (String.eqb (AiService.cleaned content) "null");
    [split; [reflexivity | left; reflexivity] |].
  destruct (JSON_parse (AiService.cleaned content)) as [parsed |];
    [| split; [reflexivity | left; reflexivity]].
  split; [reflexivity | right; eexists; reflexivity].
Qed.

(** X4: a lookup leaves the entries of all other keys as they are, and it never
    removes an entry: the cache has no eviction. *)
Theorem lookup_touches_only_its_key (medicineName : string)
    (this : AiService.Service World) :
  let cache' :=
    AiService.medicineCache (snd (lookupDetails medicineName this)) in
  (forall key : string,
      key <> keyOf medicineName ->
      cache' !! key = AiService.medicineCache this !! key)
  /\ (forall key : string,
        is_Some (AiService.medicineCache this !! key) ->
        is_Some (cache' !! key)).
Proof.
  cbv zeta.
  destruct (hit_or_miss World Date_now medicineName this)
    as [(entry & Hc & Hl) | Hmiss].
  - rewrite (lookup_hit World Date_now setTimeout generateContent JSON_parse
               _ _ _ Hc Hl). split; intros; [reflexivity | assumption].
  - destruct (lookup_miss_state medicineName this Hmiss)
      as [_ [-> | [entry ->]]].
    + split; intros; [reflexivity | assumption].
    + split.
      * intros key Hne. apply lookup_insert_ne. congruence.
      * intros key Hsome.
        destruct (decide (keyOf medicineName = key)) as [<- | Hne].
        -- rewrite lookup_insert_eq. eauto.
        -- rewrite lookup_insert_ne by exact Hne. exact Hsome.
Qed.


(** X6: one lookup calls the remote at most three times and waits at most six
    seconds in all; served from the cache it does neither. *)
Theorem lookup_cost_bounded (medicineName : string)
    (this : AiService.Service World) :
  exists events,
    Retry.trace (AiService.runtime (snd (lookupDetails medicineName this)))
    = Retry.trace (AiService.runtime this) ++ events
    /\ (Retry.attempts events <= 3)%nat
    /\ Retry.total (Retry.sleeps events) <= 6000
    /\ (AiService.isMiss World Date_now medicineName this \/ events = []).
Proof.
  destruct (hit_or_miss World Date_now medicineName this)
    as [(entry & Hc & Hl) | Hmiss].
  - rewrite (lookup_hit World Date_now setTimeout generateContent JSON_parse
               _ _ _ Hc Hl).
    exists []. rewrite app_nil_r. cbn. repeat split; try lia. now right.
  - destruct (lookup_miss_state medicineName this Hmiss) as [-> _].
    destruct (callWithRetry_events World setTimeout _
                (generateContent (AiService.medicineDetailsPrompt medicineName))
                3 2000 (AiService.runtime this) ltac:(lia))
      as (events & Htr & Hone & Hmax & Hs).
    exists events. split; [exact Htr |].
    split; [lia |]. split; [| now left].
    rewrite Hs, total_backoff.
    assert (Hk : (Retry.attempts events - 1 = 0
                  \/ Retry.attempts events - 1 = 1
                  \/ Retry.attempts events - 1 = 2)%nat) by lia.
    destruct Hk as [-> | [-> | ->]]; simpl; lia.
Qed.

End CacheBounds.


(** * Further properties of the classifiers *)

Section ClassifierExtras.

Variable Date_parse : string -> option Z.
Variable LocalTZA : Z.
Variable fetchNearbyPlaces :
  option string -> list Server.Center * option (Q * Q).

Local Abbreviation clientRec := (Client.getRecommendation Date_parse).
Local Abbreviation serverRec :=
  (Server.getDonateDisposeRecommendation Date_parse LocalTZA fetchNearbyPlaces).

(** The page's classifier sets no recommendation exactly when the form has
    no medicine name, or has neither an expiry date nor the not-available
    mark. *)
Theorem page_guard (info : Client.MedicineInfo) (expiryNotAvailable : bool)
    (now : Z) :
  clientRec info expiryNotAvailable now = None
  <-> truthy (Client.name info) = false
      \/ (truthy (Client.expiryDate info) = false
          /\ expiryNotAvailable = false).
Proof.
  unfold Client.getRecommendation.
  destruct (truthy (Client.name info)), (truthy (Client.expiryDate info)),
    expiryNotAvailable; cbn [negb orb andb];
    repeat match goal with
           | |- context [if ?b then _ else _] => destruct b
           end;
    split; try discriminate; try tauto;
    intros [H | [H1 H2]]; discriminate.
Qed.

(** The texts of the six answers are the same on the page and on the
    server. *)
Lemma instructions_follow_table :
  exists table : DecisionTable.Rule -> list string,
    (forall (info : Client.MedicineInfo) (na : bool) (now : Z)
            (r : Client.Recommendation),
        clientRec info na now = Some r ->
        Client.instructions r
        = table (DecisionTable.ofClient Date_parse info na now))
    /\ (forall (body : Server.Body) (info : Server.MedicineInfo)
               (now sentAt : Z) (data : Server.Data),
          Server.medicineInfo body = Some info ->
          serverRec body now sentAt = Server.Json200 data ->
          Server.instructions (Server.resultData data)
          = table (DecisionTable.ofServer Date_parse LocalTZA info now)).
Proof.
  exists (fun rule =>
    let run flag now c t :=
      match Client.getRecommendation (fun _ => Some 0)
              (sampleClientInfo "x" c t) flag now with
      | Some r => Client.instructions r
      | None => []
      end in
    match rule with
    | DecisionTable.ExpiryUnknown => run true 0 Client.unopened Client.otc
    | DecisionTable.Expired => run false 1 Client.unopened Client.otc
    | DecisionTable.Controlled =>
        run false 0 Client.unopened Client.controlled
    | DecisionTable.UnknownType => run false 0 Client.unopened Client.not_sure
    | DecisionTable.NotUnopened => run false 0 Client.opened Client.otc
    | DecisionTable.Eligible => run false 0 Client.unopened Client.otc
    end).
  split.
  - intros info na now r.
    unfold Client.getRecommendation, DecisionTable.ofClient,
      DecisionTable.matched.
    destruct (negb (truthy (Client.name info))
              || negb (truthy (Client.expiryDate info)) && negb na);
      [discriminate |].
    destruct na; simpl negb; cbv iota; [intros [= <-]; reflexivity |].
    destruct (JsDate.lt _ now); [intros [= <-]; reflexivity |].
    destruct (Client.strictEq _ _ Client.controlled);
      [intros [= <-]; reflexivity |].
    destruct (Client.strictEq _ _ Client.not_sure);
      [intros [= <-]; reflexivity |].
    destruct (Client.strictEq _ _ Client.unopened);
      intros [= <-]; reflexivity.
  - intros body info now sentAt data Hi.
    unfold Server.getDonateDisposeRecommendation, DecisionTable.ofServer,
      DecisionTable.matched. rewrite Hi.
    destruct (Server.expiryNotAvailable info); simpl negb; cbv iota;
      [intros [= <-]; reflexivity |].
    destruct (Server.checkExpiry _ _ _ _); [intros [= <-]; reflexivity |].
    destruct (Server.strictEq (Server.medicineType info) "controlled");
      [intros [= <-]; reflexivity |].
    destruct (Server.strictEq (Server.medicineType info) "not-sure");
      [intros [= <-]; reflexivity |].
    destruct (Server.strictEq (Server.condition info) "unopened"); simpl negb;
      cbv iota; [| intros [= <-]; reflexivity].
    destruct (fetchNearbyPlaces (Server.location body)) as [centers geocoded].
    intros [= <-]. reflexivity.
Qed.

Lemma form_type_is (x : option Client.MedicineType) (t : Client.MedicineType) :
  Server.strictEq (option_map Form.medicineTypeText x) (Form.medicineTypeText t)
  = Client.strictEq Client.MedicineType_eqb x t.
Proof. destruct x as [[] |], t; reflexivity. Qed.

Lemma form_condition_is (x : option Client.Condition) (c : Client.Condition) :
  Server.strictEq (option_map Form.conditionText x) (Form.conditionText c)
  = Client.strictEq Client.Condition_eqb x c.
Proof. destruct x as [[] |], c; reflexivity. Qed.

(** The server sees the form in the rule the page sees it in whenever the
    two expiry checks agree. *)
Lemma form_same_rule (info : Client.MedicineInfo) (na : bool) (now : Z) :
  na = true
  \/ JsDate.lt (Client.newDate Date_parse (Client.expiryDate info)) now
     = Server.checkExpiry Date_parse LocalTZA (Client.expiryDate info) now ->
  DecisionTable.ofServer Date_parse LocalTZA
    {| Server.expiryDate := Client.expiryDate info;
       Server.condition :=
         option_map Form.conditionText (Client.condition info);
       Server.medicineType :=
         option_map Form.medicineTypeText (Client.medicineType info);
       Server.expiryNotAvailable := na |} now
  = DecisionTable.ofClient Date_parse info na now.
Proof.
  intros Hagree. unfold DecisionTable.ofServer, DecisionTable.ofClient.
  cbn [Server.expiryDate Server.condition Server.medicineType
       Server.expiryNotAvailable].
  rewrite (form_type_is _ Client.controlled), (form_type_is _ Client.not_sure),
    (form_condition_is _ Client.unopened).
  destruct Hagree as [-> | ->]; reflexivity.
Qed.

Lemma client_guard_passed (info : Client.MedicineInfo) (na : bool) (now : Z)
    (r : Client.Recommendation) :
  clientRec info na now = Some r ->
  truthy (Client.name info) = true
  /\ (truthy (Client.expiryDate info) = true \/ na = true).
Proof.
  unfold Client.getRecommendation.
  destruct (truthy (Client.name info)), (truthy (Client.expiryDate info)), na;
    cbn [negb orb andb]; try discriminate; auto.
Qed.

(** The two expiry checks agree on a date-only expiry that is not on today's
    local day, in a zone at or east of UTC and less than a day ahead. *)
Lemma checks_agree_off_today (s : string) (d now : Z) :
  truthy (Some s) = true ->
  Date_parse s = Some (d * JsDate.msPerDay) ->
  d <> JsDate.localDay LocalTZA now ->
  0 <= LocalTZA < JsDate.msPerDay ->
  JsDate.lt (Client.newDate Date_parse (Some s)) now
  = Server.checkExpiry Date_parse LocalTZA (Some s) now.
Proof.
  intros Ht Hp Hd Hz. unfold Client.newDate, Server.checkExpiry.
  rewrite Ht, Hp. cbn [JsDate.lt].
  unfold JsDate.setHours0, JsDate.localDay, JsDate.msPerDay in *.
  pose proof (Z.mul_div_le (now + LocalTZA) 86400000 ltac:(lia)) as Hlo.
  pose proof (Z.mul_succ_div_gt (now + LocalTZA) 86400000 ltac:(lia)) as Hhi.
  set (q := (now + LocalTZA) / 86400000) in *.
  destruct (Z.ltb_spec (d * 86400000) now),
    (Z.ltb_spec (d * 86400000) (q * 86400000 - LocalTZA));
    try reflexivity; exfalso; lia.
Qed.

(** X7: sent to the server, a form that the page classifies gets the same
    verdict, reasoning and instructions from the server, provided the expiry
    date is marked not available or the two expiry checks agree.  They agree
    for a date-only expiry on any day other than today, in a zone at or east
    of UTC and less than a day ahead of it. *)
Theorem page_and_server_agree (info : Client.MedicineInfo) (na : bool)
    (location : option string) (now sentAt : Z) (r : Client.Recommendation) :
  clientRec info na now = Some r ->
  (na = true
   \/ JsDate.lt (Client.newDate Date_parse (Client.expiryDate info)) now
      = Server.checkExpiry Date_parse LocalTZA (Client.expiryDate info) now
   \/ (exists s d,
         Client.expiryDate info = Some s
         /\ Date_parse s = Some (d * JsDate.msPerDay)
         /\ d <> JsDate.localDay LocalTZA now
         /\ 0 <= LocalTZA < JsDate.msPerDay)) ->
  exists data,
    serverRec (Form.toRequest info na location) now sentAt
    = Server.Json200 data
    /\ Server.recommendation data
       = DecisionTable.label (Client.recommendation r)
    /\ Server.reasoning data = Client.reasoning r
    /\ Server.instructions (Server.resultData data) = Client.instructions r.
Proof.
  intros Hr Hagree.
  destruct (client_guard_passed _ _ _ _ Hr) as [_ Hguard].
  assert (Hagree' :
    na = true
    \/ JsDate.lt (Client.newDate Date_parse (Client.expiryDate info)) now
       = Server.checkExpiry Date_parse LocalTZA (Client.expiryDate info) now).
  { destruct Hagree as [H | [H | (s & d & Hs & Hp & Hd & Hz)]];
      [now left | now right |].
    destruct Hguard as [Ht | Hna]; [right | now left].
    rewrite Hs in Ht |- *. now apply (checks_agree_off_today s d). }
  pose proof (form_same_rule info na now Hagree') as Hrule.
  set (sinfo := {| Server.expiryDate := Client.expiryDate info;
                   Server.condition :=
                     option_map Form.conditionText (Client.condition info);
                   Server.medicineType :=
                     option_map Form.medicineTypeText
                       (Client.medicineType info);
                   Server.expiryNotAvailable := na |}) in *.
  assert (Hi : Server.medicineInfo (Form.toRequest info na location)
               = Some sinfo) by reflexivity.
  destruct (server_responds Date_parse LocalTZA fetchNearbyPlaces
              _ sinfo now sentAt Hi) as [data [Hdata _]].
  exists data. split; [exact Hdata |].
  destruct (server_follows_table Date_parse LocalTZA fetchNearbyPlaces
              _ _ _ _ _ Hi Hdata) as [Hk Ht].
  destruct (client_follows_table Date_parse _ _ _ _ Hr) as [Hck Hct].
  destruct instructions_follow_table as (table & Hci & Hsi).
  rewrite Hk, Ht, Hck, Hct, (Hci _ _ _ _ Hr), (Hsi _ _ _ _ _ Hi Hdata), Hrule.
  repeat split; reflexivity.
Qed.

(** X8: a Donate answer of the server always lists at least one center: the
    centers found, or the two mock centers when none was found; the source is
    [Mock Data] exactly in the second case.  No other answer lists
    centers. *)
Theorem donate_answer_lists_centers (body : Server.Body) (now sentAt : Z)
    (data : Server.Data) :
  serverRec body now sentAt = Server.Json200 data ->
  match Server.donation (Server.resultData data) with
  | Some d =>
      Server.recommendation data = "Donate"%string
      /\ Server.nearbyCenters d <> []
      /\ Server.geocodedCenter d
         = snd (fetchNearbyPlaces (Server.location body))
      /\ (fst (fetchNearbyPlaces (Server.location body)) = []
          -> Server.nearbyCenters d = Server.MOCK_CENTERS
             /\ Server.source d = "Mock Data"%string)
      /\ (fst (fetchNearbyPlaces (Server.location body)) <> []
          -> Server.nearbyCenters d
             = fst (fetchNearbyPlaces (Server.location body))
             /\ Server.source d = "OpenStreetMap"%string)
  | None => Server.recommendation data <> "Donate"%string
  end.
Proof.
  unfold Server.getDonateDisposeRecommendation.
  destruct (Server.medicineInfo body) as [info |]; [| discriminate].
  destruct (Server.expiryNotAvailable info);
    [intros [= <-]; cbn; discriminate |].
  destruct (Server.checkExpiry _ _ _ _); [intros [= <-]; cbn; discriminate |].
  destruct (Server.strictEq (Server.medicineType info) "controlled");
    [intros [= <-]; cbn; discriminate |].
  destruct (Server.strictEq (Server.medicineType info) "not-sure");
    [intros [= <-]; cbn; discriminate |].
  destruct (Server.strictEq (Server.condition info) "unopened"); simpl negb;
    cbv iota; [| intros [= <-]; cbn; discriminate].
  destruct (fetchNearbyPlaces (Server.location body)) as [centers geocoded].
  intros [= <-].
  cbn [Server.resultData Server.donation Server.recommendation
       Server.nearbyCenters Server.geocodedCenter Server.source fst snd].
  destruct centers as [| c centers]; cbn [length Nat.eqb].
  - repeat split; try discriminate; congruence.
  - repeat split; try discriminate; congruence.
Qed.

(** X9: the disposal guidelines are attached to an answer of the server exactly
    when the answer is Dispose. *)
Theorem guidelines_iff_dispose (body : Server.Body) (now sentAt : Z)
    (data : Server.Data) :
  serverRec body now sentAt = Server.Json200 data ->
  (Server.guidelines (Server.resultData data)
   = Some Server.DISPOSAL_GUIDELINES
   <-> Server.recommendation data = "Dispose"%string)
  /\ (Server.guidelines (Server.resultData data) = None
      <-> Server.recommendation data <> "Dispose"%string).
Proof.
  unfold Server.getDonateDisposeRecommendation.
  destruct (Server.medicineInfo body) as [info |]; [| discriminate].
  destruct (Server.expiryNotAvailable info);
    [intros [= <-]; cbn; repeat split; congruence |].
  destruct (Server.checkExpiry _ _ _ _);
    [intros [= <-]; cbn; repeat split; congruence |].
  destruct (Server.strictEq (Server.medicineType info) "controlled");
    [intros [= <-]; cbn; repeat split; congruence |].
  destruct (Server.strictEq (Server.medicineType info) "not-sure");
    [intros [= <-]; cbn; repeat split; congruence |].
  destruct (Server.strictEq (Server.condition info) "unopened"); simpl negb;
    cbv iota; [| intros [= <-]; cbn; repeat split; congruence].
  destruct (fetchNearbyPlaces (Server.location body)) as [centers geocoded].
  intros [= <-]. cbn. repeat split; congruence.
Qed.

End ClassifierExtras.

(** * Ranking a ranked list *)

Lemma filter_twice {A : Type} (keep : A -> bool) (l : list A) :
  List.filter keep (List.filter keep l) = List.filter keep l.
Proof.
  induction l as [| x l IH]; [reflexivity |].
  cbn [List.filter]. destruct (keep x) eqn:E; [| exact IH].
  cbn [List.filter]. rewrite E, IH. reflexivity.
Qed.

Section RankingTwice.

Import Binary64.

Variables Math_sin Math_cos : float -> float.
Variable Math_atan2 : float -> float -> float.
Variable Array_sort :
  (Ranking.DonationCenter -> Ranking.DonationCenter -> Sign)
  -> list Ranking.DonationCenter -> list Ranking.DonationCenter.

Hypothesis Array_sort_sorts :
  forall compare l, Ranking.sorts compare l (Array_sort compare l).

Variables lat0 lon0 : float.

Local Abbreviation km := (fun c : Ranking.DonationCenter =>
  Ranking.haversineKm Math_sin Math_cos Math_atan2 lat0 lon0
    (Ranking.lat (Ranking.coordinates c))
    (Ranking.lng (Ranking.coordinates c))).
Local Abbreviation read :=
  (Ranking.distanceTo Math_sin Math_cos Math_atan2 lat0 lon0).
Local Abbreviation within :=
  (Ranking.withinRadius Math_sin Math_cos Math_atan2 lat0 lon0).
Local Abbreviation ranked :=
  (Ranking.sortedCenters Math_sin Math_cos Math_atan2 Array_sort lat0 lon0).
Local Abbreviation key :=
  (fun c : Ranking.DonationCenter => valueOf (read c)).

Lemma ranked_again (centers : list Ranking.DonationCenter) :
  (forall c, In c centers -> exists q, classify (km c) = Finite q) ->
  ranked (ranked centers) = ranked centers.
Proof.
  intros Hfinite.
  assert (Hkept : forall c, In c (ranked centers) ->
                    exists q, classify (km c) = Finite q).
  { intros c Hc. apply Hfinite.
    exact (ranked_In_centers _ _ _ _ Array_sort_sorts _ _ _ c Hc). }
  rewrite (ranked_stable _ _ _ _ Array_sort_sorts _ _ _ Hkept).
  rewrite (ranked_stable _ _ _ _ Array_sort_sorts _ _ _ Hfinite).
  rewrite sort_of_sorted by apply filter_sorted, sort_sorted.
  apply filter_twice.
Qed.

(** X11: ranking a list that was ranked around the same point changes nothing
    when every distance is a finite number.  A facility whose distance is
    [NaN] can leave the others out of order, so that ranking again does
    change the list; it is dropped by the first ranking, so that from the
    second ranking on nothing changes any more, as long as no distance is
    minus infinity. *)
Theorem ranking_is_idempotent (centers : list Ranking.DonationCenter) :
  ((forall c, In c centers -> exists q, classify (km c) = Finite q) ->
   ranked (ranked centers) = ranked centers)
  /\ ((forall c, In c centers -> classify (km c) <> Infinity true) ->
      ranked (ranked (ranked centers)) = ranked (ranked centers)).
Proof.
  split; [apply ranked_again |].
  intros Hinf. apply ranked_again. intros c Hc.
  apply (ranked_In _ _ _ _ Array_sort_sorts) in Hc as [Hc Hwithin].
  apply withinRadius_km in Hwithin. specialize (Hinf c Hc).
  destruct (classify (km c)) as [| negative | q];
    [contradiction | subst; contradiction | eauto].
Qed.

End RankingTwice.

Lemma ranking_is_idempotent_witness :
  sampleRanked (sampleRanked [farCenter; midCenter; nearCenter])
  = sampleRanked [farCenter; midCenter; nearCenter]
  /\ sampleRanked
       (sampleRanked (sampleRanked [midCenter; antipodeCenter; nearCenter]))
     = sampleRanked (sampleRanked [midCenter; antipodeCenter; nearCenter])
  /\ sampleRanked (sampleRanked [midCenter; antipodeCenter; nearCenter])
     <> sampleRanked [midCenter; antipodeCenter; nearCenter].
Proof.
  split; [| split].
  - apply (proj1 (ranking_is_idempotent sampleSin sampleCos sampleAtan2
                    sampleSort (sort_sorts Ranking.DonationCenter) 12 77
                    [farCenter; midCenter; nearCenter])).
    exact sample_distances_finite.
  - apply (proj2 (ranking_is_idempotent sampleSin sampleCos sampleAtan2
                    sampleSort (sort_sorts Ranking.DonationCenter) 12 77
                    [midCenter; antipodeCenter; nearCenter])).
    intros c [<- | [<- | [<- | []]]]; vm_compute; discriminate.
  - vm_compute. intros H. inversion H.
Defined.

(** * Properties of the OTC routes *)

Lemma In_firstn {A : Type} (n : nat) (l : list A) (x : A) :
  In x (firstn n l) -> In x l.
Proof.
  intros H. rewrite <- (firstn_skipn n l). apply in_or_app. now left.
Qed.

Lemma firstn_filter_complete {A : Type} (n : nat) (keep : A -> bool)
    (l : list A) (x : A) :
  In x l -> keep x = true -> ~ In x (firstn n (List.filter keep l)) ->
  List.length (firstn n (List.filter keep l)) = n.
Proof.
  intros Hin Hkeep Hout.
  assert (Hx : In x (List.filter keep l)) by (apply filter_In; auto).
  destruct (Nat.le_gt_cases n (List.length (List.filter keep l))) as [H | H].
  - rewrite length_firstn. lia.
  - rewrite firstn_all2 in Hout by lia. contradiction.
Qed.

(** X12: at most ten suggestions are returned.  Each is a medicine of the list
    whose name contains the query, case ignored, and they come in the order
    of that list; a matching medicine is left out only when ten are
    returned.  An absent, empty or non-string query gets an empty list and no
    total. *)
Theorem suggestions_are_first_ten_matches (query : OtcRoutes.QueryParam) :
  let answer := OtcRoutes.getOTCSuggestions query in
  (List.length (OtcRoutes.suggestions answer) <= 10)%nat
  /\ (forall med, In med (OtcRoutes.suggestions answer) ->
        In med OtcRoutes.COMMON_MEDICINES
        /\ exists q, query = OtcRoutes.Text q
             /\ Retry.includes (JsString.toLowerCase med)
                  (JsString.toLowerCase q) = true)
  /\ (exists rest,
        OtcRoutes.suggestions answer ++ rest
        = List.filter
            (fun med =>
               match query with
               | OtcRoutes.Text q =>
                   Retry.includes (JsString.toLowerCase med)
                     (JsString.toLowerCase q)
               | _ => false
               end) OtcRoutes.COMMON_MEDICINES
        \/ OtcRoutes.invalid query = true)
  /\ (forall q med,
        query = OtcRoutes.Text q -> q <> EmptyString ->
        In med OtcRoutes.COMMON_MEDICINES ->
        Retry.includes (JsString.toLowerCase med) (JsString.toLowerCase q)
        = true ->
        ~ In med (OtcRoutes.suggestions answer) ->
        List.length (OtcRoutes.suggestions answer) = 10%nat)
  /\ (OtcRoutes.invalid query = true ->
      answer = {| OtcRoutes.suggestions := []; OtcRoutes.total := None |})
  /\ (OtcRoutes.invalid query = false ->
      OtcRoutes.total answer
      = Some (List.length (OtcRoutes.suggestions answer))).
Proof.
  cbv zeta. destruct query as [| q |].
  - cbn. repeat split; try lia; try contradiction; try discriminate.
    exists []. now right.
  - destruct q as [| c q'].
    + cbn. repeat split; try lia; try contradiction; try discriminate.
      * exists []. now right.
      * intros q med [= <-] Hq. now contradiction Hq.
    + set (q := String c q').
      change (OtcRoutes.getOTCSuggestions (OtcRoutes.Text q))
        with {| OtcRoutes.suggestions :=
                  firstn 10
                    (List.filter
                       (fun med =>
                          Retry.includes (JsString.toLowerCase med)
                            (JsString.toLowerCase q))
                       OtcRoutes.COMMON_MEDICINES);
                OtcRoutes.total :=
                  Some (List.length
                          (firstn 10
                             (List.filter
                                (fun med =>
                                   Retry.includes (JsString.toLowerCase med)
                                     (JsString.toLowerCase q))
                                OtcRoutes.COMMON_MEDICINES))) |}.
      cbn [OtcRoutes.suggestions OtcRoutes.total].
      split; [apply firstn_le_length |].
      split.
      { intros med Hin.
        apply In_firstn in Hin. apply filter_In in Hin.
        destruct Hin as [Hin Hm]. split; [exact Hin |]. exists q. auto. }
      split.
      { eexists. left. apply firstn_skipn. }
      split.
      { intros q0 med [= <-] _ Hin Hm Hout.
        exact (firstn_filter_complete 10 _ _ med Hin Hm Hout). }
      split; [discriminate | reflexivity].
  - cbn. repeat split; try lia; try contradiction; try discriminate.
    exists []. now right.
Qed.

Lemma sublist_filter_stdlib {A : Type} (keep : A -> bool) (l : list A) :
  sublist (List.filter keep l) l.
Proof.
  induction l as [| x l IH]; simpl; [constructor |].
  destruct (keep x); [now apply sublist_skip | now apply sublist_cons].
Qed.

Lemma filterMocks_falsy (q : string) (ai : Json)
    (table : list OtcRoutes.Medicine) :
  OtcRoutes.truthyJson ai = false ->
  OtcRoutes.filterMocks q ai table
  = Some (List.filter (OtcRoutes.matchesQuery q) table).
Proof.
  intros Hf. induction table as [| med rest IH]; [reflexivity |].
  cbn [OtcRoutes.filterMocks List.filter].
  destruct (OtcRoutes.matchesQuery q med); [| exact IH].
  rewrite Hf, IH. reflexivity.
Qed.

Lemma filterMocks_named (q : string) (ai : Json) (aiName : string)
    (table : list OtcRoutes.Medicine) :
  OtcRoutes.truthyJson ai = true ->
  OtcRoutes.prop ai "name" = Some (JStr aiName) ->
  OtcRoutes.filterMocks q ai table
  = Some (List.filter
            (fun med =>
               OtcRoutes.matchesQuery q med
               && negb (String.eqb
                          (JsString.toLowerCase (OtcRoutes.name med))
                          (JsString.toLowerCase aiName))) table).
Proof.
  intros Ht Hn. induction table as [| med rest IH]; [reflexivity |].
  cbn [OtcRoutes.filterMocks List.filter].
  destruct (OtcRoutes.matchesQuery q med); [| exact IH].
  rewrite Ht, Hn, IH. cbn [negb andb].
  destruct (String.eqb _ _); reflexivity.
Qed.

Lemma filterMocks_unnamed (q : string) (ai : Json)
    (table : list OtcRoutes.Medicine) :
  OtcRoutes.truthyJson ai = true ->
  (forall s, OtcRoutes.prop ai "name" <> Some (JStr s)) ->
  OtcRoutes.filterMocks q ai table
  = if existsb (OtcRoutes.matchesQuery q) table then None else Some [].
Proof.
  intros Ht Hn. induction table as [| med rest IH]; [reflexivity |].
  cbn [OtcRoutes.filterMocks existsb].
  destruct (OtcRoutes.matchesQuery q med); [| exact IH].
  rewrite Ht. cbn [negb orb].
  destruct (OtcRoutes.prop ai "name") as [[| | | s | |] |]; try reflexivity.
  now contradiction (Hn s).
Qed.

Section SearchFacts.

Variable World : Type.
Variable Date_now : World -> Z.
Variable setTimeout : Z -> World -> World.
Variable generateContent :
  string -> World -> Retry.Outcome AiService.GenerateContentResult * World.
Variable JSON_parse : string -> option Json.
Variable typeErrorMessage : string.

Local Abbreviation search :=
  (OtcRoutes.searchOTCMedicines World Date_now setTimeout generateContent
     JSON_parse typeErrorMessage).
Local Abbreviation lookupDetails :=
  (AiService.getMedicineDetails World Date_now setTimeout generateContent
     JSON_parse).

(** An absent, empty or non-string query is answered with a 400; the AI
    service is not asked and its cache stays as it is. *)
Theorem search_rejects_invalid_query (query : OtcRoutes.QueryParam)
    (aiService : AiService.Service World) :
  OtcRoutes.invalid query = true ->
  search query aiService
  = (OtcRoutes.Status400 "Invalid search query"
       "Please provide a search term", aiService).
Proof.
  destruct query as [| [| c q] |]; try reflexivity. discriminate.
Qed.

(** The answer to a valid query, by what the lookup returned. *)
Lemma search_valid (q : string) (aiService : AiService.Service World) :
  q <> EmptyString ->
  search (OtcRoutes.Text q) aiService
  = let aiResult := fst (lookupDetails q aiService) in
    let results :=
      if OtcRoutes.truthyJson aiResult then [OtcRoutes.aiEntry aiResult]
      else [] in
    match OtcRoutes.filterMocks q aiResult OtcRoutes.mockTable with
    | Some mockResults =>
        (OtcRoutes.Json200 (results ++ map OtcRoutes.FromMock mockResults) q
           (List.length (results ++ map OtcRoutes.FromMock mockResults)),
         snd (lookupDetails q aiService))
    | None =>
        (OtcRoutes.Status500 "Search failed" typeErrorMessage,
         snd (lookupDetails q aiService))
    end.
Proof.
  intros Hq. destruct q as [| c q']; [now contradiction Hq |].
  unfold OtcRoutes.searchOTCMedicines. cbn [OtcRoutes.invalid truthy negb].
  destruct (lookupDetails (String c q') aiService) as [aiResult aiService'].
  reflexivity.
Qed.

(** X13: a successful search lists the AI result first when there is one, then
    mock entries in table order.  Every mock entry listed contains the query
    in its name or category, case ignored, and does not have the name of the
    AI result; every such mock entry is listed.  The total is the number of
    entries. *)
Theorem search_lists_ai_result_then_mocks (q : string)
    (aiService : AiService.Service World)
    (results : list OtcRoutes.ResultEntry) (query : string) (total : nat) :
  q <> EmptyString ->
  fst (search (OtcRoutes.Text q) aiService)
  = OtcRoutes.Json200 results query total ->
  let aiResult := fst (lookupDetails q aiService) in
  query = q
  /\ total = List.length results
  /\ exists mocks,
       results
       = (if OtcRoutes.truthyJson aiResult
          then [OtcRoutes.aiEntry aiResult] else [])
         ++ map OtcRoutes.FromMock mocks
       /\ (forall med,
             In med mocks
             <-> In med OtcRoutes.mockTable
                 /\ OtcRoutes.matchesQuery q med = true
                 /\ (OtcRoutes.truthyJson aiResult = true ->
                     exists aiName,
                       OtcRoutes.prop aiResult "name" = Some (JStr aiName)
                       /\ JsString.toLowerCase (OtcRoutes.name med)
                          <> JsString.toLowerCase aiName))
       /\ sublist mocks OtcRoutes.mockTable.
Proof.
  intros Hq. rewrite (search_valid q aiService Hq). cbv zeta.
  set (aiResult := fst (lookupDetails q aiService)).
  destruct (OtcRoutes.truthyJson aiResult) eqn:Ht.
  - destruct (OtcRoutes.prop aiResult "name") as [v |] eqn:Hn.
    2:{ rewrite (filterMocks_unnamed q aiResult _ Ht)
          by (intros s; rewrite Hn; discriminate).
        destruct (existsb _ _) eqn:He; [discriminate |].
        intros [= <- <- <-]. split; [reflexivity | split; [reflexivity |]].
        exists []. split; [reflexivity |]. split.
        - intros med. split; [contradiction |].
          intros (_ & _ & Hname). destruct (Hname eq_refl) as (n & Hc & _).
          discriminate Hc.
        - apply sublist_nil_l. }
    destruct v as [| b | n | aiName | items | fields].
    4:{ rewrite (filterMocks_named q aiResult aiName _ Ht Hn).
        intros [= <- <- <-]. split; [reflexivity | split; [reflexivity |]].
        exists (List.filter
                  (fun med =>
                     OtcRoutes.matchesQuery q med
                     && negb (String.eqb
                                (JsString.toLowerCase (OtcRoutes.name med))
                                (JsString.toLowerCase aiName)))
                  OtcRoutes.mockTable).
        split; [reflexivity |]. split.
        - intros med. rewrite filter_In, andb_true_iff, negb_true_iff,
            String.eqb_neq. split.
          + intros (Hin & Hm & Hne). repeat split; try assumption.
            intros _. exists aiName. split; [reflexivity | exact Hne].
          + intros (Hin & Hm & Hname).
            destruct (Hname eq_refl) as (n & [= <-] & Hne). auto.
        - apply sublist_filter_stdlib. }
    all: rewrite (filterMocks_unnamed q aiResult _ Ht)
           by (intros s; rewrite Hn; discriminate);
         destruct (existsb _ _) eqn:He; [discriminate |];
         intros [= <- <- <-]; (split; [reflexivity | split; [reflexivity |]]);
         exists []; (split; [reflexivity |]); split;
         [ intros med; split; [contradiction |];
           intros (_ & _ & Hname); destruct (Hname eq_refl) as (s & Hc & _);
           discriminate Hc
         | apply sublist_nil_l ].
  - rewrite (filterMocks_falsy q aiResult _ Ht).
    intros [= <- <- <-]. split; [reflexivity | split; [reflexivity |]].
    exists (List.filter (OtcRoutes.matchesQuery q) OtcRoutes.mockTable).
    split; [reflexivity |]. split.
    + intros med. rewrite filter_In. split.
      * intros [Hin Hm]. repeat split; try assumption. discriminate.
      * intros (Hin & Hm & _). auto.
    + apply sublist_filter_stdlib.
Qed.

(** X14: when the lookup returns a truthy value without a string [name] (any
    parsed answer is stored and returned, whatever its shape), the search
    fails with a 500 as soon as one mock entry matches the query: comparing
    names throws.  When no mock entry matches, the search succeeds with the
    AI entry alone. *)
Theorem search_fails_on_unnamed_result (q : string)
    (aiService : AiService.Service World) :
  q <> EmptyString ->
  OtcRoutes.truthyJson (fst (lookupDetails q aiService)) = true ->
  (forall s, OtcRoutes.prop (fst (lookupDetails q aiService)) "name"
             <> Some (JStr s)) ->
  (existsb (OtcRoutes.matchesQuery q) OtcRoutes.mockTable = true ->
   fst (search (OtcRoutes.Text q) aiService)
   = OtcRoutes.Status500 "Search failed" typeErrorMessage)
  /\ (existsb (OtcRoutes.matchesQuery q) OtcRoutes.mockTable = false ->
      fst (search (OtcRoutes.Text q) aiService)
      = OtcRoutes.Json200
          [OtcRoutes.aiEntry (fst (lookupDetails q aiService))] q 1).
Proof.
  intros Hq Ht Hn. rewrite (search_valid q aiService Hq). cbv zeta.
  rewrite (filterMocks_unnamed q _ _ Ht Hn), Ht.
  split; intros ->; reflexivity.
Qed.

(** X15: when the lookup falls back (no live entry, and the remote call fails or
    its text is empty or does not parse), the search still succeeds: it
    lists the placeholder entry named after the query, then the mock entries
    that match the query, except a mock entry whose name is the query, case
    ignored; that one is hidden by the placeholder. *)
Theorem search_after_failed_lookup (q : string)
    (aiService : AiService.Service World)
    (o : Retry.Outcome AiService.GenerateContentResult)
    (rt : Retry.Runtime World) :
  q <> EmptyString ->
  AiService.isMiss World Date_now q aiService ->
  Retry.callWithRetry setTimeout
    (generateContent (AiService.medicineDetailsPrompt q)) 3 2000
    (AiService.runtime aiService) = (o, rt) ->
  AiService.failedAnswer JSON_parse o ->
  let mocks :=
    List.filter
      (fun med =>
         OtcRoutes.matchesQuery q med
         && negb (String.eqb (JsString.toLowerCase (OtcRoutes.name med))
                    (JsString.toLowerCase q))) OtcRoutes.mockTable in
  search (OtcRoutes.Text q) aiService
  = (OtcRoutes.Json200
       (OtcRoutes.FromAI (Some (JStr q)) (Some (JStr "Unknown"))
          (Some (JStr "Details currently unavailable"))
          (Some (JStr "Consult a healthcare provider"))
          (Some (JArr [JStr "Consult a doctor before use"]))
          (Some (JArr [])) (Some (JArr []))
        :: map OtcRoutes.FromMock mocks) q (S (List.length mocks)),
     AiService.Build_Service (AiService.medicineCache aiService) rt).
Proof.
  intros Hq Hmiss Hask Hfail mocks.
  assert (Hlookup :
    lookupDetails q aiService
    = (AiService.createFallbackMedicineDetails q,
       AiService.Build_Service (AiService.medicineCache aiService) rt)).
  { rewrite (lookup_miss World Date_now setTimeout generateContent JSON_parse
               _ _ _ _ Hmiss Hask).
    unfold AiService.failedAnswer in Hfail.
    destruct o as [res | e]; [| reflexivity].
    destruct (AiService.text res) as [content | e]; [| reflexivity].
    destruct Hfail as [-> | [Hnull Hp]]; [reflexivity |].
    destruct (String.eqb content EmptyString); [reflexivity |].
    apply String.eqb_neq in Hnull. rewrite Hnull, Hp. reflexivity. }
  rewrite (search_valid q aiService Hq), Hlookup. cbv zeta. cbn [fst snd].
  rewrite (filterMocks_named q (AiService.createFallbackMedicineDetails q) q
             _ eq_refl eq_refl).
  cbn [OtcRoutes.truthyJson AiService.createFallbackMedicineDetails app
       List.length].
  rewrite List.length_map. reflexivity.
Qed.

End SearchFacts.

(** * Properties of the chat routes *)

Lemma append_assoc_string (a b c : string) :
  String.append (String.append a b) c = String.append a (String.append b c).
Proof.
  induction a as [| x a IH]; [reflexivity |].
  rewrite !append_cons, IH. reflexivity.
Qed.

(** Whatever contains [cold] contains [old]. *)
Lemma includes_cold_old (hay : string) :
  Retry.includes hay "cold" = true -> Retry.includes hay "old" = true.
Proof.
  intros H. apply includes_substring in H as (pre & post & ->).
  apply includes_substring. exists (String.append pre "c"), post.
  rewrite append_assoc_string. reflexivity.
Qed.

Lemma firstGroup_default (message : string)
    (groups : list (list string * list string)) :
  (forall keywords suggestions k,
      In (keywords, suggestions) groups -> In k keywords ->
      Retry.includes message k = false) ->
  Chat.firstGroup message groups = Chat.defaultSuggestions.
Proof.
  induction groups as [| [keywords suggestions] rest IH]; intros Hnone;
    [reflexivity |].
  cbn [Chat.firstGroup].
  destruct (existsb _ keywords) eqn:E.
  - apply existsb_exists in E as (k & Hin & Hk).
    rewrite (Hnone keywords suggestions k (or_introl eq_refl) Hin) in Hk.
    discriminate Hk.
  - apply IH. intros kw sg k Hg Hk. exact (Hnone kw sg k (or_intror Hg) Hk).
Qed.

Lemma existsb_includes (message : string) (keywords : list string) :
  existsb (fun k => Retry.includes message k) keywords = true
  <-> exists k, In k keywords /\ Retry.includes message k = true.
Proof. apply existsb_exists. Qed.

Lemma existsb_includes_false (message : string) (keywords : list string) :
  ~ (exists k, In k keywords /\ Retry.includes message k = true) ->
  existsb (fun k => Retry.includes message k) keywords = false.
Proof.
  intros H. destruct (existsb _ keywords) eqn:E; [| reflexivity].
  apply existsb_includes in E. contradiction.
Qed.

(** X16: the suggestions are those of the first of the five keyword groups,
    in the order prescription, disposal, pain, greeting, reaction, that has
    a keyword inside the lower-cased message; a message without any keyword
    gets the four default suggestions.  The keyword [cold] of the pain group
    can never decide: a message that contains it contains the keyword [old]
    of the disposal group, which comes first, so it gets the prescription or
    the disposal suggestions.  The context is not used. *)
Theorem suggestions_of_first_group (userMessage context : string) :
  let has := fun keywords : list string =>
    exists k, In k keywords
              /\ Retry.includes (JsString.toLowerCase userMessage) k = true in
  let prescription := ["prescription"; "report"; "doctor"; "analyze"]%string in
  let disposal :=
    ["expired"; "dispose"; "medicine"; "old"; "throw"]%string in
  let pain := ["pain"; "headache"; "fever"; "cold"; "flu"]%string in
  let greeting := ["hi"; "hello"; "hey"; "start"; "help"]%string in
  let reaction := ["side effect"; "allergic"; "reaction"]%string in
  let answer := Chat.generateSuggestions userMessage context in
  (has prescription ->
   answer = ["Upload a prescription"; "Understand blood report";
             "What is a dosage?"]%string)
  /\ (~ has prescription -> has disposal ->
      answer = ["Find disposal centers"; "Can I donate old medicine?";
                "Disposal guidelines"]%string)
  /\ (~ has prescription -> ~ has disposal -> has pain ->
      answer = ["OTC recommendations"; "When to see a doctor?";
                "Home remedies for fever"]%string)
  /\ (~ has prescription -> ~ has disposal -> ~ has pain -> has greeting ->
      answer = ["How can you help me?"; "Check medicine expiry";
                "Analyze prescription"]%string)
  /\ (~ has prescription -> ~ has disposal -> ~ has pain -> ~ has greeting ->
      has reaction ->
      answer = ["Check drug interactions"; "Common side effects";
                "Allergy information"]%string)
  /\ (~ has prescription -> ~ has disposal -> ~ has pain -> ~ has greeting ->
      ~ has reaction ->
      answer = ["Analyze prescription"; "Medicine disposal info";
                "OTC recommendations"; "General wellness tips"]%string)
  /\ (Retry.includes (JsString.toLowerCase userMessage) "cold" = true ->
      answer = ["Upload a prescription"; "Understand blood report";
                "What is a dosage?"]%string
      \/ answer = ["Find disposal centers"; "Can I donate old medicine?";
                   "Disposal guidelines"]%string)
  /\ answer = Chat.generateSuggestions userMessage EmptyString.
Proof.
  cbv zeta. unfold Chat.generateSuggestions, Chat.suggestionsMap.
  set (m := JsString.toLowerCase userMessage).
  cbn [Chat.firstGroup].
  repeat match goal with
         | |- _ /\ _ => split
         end.
  - intros H1. apply existsb_includes in H1. rewrite H1. reflexivity.
  - intros N1 H2. rewrite (existsb_includes_false _ _ N1).
    apply existsb_includes in H2. rewrite H2. reflexivity.
  - intros N1 N2 H3.
    rewrite (existsb_includes_false _ _ N1), (existsb_includes_false _ _ N2).
    apply existsb_includes in H3. rewrite H3. reflexivity.
  - intros N1 N2 N3 H4.
    rewrite (existsb_includes_false _ _ N1), (existsb_includes_false _ _ N2),
      (existsb_includes_false _ _ N3).
    apply existsb_includes in H4. rewrite H4. reflexivity.
  - intros N1 N2 N3 N4 H5.
    rewrite (existsb_includes_false _ _ N1), (existsb_includes_false _ _ N2),
      (existsb_includes_false _ _ N3), (existsb_includes_false _ _ N4).
    apply existsb_includes in H5. rewrite H5. reflexivity.
  - intros N1 N2 N3 N4 N5.
    rewrite (existsb_includes_false _ _ N1), (existsb_includes_false _ _ N2),
      (existsb_includes_false _ _ N3), (existsb_includes_false _ _ N4),
      (existsb_includes_false _ _ N5).
    reflexivity.
  - intros Hcold. apply includes_cold_old in Hcold.
    destruct (existsb _ ["prescription"; "report"; "doctor"; "analyze"]%string);
      [now left | right].
    replace (existsb _ _) with true; [reflexivity |].
    symmetry. apply existsb_includes. exists "old"%string.
    split; [| exact Hcold]. cbn. auto.
  - reflexivity.
Qed.

Lemma exchanges_even (l : list Chat.Sender) :
  (Chat.exchanges l = true -> Nat.Even (List.length l))
  /\ (forall x, Chat.exchanges (x :: l) = true ->
        Nat.Even (List.length (x :: l))).
Proof.
  induction l as [| y l [IH1 IH2]].
  - split; [intros _; exists 0%nat; reflexivity |]. intros [|]; discriminate.
  - split; [apply IH2 |].
    intros [|] H; [| discriminate].
    destruct y; [discriminate |].
    cbn [Chat.exchanges] in H. destruct (IH1 H) as [k Hk].
    exists (S k). cbn [List.length] in *. lia.
Qed.

Lemma conversation_odd (msgs : list Chat.ChatMessage) :
  Chat.conversation msgs = true -> Nat.Odd (List.length msgs).
Proof.
  unfold Chat.conversation. intros H.
  rewrite <- (List.length_map Chat.sender).
  destruct (List.map Chat.sender msgs) as [| [|] rest]; try discriminate.
  destruct (proj1 (exchanges_even rest) H) as [k Hk].
  exists k. cbn [List.length]. lia.
Qed.

Section ChatFacts.

Variable World : Type.
Variable Date_now : World -> Z.
Variable setTimeout : Z -> World -> World.
Variable generateContent :
  string -> World -> Retry.Outcome AiService.GenerateContentResult * World.
Variable GEMINI_API_KEY : option string.
Variable randomSuffix : World -> string.

Local Abbreviation reply :=
  (Chat.chatbotResponse World setTimeout generateContent GEMINI_API_KEY).
Local Abbreviation send :=
  (Chat.sendMessage World Date_now setTimeout generateContent GEMINI_API_KEY).
Local Abbreviation start := (Chat.startChatSession World Date_now randomSuffix).
Local Abbreviation history := (Chat.getChatHistory World).
Local Abbreviation finish := (Chat.endChatSession World Date_now).
Local Abbreviation sweepNow := (Chat.sweep World Date_now).

Lemma reply_nonempty (message context : string) (rt : Retry.Runtime World) :
  fst (reply message context rt) <> EmptyString.
Proof.
  unfold Chat.chatbotResponse.
  destruct (truthy GEMINI_API_KEY); cbn [negb]; [| discriminate].
  destruct (Retry.callWithRetry _ _ _ _ rt) as [[res | e] rt'];
    [| discriminate].
  destruct (AiService.text res) as [[| c r] | e]; discriminate.
Qed.

(** X17: the reply of the chatbot is never empty (and the call never rejects).
    Without an API key it is the not-configured text and the remote is not
    called; with a key the remote is called at most three times. *)
Theorem chatbot_always_replies (message context : string)
    (rt : Retry.Runtime World) :
  fst (reply message context rt) <> EmptyString
  /\ (truthy GEMINI_API_KEY = false ->
      reply message context rt = (Chat.notConfigured, rt))
  /\ exists events,
       Retry.trace (snd (reply message context rt))
       = Retry.trace rt ++ events
       /\ (Retry.attempts events <= 3)%nat.
Proof.
  unfold Chat.chatbotResponse.
  destruct (truthy GEMINI_API_KEY) eqn:Hkey; cbn [negb].
  2:{ split; [discriminate | split; [reflexivity |]].
      exists []. rewrite app_nil_r. split; [reflexivity | cbn; lia]. }
  destruct (callWithRetry_events World setTimeout _
              (generateContent (Chat.fullPrompt message context)) 3 2000 rt
              ltac:(lia)) as (events & Htr & _ & Hmax & _).
  destruct (Retry.callWithRetry _ _ _ _ rt) as [result rt'].
  cbn [snd] in Htr.
  assert (Hev : exists events0,
            Retry.trace rt' = Retry.trace rt ++ events0
            /\ (Retry.attempts events0 <= 3)%nat)
    by (exists events; split; [exact Htr | lia]).
  destruct result as [res | e];
    [| split; [discriminate | split; [discriminate | exact Hev]]].
  destruct (AiService.text res) as [botResponse | e];
    [| split; [discriminate | split; [discriminate | exact Hev]]].
  destruct botResponse as [| c r]; cbn [truthy negb fst snd];
    (split; [discriminate | split; [discriminate | exact Hev]]).
Qed.

(** A message without a session id or without text is answered with a 400,
    a message to an unknown session with a 404; in both cases nothing is
    stored and the chatbot is not asked. *)
Theorem send_rejects_without_session (sessionId message : option string)
    (st : Chat.Store World) :
  (truthy sessionId = false \/ truthy message = false ->
   send sessionId message st
   = (Chat.Fail 400 "Missing required fields"
        "Session ID and message are required", st))
  /\ (forall id text,
        sessionId = Some id -> message = Some text ->
        truthy sessionId = true -> truthy message = true ->
        Chat.chatSessions st !! id = None ->
        send sessionId message st
        = (Chat.Fail 404 "Session not found"
             "Chat session does not exist or has expired", st)).
Proof.
  split.
  - intros H. unfold Chat.sendMessage.
    destruct sessionId as [id |], message as [text |]; try reflexivity.
    destruct H as [-> | ->]; cbn [negb orb]; [reflexivity |].
    rewrite orb_true_r. reflexivity.
  - intros id text -> -> Hid Htext Hnone. unfold Chat.sendMessage.
    rewrite Hid, Htext, Hnone. reflexivity.
Qed.

(** X18: a message to an existing session always succeeds, whatever the remote
    does.  When nothing else touches the store while the chatbot is awaited,
    the session gains the message of the user and then a non-empty reply of
    the bot, the count reported is the old one plus two, and the context
    grows by the exchange. *)
Theorem send_appends_exchange (id text : string) (st : Chat.Store World)
    (session : Chat.ChatSession) :
  id <> EmptyString -> text <> EmptyString ->
  Chat.chatSessions st !! id = Some session ->
  exists sent session' rt,
    send (Some id) (Some text) st
    = (Chat.Ok sent,
       Chat.Build_Store (<[id := session']> (Chat.chatSessions st)) rt)
    /\ Chat.messages session'
       = Chat.messages session ++ [Chat.userMessage sent; Chat.botMessage sent]
    /\ Chat.sender (Chat.userMessage sent) = Chat.user
    /\ Chat.message (Chat.userMessage sent) = text
    /\ Chat.sender (Chat.botMessage sent) = Chat.bot
    /\ Chat.message (Chat.botMessage sent) <> EmptyString
    /\ Chat.messageCount sent = (List.length (Chat.messages session) + 2)%nat
    /\ Chat.context session'
       = String.append (Chat.context session)
           (String.append Chat.newline
              (String.append "User: "
                 (String.append text
                    (String.append Chat.newline
                       (String.append "Bot: "
                          (Chat.message (Chat.botMessage sent)))))))
    /\ Chat.sid session' = Chat.sid session
    /\ Chat.createdAt session' = Chat.createdAt session.
Proof.
  intros Hid Htext Hs. unfold Chat.sendMessage.
  destruct id as [| c id']; [now contradiction Hid |].
  destruct text as [| c' text']; [now contradiction Htext |].
  cbn [truthy negb orb]. rewrite Hs.
  pose proof (reply_nonempty (String c' text') (Chat.context session)
                (Chat.runtime st)) as Hreply.
  destruct (reply (String c' text') (Chat.context session) (Chat.runtime st))
    as [botResponse rt].
  eexists _, _, rt. split; [reflexivity |].
  unfold Chat.sentOf, Chat.replied, Chat.pushed, Chat.userMessageAt,
    Chat.botMessageAt, Chat.exchangeText.
  cbn [Chat.messages Chat.userMessage Chat.botMessage Chat.sender
       Chat.message Chat.messageCount Chat.context Chat.sid Chat.createdAt
       Chat.lastActivity Chat.infoLastActivity].
  rewrite <- app_assoc, length_app. cbn [List.length app].
  repeat split; try reflexivity. exact Hreply.
Qed.

(** X19: ending a session reports its message count and its age and removes it:
    its history is then a 404 and a message to it is refused; other sessions
    stay.  Ending an unknown session is a 404 and changes nothing. *)
Theorem ended_session_is_gone (id : string) (st : Chat.Store World) :
  (forall session,
      Chat.chatSessions st !! id = Some session ->
      exists st',
        finish id st
        = (Chat.Ok {| Chat.endedMessage := "Chat session ended successfully";
                      Chat.endedId := id;
                      Chat.duration :=
                        Date_now (Retry.world (Chat.runtime st))
                        - Chat.createdAt session;
                      Chat.endedCount :=
                        List.length (Chat.messages session) |}, st')
        /\ history id st'
           = Chat.Fail 404 "Session not found" "Chat session does not exist"
        /\ (forall text,
              id <> EmptyString -> text <> EmptyString ->
              send (Some id) (Some text) st'
              = (Chat.Fail 404 "Session not found"
                   "Chat session does not exist or has expired", st'))
        /\ (forall other, other <> id ->
              Chat.chatSessions st' !! other = Chat.chatSessions st !! other))
  /\ (Chat.chatSessions st !! id = None ->
      finish id st
      = (Chat.Fail 404 "Session not found" "Chat session does not exist",
         st)).
Proof.
  split.
  - intros session Hs. unfold Chat.endChatSession. rewrite Hs.
    eexists. split; [reflexivity |].
    split; [| split].
    + unfold Chat.getChatHistory. cbn [Chat.chatSessions].
      rewrite lookup_delete_eq. reflexivity.
    + intros text Hid Htext. unfold Chat.sendMessage.
      destruct id as [| c id']; [now contradiction Hid |].
      destruct text as [| c' text']; [now contradiction Htext |].
      cbn [truthy negb orb Chat.chatSessions].
      rewrite lookup_delete_eq. reflexivity.
    + intros other Hne. cbn [Chat.chatSessions].
      apply lookup_delete_ne. congruence.
  - intros Hnone. unfold Chat.endChatSession. rewrite Hnone. reflexivity.
Qed.

(** The sweep keeps exactly the sessions whose last activity is at most an
    hour before the time of the sweep, and keeps them unchanged. *)
Theorem sweep_keeps_recent_sessions (st : Chat.Store World) (id : string)
    (session : Chat.ChatSession) :
  Chat.chatSessions (sweepNow st) !! id = Some session
  <-> Chat.chatSessions st !! id = Some session
      /\ Date_now (Retry.world (Chat.runtime st)) - 3600000
         <= Chat.lastActivity session.
Proof.
  unfold Chat.sweep. cbn [Chat.chatSessions].
  rewrite map_lookup_filter_Some. cbn [snd].
  split; intros [H1 H2]; (split; [exact H1 | lia]).
Qed.

Lemma exchanges_app (l : list Chat.Sender) :
  (Chat.exchanges l = true ->
   Chat.exchanges (l ++ [Chat.user; Chat.bot]) = true)
  /\ (forall x, Chat.exchanges (x :: l) = true ->
        Chat.exchanges ((x :: l) ++ [Chat.user; Chat.bot]) = true).
Proof.
  induction l as [| y l [IH1 IH2]].
  - split; [reflexivity |]. intros [|]; discriminate.
  - split; [apply IH2 |].
    intros [|] H; [| discriminate].
    destruct y; [discriminate |].
    cbn [Chat.exchanges app] in *. apply IH1. exact H.
Qed.

Lemma conversation_app (msgs : list Chat.ChatMessage)
    (u b : Chat.ChatMessage) :
  Chat.sender u = Chat.user -> Chat.sender b = Chat.bot ->
  Chat.conversation msgs = true ->
  Chat.conversation (msgs ++ [u; b]) = true.
Proof.
  intros Hu Hb. unfold Chat.conversation.
  rewrite List.map_app. cbn [List.map]. rewrite Hu, Hb.
  destruct (List.map Chat.sender msgs) as [| [|] rest]; try discriminate.
  cbn [app]. apply exchanges_app.
Qed.

Lemma handle_wellFormed (request : Chat.Request) (st : Chat.Store World) :
  Chat.wellFormed st ->
  Chat.wellFormed
    (Chat.handle World Date_now setTimeout generateContent GEMINI_API_KEY
       randomSuffix request st).
Proof.
  intros Hst id session.
  destruct request as [| sessionId message | sessionId | sessionId |];
    cbn [Chat.handle].
  - unfold Chat.startChatSession. cbn [snd Chat.chatSessions].
    match goal with
    | |- <[?k := _]> _ !! _ = _ -> _ => destruct (decide (k = id)) as [E | E]
    end.
    + rewrite <- E, lookup_insert_eq. intros [= <-]. split; reflexivity.
    + rewrite lookup_insert_ne by exact E. apply Hst.
  - unfold Chat.sendMessage.
    destruct sessionId as [sessionId' |], message as [message' |];
      try apply Hst.
    destruct (negb _ || negb _); [apply Hst |].
    destruct (Chat.chatSessions st !! sessionId') as [old |] eqn:Hold;
      [| apply Hst].
    destruct (Chat.chatbotResponse _ _ _ _ _ _ _) as [botResponse rt].
    cbn [snd Chat.chatSessions].
    destruct (decide (sessionId' = id)) as [E | E].
    + rewrite <- E, lookup_insert_eq. intros [= <-].
      destruct (Hst _ _ Hold) as [Hsid Hconv].
      unfold Chat.replied, Chat.pushed.
      cbn [Chat.sid Chat.messages]. split; [exact Hsid |].
      rewrite <- app_assoc. cbn [app].
      apply conversation_app; [reflexivity | reflexivity | exact Hconv].
    + rewrite lookup_insert_ne by exact E. apply Hst.
  - apply Hst.
  - unfold Chat.endChatSession.
    destruct (Chat.chatSessions st !! sessionId); [| apply Hst].
    cbn [snd Chat.chatSessions]. intros H.
    apply lookup_delete_Some in H. apply Hst, H.
  - unfold Chat.sweep. cbn [Chat.chatSessions]. intros H.
    apply map_lookup_filter_Some in H. apply Hst, H.
Qed.

(** When the requests are handled one at a time, none arriving while a
    message awaits the chatbot, then whatever requests arrive in whatever
    order and whatever the remote answers, every session in the store is
    filed under its own id and its messages are the greeting of the bot
    followed by pairs of a user message and a reply. *)
Theorem sessions_stay_conversations (requests : list (World * Chat.Request))
    (rt : Retry.Runtime World) (id : string) (session : Chat.ChatSession) :
  Chat.chatSessions
    (Chat.serve World Date_now setTimeout generateContent GEMINI_API_KEY
       randomSuffix requests (Chat.Build_Store ∅ rt)) !! id = Some session ->
  Chat.sid session = id
  /\ Chat.conversation (Chat.messages session) = true
  /\ Nat.Odd (List.length (Chat.messages session)).
Proof.
  assert (Hserve : forall st, Chat.wellFormed st ->
            Chat.wellFormed (Chat.serve World Date_now setTimeout generateContent
                          GEMINI_API_KEY randomSuffix requests st)).
  { induction requests as [| [w request] rest IH]; intros st Hst;
      [exact Hst |].
    cbn [Chat.serve]. apply IH, handle_wellFormed.
    intros i s. cbn [Chat.arrive Chat.chatSessions]. apply Hst. }
  intros H.
  destruct (Hserve (Chat.Build_Store ∅ rt)) with (id := id) (session := session)
    as [Hsid Hconv]; [| exact H |].
  { intros i s. cbn [Chat.chatSessions]. rewrite lookup_empty. discriminate. }
  split; [exact Hsid |]. split; [exact Hconv |].
  apply conversation_odd. exact Hconv.
Qed.

End ChatFacts.

(** * The facility search of the server *)

Lemma includes_append_right (pre hay needle : string) :
  Retry.includes hay needle = true ->
  Retry.includes (String.append pre hay) needle = true.
Proof.
  intros H. induction pre as [| c pre IH]; [exact H |].
  rewrite append_cons, includes_eq.
  destruct (String.prefix needle _); [reflexivity | exact IH].
Qed.



Section PlacesFacts.

Variable nominatim : string -> Places.Fetched (list (string * string)).
Variable overpass :
  string -> Places.Number * Places.Number
  -> Places.Fetched (option Places.OverpassData).
Variable parseFloat : string -> Places.Number.
Variable Math_random : nat -> float.

Local Abbreviation search :=
  (Places.fetchNearbyPlaces nominatim overpass parseFloat Math_random).
Local Abbreviation find :=
  (Places.findDonationCenters nominatim overpass parseFloat Math_random).
Local Abbreviation ask := (Places.askEndpoints overpass).
Local Abbreviation toCenters := (Places.toCenters Math_random).

(** X24: without coordinates and with a location that is absent or made of white
    space only, the search sends no request and finds nothing. *)
Theorem blank_search_asks_nobody (locationQuery : option string) :
  (locationQuery = None
   \/ exists query, locationQuery = Some query
                    /\ JsString.trim query = EmptyString) ->
  search locationQuery None = ([], ([], None)).
Proof.
  intros [-> | [query [-> Hblank]]]; [reflexivity |].
  unfold Places.fetchNearbyPlaces. rewrite Hblank.
  cbn [String.length Nat.eqb]. rewrite orb_true_r. reflexivity.
Qed.

Lemma askEndpoints_shape (endpoints : list string)
    (at_ : Places.Number * Places.Number) :
  (exists init endpoint rest data,
      endpoints = init ++ endpoint :: rest
      /\ ask endpoints at_ = (init ++ [endpoint], data)
      /\ Forall (fun e => Places.usable (overpass e at_) = false) init
      /\ overpass endpoint at_ = Places.Answered true (Places.Parsed data))
  \/ (ask endpoints at_ = (endpoints, None)
      /\ Forall (fun e => Places.usable (overpass e at_) = false) endpoints).
Proof.
  induction endpoints as [| e rest IH].
  - right. split; [reflexivity | constructor].
  - cbn [Places.askEndpoints].
    destruct (Places.usable (overpass e at_)) eqn:Hu.
    + left. exists [], e, rest.
      destruct (overpass e at_) as [| [|] [| data]]; try discriminate.
      exists data. repeat split. constructor.
    + assert (Hgo : (match overpass e at_ with
                     | Places.Answered true (Places.Parsed data) =>
                         ([e], data)
                     | _ => let '(asked, data) := ask rest at_ in
                            (e :: asked, data)
                     end)
                    = (let '(asked, data) := ask rest at_ in
                       (e :: asked, data))).
      { destruct (overpass e at_) as [| [|] [| data]];
          try reflexivity; discriminate. }
      rewrite Hgo. clear Hgo.
      destruct IH as [(init & endpoint & rest' & data & -> & -> & Hinit & Hok)
                     | [-> Hall]].
      * left. exists (e :: init), endpoint, rest', data.
        repeat split; [| exact Hok]. constructor; assumption.
      * right. split; [reflexivity |]. constructor; assumption.
Qed.

(** X25: a search around coordinates asks the Overpass endpoints in their order
    and stops at the first one whose answer is ok and readable: that answer
    alone decides the facilities, the endpoints after it are not asked.  When
    none answers so, all three are asked and no facility is found.  The
    coordinates are returned as the centre in every case. *)
Theorem overpass_failover (at_ : Places.Number * Places.Number) :
  exists asked data,
    search None (Some at_)
    = (List.map Places.Overpass asked,
       (match data with
        | Some {| Places.elements := Some els |} => toCenters els
        | _ => []
        end, Some at_))
    /\ ((exists init endpoint rest,
            Places.OVERPASS_ENDPOINTS = init ++ endpoint :: rest
            /\ asked = init ++ [endpoint]
            /\ Forall (fun e => Places.usable (overpass e at_) = false) init
            /\ overpass endpoint at_
               = Places.Answered true (Places.Parsed data))
        \/ (asked = Places.OVERPASS_ENDPOINTS
            /\ data = None
            /\ Forall (fun e => Places.usable (overpass e at_) = false)
                 Places.OVERPASS_ENDPOINTS)).
Proof.
  cbn [Places.fetchNearbyPlaces]. unfold Places.around.
  destruct (askEndpoints_shape Places.OVERPASS_ENDPOINTS at_)
    as [(init & endpoint & rest & data & Hsplit & Hask & Hinit & Hok)
       | [Hask Hall]]; rewrite Hask.
  - exists (init ++ [endpoint]), data. split.
    + f_equal. destruct data as [[[[| e els] |]] |]; reflexivity.
    + left. exists init, endpoint, rest. repeat split; assumption.
  - exists Places.OVERPASS_ENDPOINTS, None. split; [reflexivity |].
    right. repeat split. exact Hall.
Qed.

Lemma around_calls (at_ : Places.Number * Places.Number) :
  exists asked,
    fst (Places.around overpass Math_random at_)
    = List.map Places.Overpass asked
    /\ (forall e, In e asked -> In e Places.OVERPASS_ENDPOINTS)
    /\ asked <> []
    /\ snd (snd (Places.around overpass Math_random at_)) = Some at_.
Proof.
  unfold Places.around.
  destruct (askEndpoints_shape Places.OVERPASS_ENDPOINTS at_)
    as [(init & endpoint & rest & data & Hsplit & Hask & _ & _)
       | [Hask _]]; rewrite Hask.
  - exists (init ++ [endpoint]). cbn [fst snd]. split; [reflexivity |].
    split; [| split].
    + intros e He. rewrite Hsplit. apply in_app_iff.
      apply in_app_iff in He as [He | [-> | []]]; [left; exact He |].
      right. left. reflexivity.
    + destruct init; discriminate.
    + destruct data as [[[[| e els] |]] |]; reflexivity.
  - exists Places.OVERPASS_ENDPOINTS. cbn [fst snd].
    repeat split; try discriminate. intros e He. exact He.
Qed.

(** X26: a search by a location with visible text asks the geocoder first and
    once, for a text that mentions India: the location itself when it
    already does, in any case of the letters, else the location followed by
    [", India"].  Only Overpass endpoints are asked after that, and none when
    the geocoder gave no position. *)
Theorem text_search_geocodes_in_india (query : string) :
  JsString.trim query <> EmptyString ->
  exists searchStr asked found geocoded,
    search (Some query) None
    = (Places.Geocode searchStr :: List.map Places.Overpass asked,
       (found, geocoded))
    /\ Retry.includes (JsString.toLowerCase searchStr) "india" = true
    /\ (searchStr = query
        \/ searchStr = String.append query ", India"
           /\ Retry.includes (JsString.toLowerCase query) "india" = false)
    /\ (forall e, In e asked -> In e Places.OVERPASS_ENDPOINTS)
    /\ (geocoded = None -> asked = [] /\ found = []).
Proof.
  intros Hvisible. unfold Places.fetchNearbyPlaces.
  destruct query as [| c query'];
    [contradiction Hvisible; reflexivity |].
  cbn [truthy negb orb].
  destruct (String.length (JsString.trim (String c query')) =? 0)%nat eqn:El.
  { apply Nat.eqb_eq in El.
    destruct (JsString.trim (String c query')); [contradiction Hvisible; reflexivity | discriminate]. }
  set (query := String c query') in *.
  set (searchStr := if Retry.includes (JsString.toLowerCase query) "india"
                    then query else String.append query ", India").
  assert (Hindia : Retry.includes (JsString.toLowerCase searchStr) "india"
                   = true).
  { subst searchStr.
    destruct (Retry.includes (JsString.toLowerCase query) "india") eqn:E;
      [exact E |].
    rewrite toLowerCase_append. apply includes_append_right. reflexivity. }
  assert (Hshape : searchStr = query
                   \/ searchStr = String.append query ", India"
                      /\ Retry.includes (JsString.toLowerCase query) "india"
                         = false).
  { subst searchStr.
    destruct (Retry.includes (JsString.toLowerCase query) "india");
      [left | right]; auto. }
  assert (Hnone : exists asked found geocoded,
             ([Places.Geocode searchStr],
              (@nil Server.Center, @None (Places.Number * Places.Number)))
             = (Places.Geocode searchStr :: List.map Places.Overpass asked,
                (found, geocoded))
             /\ (forall e, In e asked -> In e Places.OVERPASS_ENDPOINTS)
             /\ (geocoded = None -> asked = [] /\ found = [])).
  { exists [], [], None. repeat split. intros e []. }
  destruct (nominatim searchStr) as [| [|] [| [| hit others]]];
    try (destruct Hnone as (asked & found & geocoded & E & H1 & H2);
         exists searchStr, asked, found, geocoded;
         split; [exact E |];
         split; [exact Hindia |]; split; [exact Hshape |];
         split; [exact H1 | exact H2]).
  destruct (around_calls (parseFloat (fst hit), parseFloat (snd hit)))
    as (asked & Hcalls & Hin & _ & Hgeo).
  destruct (Places.around overpass Math_random _) as [calls [found geocoded]].
  cbn [fst snd] in Hcalls, Hgeo. subst calls.
  exists searchStr, asked, found, geocoded.
  split; [reflexivity |].
  split; [exact Hindia |]. split; [exact Hshape |]. split; [exact Hin |].
  intros E. rewrite E in Hgeo. discriminate.
Qed.




(** X28: how one element is turned into a facility: it is dropped exactly when it
    has no latitude of its own other than zero and no centre with one; a
    latitude of zero is replaced by that of the centre.  A pharmacy tag
    under [amenity] or [healthcare] makes a pharmacy; of the others only the
    amenity [doctors] makes a clinic, so an element tagged as a clinic is
    called a hospital. *)
Theorem element_to_facility (random : float) (e : Places.Element) :
  (Places.located (Places.toCenter random e) = false
   <-> (Places.lat e = None \/ exists v, Places.lat e = Some v /\ (v == 0)%Q)
       /\ (Places.center e = None
           \/ exists c, Places.center e = Some c /\ (fst c == 0)%Q))
  /\ (forall v c, Places.lat e = Some v -> (v == 0)%Q ->
        Places.center e = Some c ->
        fst (Server.coordinates (Places.toCenter random e)) = fst c)
  /\ (Server.type (Places.toCenter random e) = "Pharmacy"%string
      <-> Places.tag e "amenity" = Some "pharmacy"%string
          \/ Places.tag e "healthcare" = Some "pharmacy"%string)
  /\ (Server.type (Places.toCenter random e) = "Clinic"%string
      <-> Places.tag e "amenity" = Some "doctors"%string
          /\ Places.tag e "healthcare" <> Some "pharmacy"%string)
  /\ (Places.tag e "amenity" = Some "clinic"%string ->
      Places.tag e "healthcare" <> Some "pharmacy"%string ->
      Server.type (Places.toCenter random e) = "Hospital"%string).
Proof.
  assert (Hstrict : forall s lit,
             Server.strictEq s lit = true <-> s = Some lit).
  { intros [v |] lit; cbn [Server.strictEq].
    - rewrite String.eqb_eq. split; congruence.
    - split; discriminate. }
  assert (Hzero : forall q, Qeq_bool q 0 = true <-> (q == 0)%Q).
  { intros q. split; [apply Qeq_bool_eq | apply Qeq_eq_bool]. }
  split; [| split; [| split; [| split]]].
  - unfold Places.located.
    cbn [Places.toCenter Server.coordinates fst]. rewrite negb_false_iff.
    unfold Places.numberOr.
    destruct (Places.lat e) as [v |], (Places.center e) as [c |];
      try destruct (Qeq_bool v 0) eqn:Ev; rewrite ?Hzero.
    + split.
      * intros H. split; [right; exists v; split; [reflexivity |] | right; exists c; split; [reflexivity | exact H]].
        apply Hzero, Ev.
      * intros [_ [H | (c' & [= <-] & H)]]; [discriminate | exact H].
    + split; [intros H | intros [[H | (v' & [= <-] & H)] _];
                           [discriminate | apply Hzero in H; congruence]].
      apply Hzero in H. congruence.
    + split; [| reflexivity]. intros _.
      split; [right; exists v; split; [reflexivity | apply Hzero, Ev]
             | left; reflexivity].
    + split; [intros H | intros [[H | (v' & [= <-] & H)] _];
                           [discriminate | apply Hzero in H; congruence]].
      apply Hzero in H. congruence.
    + split.
      * intros H. split; [left; reflexivity
                         | right; exists c; split; [reflexivity | exact H]].
      * intros [_ [H | (c' & [= <-] & H)]]; [discriminate | exact H].
    + split; [| reflexivity]. intros _. split; left; reflexivity.
  - intros v c Hv Hz Hc.
    cbn [Places.toCenter Server.coordinates fst]. unfold Places.numberOr.
    rewrite Hv, Hc. apply Hzero in Hz. rewrite Hz. reflexivity.
  - cbn [Places.toCenter Server.type]. unfold Places.isPharmacy.
    rewrite <- !Hstrict.
    destruct (Server.strictEq (Places.tag e "amenity") "pharmacy"),
             (Server.strictEq (Places.tag e "healthcare") "pharmacy");
      cbn [orb]; try (split; [auto | reflexivity]).
    destruct (Server.strictEq (Places.tag e "amenity") "doctors");
      (split; [discriminate | intros [H | H]; discriminate]).
  - cbn [Places.toCenter Server.type]. unfold Places.isPharmacy.
    rewrite <- Hstrict.
    destruct (Server.strictEq (Places.tag e "healthcare") "pharmacy") eqn:Eh.
    + rewrite orb_true_r. apply Hstrict in Eh.
      split; [discriminate | intros [_ H]; contradiction].
    + rewrite orb_false_r.
      assert (Hh : Places.tag e "healthcare" <> Some "pharmacy"%string).
      { intros H. apply Hstrict in H. congruence. }
      destruct (Server.strictEq (Places.tag e "amenity") "pharmacy") eqn:Ea.
      * apply Hstrict in Ea. rewrite Ea. cbn [Server.strictEq String.eqb].
        split; [discriminate | intros [H _]; discriminate].
      * destruct (Server.strictEq (Places.tag e "amenity") "doctors").
        -- split; [intros _; split; [reflexivity | exact Hh] | reflexivity].
        -- split; [discriminate | intros [H _]; discriminate].
  - intros Ha Hh. cbn [Places.toCenter Server.type]. unfold Places.isPharmacy.
    rewrite Ha. cbn [Server.strictEq]. 
    destruct (Server.strictEq (Places.tag e "healthcare") "pharmacy") eqn:Eh;
      [apply Hstrict in Eh; contradiction | reflexivity].
Qed.

Lemma find_unfolded (location qLat qLng : option string) :
  let result :=
    if truthy qLat && truthy qLng
    then search None (Some (parseFloat (default EmptyString qLat),
                            parseFloat (default EmptyString qLng)))
    else search location None in
  let usedMock :=
    (List.length (fst (snd result)) =? 0)%nat && negb (truthy location)
    && negb (truthy qLat) in
  find location qLat qLng
  = (fst result,
     {| Places.centers :=
          if usedMock then Server.MOCK_CENTERS else fst (snd result);
        Places.geocodedCenter := snd (snd result);
        Places.total :=
          List.length
            (if usedMock then Server.MOCK_CENTERS else fst (snd result));
        Places.searchLocation :=
          if truthy location then default EmptyString location
          else if truthy qLat
               then String.append (default EmptyString qLat)
                      (String.append ", "
                         (default "undefined"%string qLng))
               else "Default"%string;
        Places.source := if usedMock then "Mock Data (API Limit/Error)"%string
                         else "OpenStreetMap"%string |}).
Proof.
  cbv zeta. unfold Places.findDonationCenters.
  destruct qLat as [la |], qLng as [ln |]; cbn [truthy andb default].
  - destruct la as [| c la], ln as [| c' ln]; cbn [truthy andb];
      try (destruct (search location None) as [calls [found geocoded]];
           reflexivity).
    destruct (search None _) as [calls [found geocoded]]. reflexivity.
  - rewrite andb_false_r.
    destruct (search location None) as [calls [found geocoded]]. reflexivity.
  - destruct (search location None) as [calls [found geocoded]]. reflexivity.
  - destruct (search location None) as [calls [found geocoded]]. reflexivity.
Qed.

(** X29: the centre finder shows the example centres exactly when the request
    has neither a location nor a latitude, and then no request was sent at
    all and no centre of the search is given.  After a search, by
    coordinates when a latitude and a longitude are given and else by the
    text, it returns the requests, the facilities in their order, their
    number and the centre exactly as the search gave them, also when that is
    nothing.  A latitude without a longitude and without a location is no
    search: nothing is asked and nothing is returned. *)
Theorem finder_mock_only_without_search (location qLat qLng : option string) :
  Places.total (snd (find location qLat qLng))
  = List.length (Places.centers (snd (find location qLat qLng)))
  /\ (Places.source (snd (find location qLat qLng))
      = "Mock Data (API Limit/Error)"%string
      <-> truthy location = false /\ truthy qLat = false)
  /\ (truthy location = false -> truthy qLat = false ->
      fst (find location qLat qLng) = []
      /\ Places.centers (snd (find location qLat qLng)) = Server.MOCK_CENTERS
      /\ Places.geocodedCenter (snd (find location qLat qLng)) = None
      /\ Places.total (snd (find location qLat qLng)) = 2%nat
      /\ Places.searchLocation (snd (find location qLat qLng))
         = "Default"%string)
  /\ (truthy location = true \/ truthy qLat = true ->
      let result :=
        if truthy qLat && truthy qLng
        then search None (Some (parseFloat (default EmptyString qLat),
                                parseFloat (default EmptyString qLng)))
        else search location None in
      find location qLat qLng
      = (fst result,
         {| Places.centers := fst (snd result);
            Places.geocodedCenter := snd (snd result);
            Places.total := List.length (fst (snd result));
            Places.searchLocation :=
              if truthy location then default EmptyString location
              else String.append (default EmptyString qLat)
                     (String.append ", " (default "undefined"%string qLng));
            Places.source := "OpenStreetMap" |}))
  /\ (truthy location = false -> truthy qLat = true -> qLng = None ->
      fst (find location qLat qLng) = []
      /\ Places.centers (snd (find location qLat qLng)) = []
      /\ Places.searchLocation (snd (find location qLat qLng))
         = String.append (default EmptyString qLat) ", undefined").
Proof.
  assert (Hblank : truthy location = false ->
                   search location None = ([], ([], None))).
  { intros H. destruct location as [[| c r] |]; try discriminate;
      reflexivity. }
  pose proof (find_unfolded location qLat qLng) as Hfind.
  cbv zeta in Hfind. cbv zeta. rewrite Hfind. clear Hfind.
  cbn [fst snd Places.total Places.centers Places.source
       Places.searchLocation Places.geocodedCenter].
  destruct (truthy location) eqn:Hloc.
  - (* a location is given *)
    cbn [negb andb]. rewrite andb_false_r.
    split; [reflexivity |].
    split; [split; [discriminate | intros [H _]; discriminate] |].
    split; [discriminate |].
    split; [intros _; reflexivity |]. discriminate.
  - destruct (truthy qLat) eqn:Hlat.
    + (* a latitude and no location *)
      cbn [negb andb]. rewrite andb_false_r.
      split; [reflexivity |].
      split; [split; [discriminate | intros [_ H]; discriminate] |].
      split; [discriminate |].
      split; [intros _; reflexivity |].
      intros _ _ ->. cbn [truthy]. rewrite (Hblank eq_refl).
      cbn [fst snd]. repeat split.
    + (* neither *)
      cbn [andb negb]. rewrite (Hblank eq_refl). cbn [fst snd List.length Nat.eqb andb].
      split; [reflexivity |].
      split; [split; [auto | reflexivity] |].
      split; [intros _ _; repeat split |].
      split; [intros [H | H]; discriminate |]. discriminate.
Qed.

End PlacesFacts.

(** * The expiry check on an OCR answer *)

Section OcrFacts.

Variable Date_parse : string -> option Z.

(** X30: when the answer read from a package names an expiry date, the check
    decides [isExpired] by comparing that date with the clock, and the
    recommendation that comes out is never ["keep"] and never empty: an
    expired medicine gets ["dispose"] with the disposal text, whatever the
    answer recommended; for one that is not expired ["keep"], an empty or an
    absent recommendation becomes ["donate"] with the donation text, and any
    other recommendation stays with its reasoning.  A date that cannot be
    read counts as not expired.  Without an expiry date the answer is
    returned as it came. *)
Theorem ocr_expiry_decides (parsed : AiService.OcrResult) (now : Z) :
  (forall s,
      AiService.expiryDate parsed = Some s -> s <> EmptyString ->
      let checked := AiService.validateExpiry Date_parse parsed now in
      AiService.isExpired checked = Some (JsDate.lt (Date_parse s) now)
      /\ (JsDate.lt (Date_parse s) now = true ->
          AiService.recommendation checked = Some "dispose"%string
          /\ AiService.reasoning checked
             = Some "Medicine has expired. Please dispose of it safely according to local guidelines."%string)
      /\ (JsDate.lt (Date_parse s) now = false ->
          AiService.recommendation parsed = Some "keep"%string
          \/ AiService.recommendation parsed = Some EmptyString
          \/ AiService.recommendation parsed = None ->
          AiService.recommendation checked = Some "donate"%string
          /\ AiService.reasoning checked
             = Some "Medicine is within expiry date and in good condition. Consider donating to local pharmacy or healthcare center."%string)
      /\ AiService.recommendation checked <> Some "keep"%string
      /\ truthy (AiService.recommendation checked) = true
      /\ (JsDate.lt (Date_parse s) now = false ->
          AiService.recommendation parsed <> Some "keep"%string ->
          truthy (AiService.recommendation parsed) = true ->
          AiService.recommendation checked = AiService.recommendation parsed
          /\ AiService.reasoning checked = AiService.reasoning parsed)
      /\ (Date_parse s = None ->
          AiService.isExpired checked = Some false)
      /\ AiService.expiryDate checked = AiService.expiryDate parsed)
  /\ (truthy (AiService.expiryDate parsed) = false ->
      AiService.validateExpiry Date_parse parsed now = parsed).
Proof.
  split.
  - intros s Hs Hne. cbn zeta. unfold AiService.validateExpiry. rewrite Hs.
    destruct s as [| c r]; [contradiction Hne; reflexivity |].
    cbn [truthy].
    assert (Hnone : Date_parse (String c r) = None ->
                    JsDate.lt (Date_parse (String c r)) now = false)
      by (intros E; rewrite E; reflexivity).
    destruct (JsDate.lt (Date_parse (String c r)) now) eqn:Hlt.
    + cbn [AiService.isExpired AiService.recommendation truthy
           AiService.expiryDate AiService.reasoning].
      split; [reflexivity |].
      split; [intros _; split; reflexivity |].
      split; [discriminate |].
      split; [discriminate |].
      split; [reflexivity |].
      split; [discriminate |].
      split; [intros E; specialize (Hnone E); discriminate | reflexivity].
    + destruct (negb (truthy (AiService.recommendation parsed))
                || Server.strictEq (AiService.recommendation parsed) "keep")
        eqn:Hkeep;
        cbn [AiService.isExpired AiService.recommendation truthy
             AiService.expiryDate AiService.reasoning].
      * split; [reflexivity |].
        split; [discriminate |].
        split; [intros _ _; split; reflexivity |].
        split; [discriminate |].
        split; [reflexivity |].
        split; [| split; [intros _; reflexivity | reflexivity]].
        intros _ Hnk Ht. exfalso.
        apply orb_true_iff in Hkeep as [Hk | Hk].
        -- rewrite Ht in Hk. discriminate.
        -- destruct (AiService.recommendation parsed) as [v |];
             [| discriminate].
           cbn [Server.strictEq] in Hk. apply String.eqb_eq in Hk.
           congruence.
      * apply orb_false_iff in Hkeep as [Ht Hk].
        apply negb_false_iff in Ht.
        split; [reflexivity |].
        split; [discriminate |].
        split.
        { intros _ [E | [E | E]]; rewrite E in Ht, Hk; discriminate. }
        split; [intros E; rewrite E in Hk; discriminate |].
        split; [exact Ht |].
        split; [intros _ _ _; split; reflexivity |].
        split; [intros _; reflexivity | reflexivity].
  - intros Hfalsy. unfold AiService.validateExpiry.
    destruct (AiService.expiryDate parsed) as [[| c r] |];
      try reflexivity; discriminate.
Qed.

End OcrFacts.

(** * The chat routes when requests overlap *)

Lemma said_snoc (who : Chat.Sender) (msgs : list Chat.ChatMessage)
    (m : Chat.ChatMessage) :
  ChatRun.said who (msgs ++ [m])
  = (ChatRun.said who msgs
     + if ChatRun.Sender_eqb (Chat.sender m) who then 1 else 0)%nat.
Proof.
  unfold ChatRun.said. rewrite List.filter_app, length_app.
  cbn [List.filter]. destruct (ChatRun.Sender_eqb _ _); reflexivity.
Qed.

Lemma awaiting_snoc (ref : nat) (cs : list ChatRun.Call) (c : ChatRun.Call) :
  ChatRun.awaiting ref (cs ++ [c])
  = (ChatRun.awaiting ref cs
     + if (ChatRun.target c =? ref)%nat then 1 else 0)%nat.
Proof.
  unfold ChatRun.awaiting. rewrite List.filter_app, length_app.
  cbn [List.filter]. destruct (_ =? _)%nat; reflexivity.
Qed.

Lemma awaiting_delete (ref : nat) (cs : list ChatRun.Call) (n : nat)
    (c : ChatRun.Call) :
  cs !! n = Some c ->
  (ChatRun.awaiting ref (delete n cs)
   + (if (ChatRun.target c =? ref)%nat then 1 else 0)
   = ChatRun.awaiting ref cs)%nat.
Proof.
  revert n. induction cs as [| x cs IH]; intros [| n] H; try discriminate.
  - injection H as ->. unfold ChatRun.awaiting.
    change (delete 0%nat (c :: cs)) with cs. cbn [List.filter].
    destruct (_ =? _)%nat; cbn [List.length]; lia.
  - specialize (IH n H). unfold ChatRun.awaiting in *.
    change (delete (S n) (x :: cs)) with (x :: delete n cs).
    cbn [List.filter]. revert IH.
    destruct (ChatRun.target x =? ref)%nat, (ChatRun.target c =? ref)%nat;
      cbn [List.length]; lia.
Qed.

Lemma awaiting_none (ref : nat) (cs : list ChatRun.Call) :
  (forall c, In c cs -> ChatRun.target c <> ref) ->
  ChatRun.awaiting ref cs = 0%nat.
Proof.
  intros H. unfold ChatRun.awaiting. induction cs as [| x cs IH];
    [reflexivity |].
  cbn [List.filter].
  destruct (ChatRun.target x =? ref)%nat eqn:E.
  - apply Nat.eqb_eq in E. exfalso. apply (H x); [left; reflexivity | exact E].
  - apply IH. intros c Hc. apply H. right. exact Hc.
Qed.

Lemma In_delete (cs : list ChatRun.Call) (n : nat) (c : ChatRun.Call) :
  In c (delete n cs) -> In c cs.
Proof.
  revert n. induction cs as [| x cs IH]; intros [| n] H; try contradiction.
  - right. exact H.
  - change (delete (S n) (x :: cs)) with (x :: delete n cs) in H.
    destruct H as [-> | H]; [left; reflexivity | right; apply (IH n H)].
Qed.

Lemma get_Some (st : ChatRun.State) (id : string) (ref : nat)
    (session : Chat.ChatSession) :
  ChatRun.get st id = Some (ref, session)
  <-> ChatRun.chatSessions st !! id = Some ref
      /\ ChatRun.objects st !! ref = Some session.
Proof.
  unfold ChatRun.get.
  destruct (ChatRun.chatSessions st !! id) as [r |].
  - destruct (ChatRun.objects st !! r) as [s |] eqn:E.
    + split; [intros [= <- <-]; auto | intros [[= <-] H]; congruence].
    + split; [discriminate | intros [[= <-] H]; congruence].
  - split; [discriminate | intros [H _]; discriminate].
Qed.

Lemma balanced_initial : ChatRun.balanced ChatRun.initial.
Proof.
  split; [| split].
  - intros id ref H. cbn in H. rewrite lookup_empty in H. discriminate.
  - intros ref session H. cbn in H. discriminate.
  - intros call [].
Qed.

Lemma step_balanced (h : ChatRun.Happening) (st : ChatRun.State) :
  ChatRun.balanced st -> ChatRun.balanced (ChatRun.step h st).
Proof.
  intros (Hmap & Hobj & Hcalls).
  destruct h as [now suffix | sessionId message now | n botResponse now
                | sessionId now | now]; cbn [ChatRun.step].
  - (* a session is started *)
    unfold ChatRun.startChatSession. cbn [snd].
    split; [| split]; cbn [ChatRun.objects ChatRun.chatSessions
                            ChatRun.calls].
    + intros id ref H.
      destruct (decide (Chat.sessionIdAt now suffix = id)) as [E | E].
      * rewrite E, lookup_insert_eq in H. injection H as <-.
        exists (Chat.newSession now suffix). split; [| exact E].
        rewrite lookup_app_r by lia. rewrite Nat.sub_diag. reflexivity.
      * rewrite lookup_insert_ne in H by exact E.
        destruct (Hmap id ref H) as (session & Hs & Hsid).
        exists session. split; [| exact Hsid].
        apply lookup_app_l_Some. exact Hs.
    + intros ref session H.
      apply lookup_snoc_Some in H as [[_ H] | [-> <-]];
        [apply Hobj; exact H |].
      split; [eexists _, _; split; reflexivity |].
      rewrite awaiting_none; [reflexivity |].
      intros c Hc E. specialize (Hcalls c Hc). lia.
    + intros call Hc. rewrite length_app. cbn [List.length].
      specialize (Hcalls call Hc). lia.
  - (* a message is taken up *)
    unfold ChatRun.sendMessage.
    destruct sessionId as [sessionId' |], message as [message' |];
      cbn [snd]; try (split; [| split]; assumption).
    destruct (negb _ || negb _); cbn [snd];
      [split; [| split]; assumption |].
    destruct (ChatRun.get st sessionId') as [[ref session] |] eqn:Hget;
      cbn [snd]; [| split; [| split]; assumption].
    apply get_Some in Hget as [Hid Href].
    assert (Hlt : (ref < List.length (ChatRun.objects st))%nat)
      by (eapply lookup_lt_Some; exact Href).
    destruct (Hobj ref session Href) as ((first & rest & Hfirst & Hbot) & Hbal).
    split; [| split]; cbn [ChatRun.objects ChatRun.chatSessions
                            ChatRun.calls].
    + intros id r H. destruct (Hmap id r H) as (s & Hs & Hsid).
      destruct (decide (ref = r)) as [<- | E].
      * rewrite list_lookup_insert_eq by exact Hlt.
        eexists. split; [reflexivity |]. cbn [Chat.pushed Chat.sid].
        congruence.
      * rewrite list_lookup_insert_ne by exact E. exists s. auto.
    + intros r s H. rewrite awaiting_snoc. cbn [ChatRun.target].
      apply list_lookup_insert_Some in H as [(<- & <- & _) | (E & H)].
      * cbn [Chat.pushed Chat.messages]. rewrite Hfirst. split.
        -- exists first, (rest ++ [Chat.userMessageAt now message']).
           split; [reflexivity | exact Hbot].
        -- rewrite <- Hfirst, !said_snoc. cbn [Chat.userMessageAt Chat.sender
             ChatRun.Sender_eqb]. rewrite Nat.eqb_refl. lia.
      * destruct (Hobj r s H) as [Hhead Hcount]. split; [exact Hhead |].
        apply Nat.eqb_neq in E. rewrite E. lia.
    + intros call Hc. rewrite length_insert.
      apply in_app_iff in Hc as [Hc | [<- | []]]; [apply Hcalls, Hc |].
      exact Hlt.
  - (* the chatbot answers a waiting call *)
    unfold ChatRun.resume.
    destruct (ChatRun.calls st !! n) as [call |] eqn:Hcall;
      [| split; [| split]; assumption].
    destruct (ChatRun.objects st !! ChatRun.target call) as [session |]
      eqn:Href; [| split; [| split]; assumption].
    assert (Hlt : (ChatRun.target call < List.length (ChatRun.objects st))%nat)
      by (eapply lookup_lt_Some; exact Href).
    destruct (Hobj _ session Href) as ((first & rest & Hfirst & Hbot) & Hbal).
    split; [| split]; cbn [ChatRun.objects ChatRun.chatSessions
                            ChatRun.calls].
    + intros id r H. destruct (Hmap id r H) as (s & Hs & Hsid).
      destruct (decide (ChatRun.target call = r)) as [<- | E].
      * rewrite list_lookup_insert_eq by exact Hlt.
        eexists. split; [reflexivity |]. cbn [Chat.replied Chat.sid].
        congruence.
      * rewrite list_lookup_insert_ne by exact E. exists s. auto.
    + intros r s H.
      pose proof (awaiting_delete r _ n call Hcall) as Hdel.
      apply list_lookup_insert_Some in H as [(<- & <- & _) | (E & H)].
      * cbn [Chat.replied Chat.messages]. rewrite Hfirst. split.
        -- exists first,
             (rest ++ [Chat.botMessageAt now botResponse]).
           split; [reflexivity | exact Hbot].
        -- rewrite <- Hfirst, !said_snoc. cbn [Chat.botMessageAt Chat.sender
             ChatRun.Sender_eqb]. rewrite Nat.eqb_refl in Hdel. lia.
      * destruct (Hobj r s H) as [Hhead Hcount]. split; [exact Hhead |].
        apply Nat.eqb_neq in E. rewrite E in Hdel. lia.
    + intros c Hc. rewrite length_insert. apply Hcalls.
      eapply In_delete. exact Hc.
  - (* a session is ended *)
    unfold ChatRun.endChatSession.
    destruct (ChatRun.get st sessionId) as [[ref session] |];
      cbn [snd]; [| split; [| split]; assumption].
    split; [| split]; cbn [ChatRun.objects ChatRun.chatSessions
                            ChatRun.calls]; [| exact Hobj | exact Hcalls].
    intros id r H. apply lookup_delete_Some in H as [_ H]. apply Hmap, H.
  - (* the sweep *)
    unfold ChatRun.sweep.
    split; [| split]; cbn [ChatRun.objects ChatRun.chatSessions
                            ChatRun.calls]; [| exact Hobj | exact Hcalls].
    intros id r H. apply map_lookup_filter_Some in H as [H _].
    apply Hmap, H.
Qed.

Lemma run_balanced (happenings : list ChatRun.Happening)
    (st : ChatRun.State) :
  ChatRun.balanced st -> ChatRun.balanced (ChatRun.run happenings st).
Proof.
  revert st. induction happenings as [| h rest IH]; intros st Hst;
    [exact Hst |].
  cbn [ChatRun.run]. apply IH, step_balanced, Hst.
Qed.

(** X20: whatever requests, replies of the chatbot and sweeps happen in whatever
    order, overlapping or not: every session in the map is filed under its
    own id, its first message is one of the bot, and its user messages are
    exactly as many as the replies stored after them and the messages that
    still await their reply. *)
Theorem overlapping_sends_stay_balanced (happenings : list ChatRun.Happening)
    (id : string) (ref : nat) :
  let st := ChatRun.run happenings ChatRun.initial in
  ChatRun.chatSessions st !! id = Some ref ->
  exists session,
    ChatRun.get st id = Some (ref, session)
    /\ Chat.sid session = id
    /\ (exists first rest,
          Chat.messages session = first :: rest
          /\ Chat.sender first = Chat.bot)
    /\ (ChatRun.said Chat.user (Chat.messages session) + 1
        = ChatRun.said Chat.bot (Chat.messages session)
          + ChatRun.awaiting ref (ChatRun.calls st))%nat.
Proof.
  cbv zeta. intros H.
  destruct (run_balanced happenings _ balanced_initial) as (Hmap & Hobj & _).
  destruct (Hmap id ref H) as (session & Hs & Hsid).
  exists session. split; [apply get_Some; auto |].
  split; [exact Hsid |]. apply Hobj, Hs.
Qed.

Lemma send_waits (st : ChatRun.State) (id text : string) (now : Z)
    (ref : nat) (session : Chat.ChatSession) :
  id <> EmptyString -> text <> EmptyString ->
  ChatRun.get st id = Some (ref, session) ->
  ChatRun.sendMessage (Some id) (Some text) now st
  = (None,
     {| ChatRun.objects :=
          <[ref := Chat.pushed session (Chat.userMessageAt now text)]>
            (ChatRun.objects st);
        ChatRun.chatSessions := ChatRun.chatSessions st;
        ChatRun.calls :=
          ChatRun.calls st
          ++ [{| ChatRun.target := ref;
                 ChatRun.callId := id;
                 ChatRun.userText := text;
                 ChatRun.askedContext := Chat.context session;
                 ChatRun.sentUser := Chat.userMessageAt now text |}] |}).
Proof.
  intros Hid Htext Hget. unfold ChatRun.sendMessage.
  destruct id as [| c id']; [contradiction Hid; reflexivity |].
  destruct text as [| c' text']; [contradiction Htext; reflexivity |].
  cbn [truthy negb orb]. rewrite Hget. reflexivity.
Qed.

Lemma get_written (objs : list Chat.ChatSession) (sessions : gmap string nat)
    (cs cs' : list ChatRun.Call) (id : string) (ref : nat)
    (session session' : Chat.ChatSession) :
  ChatRun.get (ChatRun.Build_State objs sessions cs) id
  = Some (ref, session) ->
  ChatRun.get (ChatRun.Build_State (<[ref := session']> objs) sessions cs') id
  = Some (ref, session').
Proof.
  intros H. apply get_Some in H as [Hid Href]. apply get_Some.
  cbn [ChatRun.chatSessions ChatRun.objects] in *. split; [exact Hid |].
  apply list_lookup_insert_eq. eapply lookup_lt_Some. exact Href.
Qed.

Lemma resume_at (objs : list Chat.ChatSession) (sessions : gmap string nat)
    (before after : list ChatRun.Call) (call : ChatRun.Call)
    (session : Chat.ChatSession) (botResponse : string) (later : Z) :
  objs !! ChatRun.target call = Some session ->
  ChatRun.resume (List.length before) botResponse later
    (ChatRun.Build_State objs sessions (before ++ call :: after))
  = Some
      (Chat.Ok
         (Chat.sentOf (ChatRun.callId call) (ChatRun.userText call)
            (ChatRun.sentUser call) botResponse later
            (Chat.replied session (ChatRun.userText call) botResponse later)),
       ChatRun.Build_State
         (<[ChatRun.target call :=
              Chat.replied session (ChatRun.userText call) botResponse later]>
            objs)
         sessions (before ++ after)).
Proof.
  intros Href. unfold ChatRun.resume.
  cbn [ChatRun.calls ChatRun.objects ChatRun.chatSessions].
  rewrite list_lookup_middle by reflexivity. rewrite Href.
  rewrite delete_middle. reflexivity.
Qed.

(** X21: two messages to one session, the second taken up while the first
    awaits the chatbot: both are answered, but the session stores the two
    user messages first and the two replies after them, and the chatbot was
    asked about the second message with the context as it was before the
    first. *)
Theorem overlapping_messages_interleave (st : ChatRun.State)
    (id t1 t2 r1 r2 : string) (now1 now2 now3 now4 : Z) (ref : nat)
    (session : Chat.ChatSession) :
  id <> EmptyString -> t1 <> EmptyString -> t2 <> EmptyString ->
  ChatRun.get st id = Some (ref, session) ->
  let n := List.length (ChatRun.calls st) in
  let taken :=
    ChatRun.run [ChatRun.SendMessage (Some id) (Some t1) now1;
                 ChatRun.SendMessage (Some id) (Some t2) now2] st in
  let answered :=
    ChatRun.run [ChatRun.ChatbotReplied n r1 now3;
                 ChatRun.ChatbotReplied n r2 now4] taken in
  (exists c1 c2,
      ChatRun.calls taken = ChatRun.calls st ++ [c1; c2]
      /\ ChatRun.userText c1 = t1 /\ ChatRun.userText c2 = t2
      /\ ChatRun.askedContext c1 = Chat.context session
      /\ ChatRun.askedContext c2 = Chat.context session)
  /\ exists session',
       ChatRun.get answered id = Some (ref, session')
       /\ Chat.messages session'
          = Chat.messages session
            ++ [Chat.userMessageAt now1 t1; Chat.userMessageAt now2 t2;
                Chat.botMessageAt now3 r1; Chat.botMessageAt now4 r2]
       /\ Chat.context session'
          = String.append (Chat.context session)
              (String.append (Chat.exchangeText t1 r1)
                 (Chat.exchangeText t2 r2))
       /\ ChatRun.calls answered = ChatRun.calls st.
Proof.
  intros Hid Ht1 Ht2 Hget. cbv zeta.
  cbn [ChatRun.run ChatRun.step].
  rewrite (send_waits st id t1 now1 ref session Hid Ht1 Hget). cbn [snd].
  destruct st as [objs sessions cs].
  cbn [ChatRun.objects ChatRun.chatSessions ChatRun.calls].
  pose proof (get_written objs sessions cs
                (cs ++ [{| ChatRun.target := ref;
                           ChatRun.callId := id;
                           ChatRun.userText := t1;
                           ChatRun.askedContext := Chat.context session;
                           ChatRun.sentUser := Chat.userMessageAt now1 t1 |}])
                id ref session
                (Chat.pushed session (Chat.userMessageAt now1 t1)) Hget)
    as Hget1.
  rewrite (send_waits _ id t2 now2 ref _ Hid Ht2 Hget1). cbn [snd].
  cbn [ChatRun.objects ChatRun.chatSessions ChatRun.calls Chat.pushed
       Chat.context].
  split.
  { eexists _, _. rewrite <- app_assoc. cbn [app].
    split; [reflexivity |]. repeat split. }
  apply get_Some in Hget as [Hmap Href].
  cbn [ChatRun.objects ChatRun.chatSessions] in Hmap, Href.
  assert (Hlt : (ref < List.length objs)%nat)
    by (eapply lookup_lt_Some; exact Href).
  rewrite <- app_assoc. cbn [app].
  rewrite list_insert_insert_eq.
  erewrite resume_at;
    [| cbn [ChatRun.target]; apply list_lookup_insert_eq; exact Hlt].
  cbn [ChatRun.target ChatRun.userText]. rewrite list_insert_insert_eq.
  erewrite resume_at;
    [| cbn [ChatRun.target]; apply list_lookup_insert_eq; exact Hlt].
  cbn [ChatRun.target ChatRun.userText]. rewrite list_insert_insert_eq.
  eexists. split.
  { apply get_Some. cbn [ChatRun.objects ChatRun.chatSessions].
    split; [exact Hmap |]. apply list_lookup_insert_eq. exact Hlt. }
  cbn [Chat.replied Chat.pushed Chat.messages Chat.context ChatRun.calls].
  rewrite <- !app_assoc. cbn [app]. rewrite app_nil_r.
  split; [reflexivity |]. split; [| reflexivity].
  rewrite append_assoc_string. reflexivity.
Qed.

(** X22: a session ended while one of its messages awaits the chatbot: the
    ending counts the message of the user, the reply is still answered with
    success and with a count of two more than before the message, but the
    session is gone, so the exchange is stored nowhere a later request can
    reach. *)
Theorem reply_after_end_is_lost (st : ChatRun.State) (id text r : string)
    (now1 now2 now3 : Z) (ref : nat) (session : Chat.ChatSession) :
  id <> EmptyString -> text <> EmptyString ->
  ChatRun.get st id = Some (ref, session) ->
  let n := List.length (ChatRun.calls st) in
  let taken :=
    ChatRun.step (ChatRun.SendMessage (Some id) (Some text) now1) st in
  let ended := ChatRun.step (ChatRun.EndChat id now2) taken in
  Chat.endedCount
    (match fst (ChatRun.endChatSession id now2 taken) with
     | Chat.Ok data => data
     | Chat.Fail _ _ _ =>
         {| Chat.endedMessage := ""; Chat.endedId := "";
            Chat.duration := 0; Chat.endedCount := 0 |}
     end)
  = S (List.length (Chat.messages session))
  /\ exists sent after,
       ChatRun.resume n r now3 ended = Some (Chat.Ok sent, after)
       /\ Chat.botMessage sent = Chat.botMessageAt now3 r
       /\ Chat.messageCount sent
          = S (S (List.length (Chat.messages session)))
       /\ ChatRun.chatSessions after !! id = None
       /\ ChatRun.getChatHistory id after
          = Chat.Fail 404 "Session not found" "Chat session does not exist".
Proof.
  intros Hid Htext Hget. cbv zeta. cbn [ChatRun.step].
  rewrite (send_waits st id text now1 ref session Hid Htext Hget).
  cbn [snd]. destruct st as [objs sessions cs].
  cbn [ChatRun.objects ChatRun.chatSessions ChatRun.calls].
  unfold ChatRun.endChatSession.
  erewrite get_written by exact Hget. cbn [fst snd].
  apply get_Some in Hget as [Hmap Href].
  cbn [ChatRun.objects ChatRun.chatSessions] in Hmap, Href.
  assert (Hlt : (ref < List.length objs)%nat)
    by (eapply lookup_lt_Some; exact Href).
  split.
  { cbn [Chat.endedCount Chat.pushed Chat.messages].
    rewrite length_app. cbn [List.length]. lia. }
  cbn [ChatRun.objects ChatRun.chatSessions ChatRun.calls].
  erewrite resume_at;
    [| cbn [ChatRun.target]; apply list_lookup_insert_eq; exact Hlt].
  eexists _, _. split; [reflexivity |].
  cbn [Chat.sentOf Chat.botMessage Chat.messageCount Chat.replied
       Chat.pushed Chat.messages ChatRun.chatSessions].
  split; [reflexivity |]. split.
  { rewrite !length_app. cbn [List.length]. lia. }
  assert (Hgone : delete id sessions !! id = None) by apply lookup_delete_eq.
  split; [exact Hgone |].
  unfold ChatRun.getChatHistory, ChatRun.get.
  cbn [ChatRun.chatSessions]. rewrite Hgone. reflexivity.
Qed.

Lemma view_get (st : ChatRun.State) (id : string) :
  ChatRun.view st !! id = option_map snd (ChatRun.get st id).
Proof.
  unfold ChatRun.view, ChatRun.get. rewrite lookup_omap.
  destruct (ChatRun.chatSessions st !! id) as [ref |]; [| reflexivity].
  cbn. destruct (ChatRun.objects st !! ref); reflexivity.
Qed.

Lemma view_written (objs : list Chat.ChatSession)
    (sessions : gmap string nat) (cs cs' : list ChatRun.Call) (id : string)
    (ref : nat) (session' : Chat.ChatSession) :
  ChatRun.balanced (ChatRun.Build_State objs sessions cs) ->
  sessions !! id = Some ref ->
  ChatRun.view (ChatRun.Build_State (<[ref := session']> objs) sessions cs')
  = <[id := session']> (ChatRun.view (ChatRun.Build_State objs sessions cs)).
Proof.
  intros (Hmap & _ & _) Hid. apply map_eq. intros k.
  unfold ChatRun.view. cbn [ChatRun.objects ChatRun.chatSessions] in *.
  destruct (Hmap id ref Hid) as (session & Href & Hsid).
  destruct (decide (id = k)) as [<- | E].
  - rewrite lookup_insert_eq, lookup_omap, Hid. cbn.
    apply list_lookup_insert_eq. eapply lookup_lt_Some. exact Href.
  - rewrite lookup_insert_ne by exact E. rewrite !lookup_omap.
    destruct (sessions !! k) as [r |] eqn:Hk; [| reflexivity]. cbn.
    apply list_lookup_insert_ne. intros <-.
    destruct (Hmap k ref Hk) as (s & Hs & Hsid'). congruence.
Qed.

Section Unbroken.

Variable World : Type.
Variable Date_now : World -> Z.
Variable setTimeout : Z -> World -> World.
Variable generateContent :
  string -> World -> Retry.Outcome AiService.GenerateContentResult * World.
Variable GEMINI_API_KEY : option string.
Variable randomSuffix : World -> string.

(** X23: [sendMessage] taken as one step is what happens when the chatbot
    answers before anything else does: on the same sessions, the answer of
    the one step is the answer of the two halves with the reply of the
    chatbot in between, and so are the sessions afterwards. *)
Theorem unbroken_send_is_sendMessage (st : ChatRun.State)
    (store : Chat.Store World) (sessionId message : option string) :
  ChatRun.balanced st ->
  Chat.chatSessions store = ChatRun.view st ->
  let now := Date_now (Retry.world (Chat.runtime store)) in
  let whole :=
    Chat.sendMessage World Date_now setTimeout generateContent GEMINI_API_KEY
      sessionId message store in
  match ChatRun.sendMessage sessionId message now st with
  | (Some reply, taken) => whole = (reply, store) /\ taken = st
  | (None, taken) =>
      exists botResponse rt sent answered,
        ChatRun.resume (List.length (ChatRun.calls st)) botResponse
          (Date_now (Retry.world rt)) taken
        = Some (Chat.Ok sent, answered)
        /\ whole = (Chat.Ok sent,
                    Chat.Build_Store (ChatRun.view answered) rt)
  end.
Proof.
  intros Hbal Hview. cbv zeta.
  unfold Chat.sendMessage, ChatRun.sendMessage.
  destruct sessionId as [id |], message as [text |];
    try (split; reflexivity).
  destruct (negb (truthy (Some id)) || negb (truthy (Some text)));
    [split; reflexivity |].
  rewrite Hview, view_get.
  destruct (ChatRun.get st id) as [[ref session] |] eqn:Hget;
    cbn [option_map snd]; [| split; reflexivity].
  destruct (Chat.chatbotResponse World setTimeout generateContent
              GEMINI_API_KEY text (Chat.context session)
              (Chat.runtime store)) as [botResponse rt] eqn:Hreply.
  apply get_Some in Hget as [Hid Href].
  assert (Hlt : (ref < List.length (ChatRun.objects st))%nat)
    by (eapply lookup_lt_Some; exact Href).
  destruct st as [objs sessions cs].
  cbn [ChatRun.objects ChatRun.chatSessions ChatRun.calls] in *.
  exists botResponse, rt. eexists _, _. split.
  - erewrite (resume_at _ _ cs []);
      [reflexivity | cbn [ChatRun.target]; apply list_lookup_insert_eq;
                     exact Hlt].
  - cbn [ChatRun.target ChatRun.userText ChatRun.callId ChatRun.sentUser].
    rewrite list_insert_insert_eq, app_nil_r.
    rewrite (view_written objs sessions cs cs id ref _ Hbal Hid).
    reflexivity.
Qed.

End Unbroken.

(** * The further properties at sample inputs *)

Lemma page_and_server_agree_witness :
  let info := sampleClientInfo "2030-01-01" Client.unopened Client.otc in
  exists r data,
    Client.getRecommendation JsDate.parseISODate info false noonJune15
    = Some r
    /\ Server.getDonateDisposeRecommendation JsDate.parseISODate 0 noPlaces
         (Form.toRequest info false None) noonJune15 noonJune15
       = Server.Json200 data
    /\ Server.recommendation data
       = DecisionTable.label (Client.recommendation r)
    /\ Server.reasoning data = Client.reasoning r
    /\ Server.instructions (Server.resultData data) = Client.instructions r.
Proof.
  cbv zeta.
  set (info := sampleClientInfo "2030-01-01" Client.unopened Client.otc).
  assert (Hr : exists r,
             Client.getRecommendation JsDate.parseISODate info false
               noonJune15 = Some r)
    by (vm_compute; eexists; reflexivity).
  destruct Hr as [r Hr].
  destruct (page_and_server_agree JsDate.parseISODate 0 noPlaces info false
              None noonJune15 noonJune15 r Hr) as (data & Hdata & Hrest).
  { right. right. exists "2030-01-01"%string, 21915.
    split; [reflexivity |]. split; [vm_compute; reflexivity |].
    split; [vm_compute; discriminate |]. vm_compute. split; [discriminate | reflexivity]. }
  exists r, data. split; [exact Hr |]. split; [exact Hdata | exact Hrest].
Defined.

Lemma donate_answer_lists_centers_witness :
  exists data d,
    Server.getDonateDisposeRecommendation JsDate.parseISODate 0 noPlaces
      (sampleServerBody "2030-01-01" "unopened" "otc" false)
      noonJune15 noonJune15 = Server.Json200 data
    /\ Server.donation (Server.resultData data) = Some d
    /\ Server.nearbyCenters d = Server.MOCK_CENTERS
    /\ Server.source d = "Mock Data"%string.
Proof.
  assert (H : exists data d,
             Server.getDonateDisposeRecommendation JsDate.parseISODate 0
               noPlaces (sampleServerBody "2030-01-01" "unopened" "otc" false)
               noonJune15 noonJune15 = Server.Json200 data
             /\ Server.donation (Server.resultData data) = Some d)
    by (vm_compute; eexists _, _; split; reflexivity).
  destruct H as (data & d & Hdata & Hd).
  exists data, d. split; [exact Hdata |]. split; [exact Hd |].
  pose proof (donate_answer_lists_centers JsDate.parseISODate 0 noPlaces
                _ _ _ data Hdata) as H.
  rewrite Hd in H. destruct H as (_ & _ & _ & Hmock & _).
  exact (Hmock eq_refl).
Defined.

Lemma guidelines_iff_dispose_witness :
  exists data,
    Server.getDonateDisposeRecommendation JsDate.parseISODate 0 noPlaces
      (sampleServerBody "2020-01-01" "unopened" "otc" false)
      noonJune15 noonJune15 = Server.Json200 data
    /\ (Server.guidelines (Server.resultData data)
        = Some Server.DISPOSAL_GUIDELINES
        <-> Server.recommendation data = "Dispose"%string).
Proof.
  assert (H : exists data,
             Server.getDonateDisposeRecommendation JsDate.parseISODate 0
               noPlaces (sampleServerBody "2020-01-01" "unopened" "otc" false)
               noonJune15 noonJune15 = Server.Json200 data)
    by (vm_compute; eexists; reflexivity).
  destruct H as (data & Hdata).
  exists data. split; [exact Hdata |].
  exact (proj1 (guidelines_iff_dispose JsDate.parseISODate 0 noPlaces
                  _ _ _ data Hdata)).
Defined.

Lemma search_lists_ai_result_then_mocks_witness :
  exists results total,
    fst (OtcRoutes.searchOTCMedicines Z clockOf waiting
           (answering aspirinAnswer) JsonText.parse "TypeError"
           (OtcRoutes.Text "Aspirin") (freshService 0))
    = OtcRoutes.Json200 results "Aspirin" total
    /\ total = List.length results.
Proof.
  assert (H : exists results total,
             fst (OtcRoutes.searchOTCMedicines Z clockOf waiting
                    (answering aspirinAnswer) JsonText.parse "TypeError"
                    (OtcRoutes.Text "Aspirin") (freshService 0))
             = OtcRoutes.Json200 results "Aspirin" total)
    by (vm_compute; eexists _, _; reflexivity).
  destruct H as (results & total & H).
  exists results, total. split; [exact H |].
  exact (proj1 (proj2 (search_lists_ai_result_then_mocks Z clockOf waiting
                         (answering aspirinAnswer) JsonText.parse "TypeError"
                         "Aspirin" (freshService 0) results "Aspirin" total
                         ltac:(discriminate) H))).
Defined.

Lemma search_fails_on_unnamed_result_witness :
  fst (OtcRoutes.searchOTCMedicines Z clockOf waiting (answering "[]")
         JsonText.parse "TypeError" (OtcRoutes.Text "para") (freshService 0))
  = OtcRoutes.Status500 "Search failed" "TypeError".
Proof.
  apply (search_fails_on_unnamed_result Z clockOf waiting (answering "[]")
           JsonText.parse "TypeError" "para" (freshService 0)).
  - discriminate.
  - vm_compute. reflexivity.
  - intros s. vm_compute. discriminate.
  - vm_compute. reflexivity.
Defined.

Lemma search_after_failed_lookup_witness :
  fst (OtcRoutes.searchOTCMedicines Z clockOf waiting (answering "oops")
         JsonText.parse "TypeError" (OtcRoutes.Text "Paracetamol")
         (freshService 0))
  = OtcRoutes.Json200
      [OtcRoutes.aiEntry
         (AiService.createFallbackMedicineDetails "Paracetamol")]
      "Paracetamol" 1.
Proof.
  assert (Hmiss : AiService.isMiss Z clockOf "Paracetamol" (freshService 0)).
  { unfold AiService.isMiss, freshService. cbn [AiService.medicineCache].
    rewrite lookup_empty. exact I. }
  assert (Hfail : AiService.failedAnswer JsonText.parse
            (Retry.Resolved {| AiService.text := Retry.Resolved "oops" |})).
  { right. split; [vm_compute; discriminate | reflexivity]. }
  rewrite (search_after_failed_lookup Z clockOf waiting (answering "oops")
             JsonText.parse "TypeError" "Paracetamol" (freshService 0)
             _ (Retry.Build_Runtime 1200 [Retry.Attempt])
             ltac:(discriminate) Hmiss eq_refl Hfail).
  reflexivity.
Defined.

Lemma send_appends_exchange_witness :
  exists sent session' rt,
    Chat.sendMessage Z clockOf waiting (answering "Drink water and rest.")
      (Some "key"%string) (Some "s1"%string)
      (Some "I have a headache"%string) sampleStore
    = (Chat.Ok sent,
       Chat.Build_Store
         (<["s1"%string := session']> (Chat.chatSessions sampleStore)) rt)
    /\ Chat.messages session'
       = [greeting; Chat.userMessage sent; Chat.botMessage sent]
    /\ Chat.message (Chat.userMessage sent) = "I have a headache"%string
    /\ Chat.messageCount sent = 3%nat.
Proof.
  destruct (send_appends_exchange Z clockOf waiting
              (answering "Drink water and rest.") (Some "key"%string)
              "s1" "I have a headache" sampleStore sampleSession
              ltac:(discriminate) ltac:(discriminate)
              (lookup_insert_eq _ _ _))
    as (sent & session' & rt & Hsend & Hmsgs & _ & Htext & _ & _ & Hcount & _).
  exists sent, session', rt.
  split; [exact Hsend |]. split; [exact Hmsgs |].
  split; [exact Htext | exact Hcount].
Defined.

Lemma sessions_stay_conversations_witness :
  exists session,
    Chat.chatSessions
      (Chat.serve Z clockOf waiting (answering "Drink water and rest.")
         (Some "key"%string) fixedSuffix
         [(0, Chat.StartChat);
          (1000, Chat.SendMessage (Some "chat_0_k3x9q2b7a"%string)
                   (Some "I have a headache"%string));
          (2000, Chat.Sweep)]
         (Chat.Build_Store ∅ (Retry.Build_Runtime 0 [])))
    !! "chat_0_k3x9q2b7a"%string = Some session
    /\ Chat.sid session = "chat_0_k3x9q2b7a"%string
    /\ Chat.conversation (Chat.messages session) = true
    /\ Nat.Odd (List.length (Chat.messages session)).
Proof.
  assert (H : exists session,
             Chat.chatSessions
               (Chat.serve Z clockOf waiting
                  (answering "Drink water and rest.")
                  (Some "key"%string) fixedSuffix
                  [(0, Chat.StartChat);
                   (1000, Chat.SendMessage (Some "chat_0_k3x9q2b7a"%string)
                            (Some "I have a headache"%string));
                   (2000, Chat.Sweep)]
                  (Chat.Build_Store ∅ (Retry.Build_Runtime 0 [])))
             !! "chat_0_k3x9q2b7a"%string = Some session)
    by (vm_compute; eexists; reflexivity).
  destruct H as (session & H).
  exists session. split; [exact H |].
  exact (sessions_stay_conversations Z clockOf waiting
           (answering "Drink water and rest.") (Some "key"%string)
           fixedSuffix _ _ _ session H).
Defined.

Lemma blank_search_asks_nobody_witness :
  Places.fetchNearbyPlaces sampleGeocoder sampleOverpass sampleParseFloat
    halfRandom (Some "   "%string) None
  = ([], ([], None)).
Proof.
  apply (blank_search_asks_nobody sampleGeocoder sampleOverpass
           sampleParseFloat halfRandom).
  right. exists "   "%string. split; reflexivity.
Defined.

Lemma text_search_geocodes_in_india_witness :
  exists asked found geocoded,
    Places.fetchNearbyPlaces sampleGeocoder sampleOverpass sampleParseFloat
      halfRandom (Some "Pune"%string) None
    = (Places.Geocode "Pune, India"
         :: List.map Places.Overpass asked, (found, geocoded))
    /\ (forall e, In e asked -> In e Places.OVERPASS_ENDPOINTS).
Proof.
  destruct (text_search_geocodes_in_india sampleGeocoder sampleOverpass
              sampleParseFloat halfRandom "Pune"
              ltac:(vm_compute; discriminate))
    as (searchStr & asked & found & geocoded & Hsearch & _ & Hshape & Hin & _).
  assert (HsearchStr : searchStr = "Pune, India"%string).
  { destruct Hshape as [-> | [-> _]]; [| reflexivity].
    vm_compute in Hsearch. discriminate Hsearch. }
  subst searchStr.
  exists asked, found, geocoded. split; [exact Hsearch | exact Hin].
Defined.


Lemma ocr_expiry_decides_witness :
  (AiService.expiryDate expiredKeep = Some "2020-01-01"%string
   /\ AiService.recommendation
        (AiService.validateExpiry JsDate.parseISODate expiredKeep noonJune15)
      = Some "dispose"%string
   /\ AiService.isExpired
        (AiService.validateExpiry JsDate.parseISODate expiredKeep noonJune15)
      = Some (JsDate.lt (JsDate.parseISODate "2020-01-01") noonJune15))
  /\ (AiService.expiryDate freshKeep = Some "2030-01-01"%string
      /\ AiService.recommendation
           (AiService.validateExpiry JsDate.parseISODate freshKeep noonJune15)
         = Some "donate"%string
      /\ AiService.reasoning
           (AiService.validateExpiry JsDate.parseISODate freshKeep noonJune15)
         = Some "Medicine is within expiry date and in good condition. Consider donating to local pharmacy or healthcare center."%string).
Proof.
  split.
  - split; [reflexivity |].
    destruct (proj1 (ocr_expiry_decides JsDate.parseISODate expiredKeep
                       noonJune15) "2020-01-01"%string eq_refl
                ltac:(discriminate)) as (Hexpired & Hdispose & _).
    split; [exact (proj1 (Hdispose eq_refl)) | exact Hexpired].
  - split; [reflexivity |].
    destruct (proj1 (ocr_expiry_decides JsDate.parseISODate freshKeep
                       noonJune15) "2030-01-01"%string eq_refl
                ltac:(discriminate)) as (_ & _ & Hdonate & _).
    exact (Hdonate eq_refl (or_introl eq_refl)).
Defined.

Lemma suggestions_of_first_group_witness :
  Chat.generateSuggestions "High FEVER since Monday" ""
  = ["OTC recommendations"; "When to see a doctor?";
     "Home remedies for fever"]%string
  /\ (Chat.generateSuggestions "I have a cold" ""
      = ["Upload a prescription"; "Understand blood report";
         "What is a dosage?"]%string
      \/ Chat.generateSuggestions "I have a cold" ""
         = ["Find disposal centers"; "Can I donate old medicine?";
            "Disposal guidelines"]%string).
Proof.
  split.
  - destruct (suggestions_of_first_group "High FEVER since Monday" "")
      as (_ & _ & Hpain & _).
    apply Hpain.
    + intros (k & Hin & Hk).
      repeat (destruct Hin as [<- | Hin]; [vm_compute in Hk; discriminate |]).
      contradiction.
    + intros (k & Hin & Hk).
      repeat (destruct Hin as [<- | Hin]; [vm_compute in Hk; discriminate |]).
      contradiction.
    + exists "fever"%string. split; [cbn; auto | reflexivity].
  - destruct (suggestions_of_first_group "I have a cold" "")
      as (_ & _ & _ & _ & _ & _ & Hcold & _).
    exact (Hcold eq_refl).
Defined.

Lemma element_to_facility_witness :
  Places.tag sampleClinic "amenity" = Some "clinic"%string
  /\ Server.type (Places.toCenter 0.5%float sampleClinic) = "Hospital"%string
  /\ Places.located (Places.toCenter 0.5%float sampleClinic) = false.
Proof.
  assert (Htag : Places.tag sampleClinic "amenity" = Some "clinic"%string)
    by (vm_compute; reflexivity).
  split; [exact Htag |].
  destruct (element_to_facility 0.5%float sampleClinic)
    as (Hdrop & _ & _ & _ & Hclinic).
  split.
  - apply Hclinic; [exact Htag | vm_compute; discriminate].
  - apply Hdrop. split; left; reflexivity.
Defined.

Lemma finder_mock_only_without_search_witness :
  (fst (Places.findDonationCenters sampleGeocoder sampleOverpass
          sampleParseFloat halfRandom None (Some "18.52"%string) None) = []
   /\ Places.centers
        (snd (Places.findDonationCenters sampleGeocoder sampleOverpass
                sampleParseFloat halfRandom None (Some "18.52"%string) None))
      = []
   /\ Places.searchLocation
        (snd (Places.findDonationCenters sampleGeocoder sampleOverpass
                sampleParseFloat halfRandom None (Some "18.52"%string) None))
      = "18.52, undefined"%string)
  /\ Places.findDonationCenters sampleGeocoder sampleOverpass
       sampleParseFloat halfRandom (Some "Pune"%string) None None
     = (fst (Places.fetchNearbyPlaces sampleGeocoder sampleOverpass
               sampleParseFloat halfRandom (Some "Pune"%string) None),
        {| Places.centers :=
             fst (snd (Places.fetchNearbyPlaces sampleGeocoder sampleOverpass
                         sampleParseFloat halfRandom (Some "Pune"%string)
                         None));
           Places.geocodedCenter :=
             snd (snd (Places.fetchNearbyPlaces sampleGeocoder sampleOverpass
                         sampleParseFloat halfRandom (Some "Pune"%string)
                         None));
           Places.total :=
             List.length
               (fst (snd (Places.fetchNearbyPlaces sampleGeocoder
                            sampleOverpass sampleParseFloat halfRandom
                            (Some "Pune"%string) None)));
           Places.searchLocation := "Pune";
           Places.source := "OpenStreetMap" |})
  /\ fst (snd (Places.fetchNearbyPlaces sampleGeocoder sampleOverpass
                 sampleParseFloat halfRandom (Some "Pune"%string) None))
     = [Places.toCenter 0.5%float samplePharmacy].
Proof.
  split; [| split].
  - destruct (finder_mock_only_without_search sampleGeocoder sampleOverpass
                sampleParseFloat halfRandom None (Some "18.52"%string) None)
      as (_ & _ & _ & _ & Hlat).
    exact (Hlat eq_refl eq_refl eq_refl).
  - destruct (finder_mock_only_without_search sampleGeocoder sampleOverpass
                sampleParseFloat halfRandom (Some "Pune"%string) None None)
      as (_ & _ & _ & Hsearch & _).
    exact (Hsearch (or_introl eq_refl)).
  - vm_compute. reflexivity.
Defined.

Lemma ended_session_is_gone_witness :
  exists st',
    Chat.endChatSession Z clockOf "s1" sampleStore
    = (Chat.Ok {| Chat.endedMessage := "Chat session ended successfully";
                  Chat.endedId := "s1";
                  Chat.duration := 5000 - 0;
                  Chat.endedCount := 1 |}, st')
    /\ Chat.getChatHistory Z "s1" st'
       = Chat.Fail 404 "Session not found" "Chat session does not exist".
Proof.
  destruct (proj1 (ended_session_is_gone Z clockOf waiting
                     (answering "Drink water and rest.")
                     (Some "key"%string) "s1" sampleStore)
              sampleSession (lookup_insert_eq _ _ _))
    as (st' & Hend & Hhistory & _).
  exists st'. split; [exact Hend | exact Hhistory].
Defined.

Lemma chatbot_always_replies_witness :
  Chat.chatbotResponse Z waiting (answering "Drink water and rest.") None
    "I have a headache" "" (Retry.Build_Runtime 0 [])
  = (Chat.notConfigured, Retry.Build_Runtime 0 []).
Proof.
  exact (proj1 (proj2 (chatbot_always_replies Z waiting
                         (answering "Drink water and rest.") None
                         "I have a headache" ""
                         (Retry.Build_Runtime 0 []))) eq_refl).
Defined.

Lemma send_rejects_without_session_witness :
  Chat.sendMessage Z clockOf waiting (answering "Drink water and rest.")
    (Some "key"%string) (Some "s2"%string) (Some "hello"%string) sampleStore
  = (Chat.Fail 404 "Session not found"
       "Chat session does not exist or has expired", sampleStore).
Proof.
  apply (proj2 (send_rejects_without_session Z clockOf waiting
                  (answering "Drink water and rest.") (Some "key"%string)
                  (Some "s2"%string) (Some "hello"%string) sampleStore)
           "s2"%string "hello"%string eq_refl eq_refl eq_refl eq_refl).
  unfold sampleStore. cbn [Chat.chatSessions].
  rewrite lookup_insert_ne by discriminate. apply lookup_empty.
Defined.

Lemma lookup_touches_only_its_key_witness :
  AiService.medicineCache
    (snd (AiService.getMedicineDetails Z clockOf waiting
            (answering aspirinAnswer) JsonText.parse "Ibuprofen"
            aspirinCached))
  !! "aspirin"%string
  = Some {| AiService.data := JArr []; AiService.timestamp := 0 |}.
Proof.
  rewrite (proj1 (lookup_touches_only_its_key Z clockOf waiting
                    (answering aspirinAnswer) JsonText.parse "Ibuprofen"
                    aspirinCached) "aspirin"%string
             ltac:(vm_compute; discriminate)).
  apply lookup_insert_eq.
Defined.

Lemma suggestions_are_first_ten_matches_witness :
  OtcRoutes.total (OtcRoutes.getOTCSuggestions (OtcRoutes.Text "para"))
  = Some (List.length
            (OtcRoutes.suggestions
               (OtcRoutes.getOTCSuggestions (OtcRoutes.Text "para")))).
Proof.
  destruct (suggestions_are_first_ten_matches (OtcRoutes.Text "para"))
    as (_ & _ & _ & _ & _ & Htotal).
  exact (Htotal eq_refl).
Defined.

Lemma startedState_get :
  ChatRun.get startedState chatId
  = Some (0%nat, Chat.newSession 0 "k3x9q2b7a").
Proof. vm_compute. reflexivity. Qed.

Lemma overlapping_sends_stay_balanced_witness :
  let st :=
    ChatRun.run
      [ChatRun.StartChat 0 "k3x9q2b7a";
       ChatRun.SendMessage (Some chatId) (Some "I have a headache") 1000;
       ChatRun.SendMessage (Some chatId) (Some "and a fever") 1500;
       ChatRun.ChatbotReplied 0 "Drink water and rest." 2000]
      ChatRun.initial in
  exists session,
    ChatRun.get st chatId = Some (0%nat, session)
    /\ (ChatRun.said Chat.user (Chat.messages session) + 1
        = ChatRun.said Chat.bot (Chat.messages session)
          + ChatRun.awaiting 0 (ChatRun.calls st))%nat.
Proof.
  cbv zeta.
  destruct (overlapping_sends_stay_balanced
              [ChatRun.StartChat 0 "k3x9q2b7a";
               ChatRun.SendMessage (Some chatId) (Some "I have a headache")
                 1000;
               ChatRun.SendMessage (Some chatId) (Some "and a fever") 1500;
               ChatRun.ChatbotReplied 0 "Drink water and rest." 2000]
              chatId 0%nat ltac:(vm_compute; reflexivity))
    as (session & Hget & _ & _ & Hcount).
  exists session. split; [exact Hget | exact Hcount].
Defined.

Lemma overlapping_messages_interleave_witness :
  exists session',
    ChatRun.get
      (ChatRun.run
         [ChatRun.SendMessage (Some chatId) (Some "I have a headache") 1000;
          ChatRun.SendMessage (Some chatId) (Some "and a fever") 1500;
          ChatRun.ChatbotReplied 0 "Drink water and rest." 2000;
          ChatRun.ChatbotReplied 0 "See a doctor if it lasts." 2500]
         startedState) chatId
    = Some (0%nat, session')
    /\ List.map Chat.sender (Chat.messages session')
       = [Chat.bot; Chat.user; Chat.user; Chat.bot; Chat.bot].
Proof.
  destruct (overlapping_messages_interleave startedState chatId
              "I have a headache" "and a fever" "Drink water and rest."
              "See a doctor if it lasts." 1000 1500 2000 2500 0%nat
              (Chat.newSession 0 "k3x9q2b7a")
              ltac:(discriminate) ltac:(discriminate) ltac:(discriminate)
              startedState_get)
    as (_ & session' & Hget & Hmessages & _).
  exists session'. split; [exact Hget |].
  rewrite Hmessages. reflexivity.
Defined.

Lemma reply_after_end_is_lost_witness :
  let ended :=
    ChatRun.run
      [ChatRun.SendMessage (Some chatId) (Some "I have a headache") 1000;
       ChatRun.EndChat chatId 1500] startedState in
  exists sent after,
    ChatRun.resume 0 "Drink water and rest." 2000 ended
    = Some (Chat.Ok sent, after)
    /\ Chat.messageCount sent = 3%nat
    /\ ChatRun.getChatHistory chatId after
       = Chat.Fail 404 "Session not found" "Chat session does not exist".
Proof.
  cbv zeta.
  destruct (reply_after_end_is_lost startedState chatId "I have a headache"
              "Drink water and rest." 1000 1500 2000 0%nat
              (Chat.newSession 0 "k3x9q2b7a")
              ltac:(discriminate) ltac:(discriminate) startedState_get)
    as (_ & sent & after & Hresume & _ & Hcount & _ & Hhistory).
  exists sent, after. split; [exact Hresume |].
  split; [exact Hcount | exact Hhistory].
Defined.

Lemma unbroken_send_is_sendMessage_witness :
  exists sent answered rt,
    Chat.sendMessage Z clockOf waiting (answering "Drink water and rest.")
      (Some "key"%string) (Some chatId) (Some "I have a headache"%string)
      (Chat.Build_Store (ChatRun.view startedState)
         (Retry.Build_Runtime 1000 []))
    = (Chat.Ok sent, Chat.Build_Store (ChatRun.view answered) rt).
Proof.
  pose proof (unbroken_send_is_sendMessage Z clockOf waiting
                (answering "Drink water and rest.") (Some "key"%string)
                startedState
                (Chat.Build_Store (ChatRun.view startedState)
                   (Retry.Build_Runtime 1000 []))
                (Some chatId) (Some "I have a headache"%string)
                (run_balanced _ _ balanced_initial) eq_refl) as H.
  cbv zeta in H.
  rewrite (send_waits startedState chatId "I have a headache" _ 0%nat
             (Chat.newSession 0 "k3x9q2b7a")
             ltac:(discriminate) ltac:(discriminate) startedState_get) in H.
  destruct H as (botResponse & rt & sent & answered & _ & Hwhole).
  exists sent, answered, rt. exact Hwhole.
Defined.
